(** * Intent detection and conversation orchestration of the personal assistant

    A shallow embedding of the core of the backend:
    - [app/models/conversation.py]  (Message, Conversation, UserIntent, APIResponse),
    - [app/models/response.py]      (ChatResponse),
    - [app/services/conversation_service.py] (ConversationService),
    - the lexicon functions of the weather, news and calendar services.

    Modelling conventions.
    - A Python [str] is a [string]; a character is an 8-bit code.  Case
      mapping, whitespace, digits and word characters are those of the ASCII
      range; codes from 128 on are neither letters, digits nor spaces.
    - A [float] obtained as a quotient of two small integers, or written as a
      decimal literal, is a rational number ([Q]); comparisons are those of
      the rationals.  The quotients met here have numerator and denominator
      at most 20, so distinct quotients are distinct floats and their order
      is the order of the rationals.
    - A Python [dict] whose iteration order is observed (the lexicon, the
      score table, the conversation registry) is an insertion ordered
      association list; the other dictionaries are [gmap]s.
    - The regular expressions of the source are terms of [Re.regex], run by a
      backtracking matcher with the priorities of Python's [re] module.
    - [uuid.uuid4], [datetime.now] and [random.choice] are oracles of an
      environment, read at the number of draws made so far; the answers of
      the three external services during one call are oracles too. *)

From Stdlib Require Import ZArith QArith Qminmax Ascii String List Sorted Bool Lia.
From stdpp Require Import base option list gmap strings pretty.
Import ListNotations.

#[local] Open Scope string_scope.
#[local] Open Scope list_scope.

(** ** Python strings *)

Module PyStr.

Definition code (c : ascii) : N := N_of_ascii c.

Definition is_upper (c : ascii) : bool := (65 <=? code c)%N && (code c <=? 90)%N.
Definition is_lower (c : ascii) : bool := (97 <=? code c)%N && (code c <=? 122)%N.
Definition is_alpha (c : ascii) : bool := is_upper c || is_lower c.
Definition is_digit (c : ascii) : bool := (48 <=? code c)%N && (code c <=? 57)%N.

(** [str.isspace] on the ASCII range: TAB, LF, VT, FF, CR, FS, GS, RS, US
    and the blank. *)
Definition is_space (c : ascii) : bool :=
  ((9 <=? code c)%N && (code c <=? 13)%N)
  || ((28 <=? code c)%N && (code c <=? 32)%N).

(** [\w]: letters, digits and the underscore. *)
Definition is_word (c : ascii) : bool :=
  is_alpha c || is_digit c || (code c =? 95)%N.

Definition lower_char (c : ascii) : ascii :=
  if is_upper c then ascii_of_N (code c + 32) else c.

(** [s.lower()] *)
Fixpoint lower (s : string) : string :=
  match s with
  | EmptyString => EmptyString
  | String c s' => String (lower_char c) (lower s')
  end.

Fixpoint starts_with (p s : string) : bool :=
  match p, s with
  | EmptyString, _ => true
  | String a p', String b s' => Ascii.eqb a b && starts_with p' s'
  | String _ _, EmptyString => false
  end.

(** [needle in hay] *)
Fixpoint contains (needle hay : string) : bool :=
  starts_with needle hay ||
  match hay with
  | EmptyString => false
  | String _ hay' => contains needle hay'
  end.

Fixpoint lstrip (s : string) : string :=
  match s with
  | String c s' => if is_space c then lstrip s' else s
  | EmptyString => EmptyString
  end.

Fixpoint rstrip (s : string) : string :=
  match s with
  | EmptyString => EmptyString
  | String c s' =>
      match rstrip s' with
      | EmptyString => if is_space c then EmptyString else String c EmptyString
      | r => String c r
      end
  end.

(** [s.strip()] *)
Definition strip (s : string) : string := rstrip (lstrip s).

Fixpoint take (n : nat) (s : string) : string :=
  match n, s with
  | S n', String c s' => String c (take n' s')
  | _, _ => EmptyString
  end.

(** [x in [a, b, ...]] for a list of strings *)
Definition mem (x : string) (l : list string) : bool :=
  existsb (String.eqb x) l.

(** [any(word in s for word in words)] *)
Definition any_in (words : list string) (s : string) : bool :=
  existsb (fun w => contains w s) words.

End PyStr.

(** ** Regular expressions, as Python's [re] runs them *)

Module Re.

Inductive regex : Type :=
| Eps                                   (* the empty pattern *)
| Chr (c : ascii)                       (* one literal character *)
| Cls (p : ascii -> bool)               (* a class: [..], \s, \d, . *)
| Cat (r1 r2 : regex)                   (* r1 r2 *)
| Alt (r1 r2 : regex)                   (* r1 | r2, left first *)
| Star (greedy : bool) (r : regex)      (* r* and r*? *)
| Grp (n : nat) (r : regex)             (* the n-th capturing group *)
| Eos                                   (* $ *)
| WordB.                                (* \b *)

Definition Plus (greedy : bool) (r : regex) : regex := Cat r (Star greedy r).
Definition Opt (r : regex) : regex := Alt r Eps.

Fixpoint lit (s : string) : regex :=
  match s with
  | EmptyString => Eps
  | String c EmptyString => Chr c
  | String c s' => Cat (Chr c) (lit s')
  end.

Fixpoint alts (rs : list regex) : regex :=
  match rs with
  | [] => Eps
  | [r] => r
  | r :: rs' => Alt r (alts rs')
  end.

(** Character classes of the source. *)
Definition space : regex := Cls PyStr.is_space.                     (* \s *)
Definition digit : regex := Cls PyStr.is_digit.                     (* \d *)
Definition dot : regex := Cls (fun c => negb (Ascii.eqb c "010")).  (* . *)
Definition one_of (s : string) : regex :=
  Cls (fun c => PyStr.contains (String c EmptyString) s).

(** The state of a match attempt: the character before the cursor, the
    text after it, and the groups captured so far. *)
Record mstate : Type := MState {
  prev : option ascii;
  rest : string;
  caps : list (nat * string)
}.

Definition set_cap (n : nat) (v : string) (cs : list (nat * string)) :=
  (n, v) :: List.filter (fun p => negb (Nat.eqb (fst p) n)) cs.

Definition group (cs : list (nat * string)) (n : nat) : option string :=
  snd <$> List.find (fun p => Nat.eqb (fst p) n) cs.

Definition same_char (ignorecase : bool) (c d : ascii) : bool :=
  if ignorecase
  then Ascii.eqb (PyStr.lower_char c) (PyStr.lower_char d)
  else Ascii.eqb c d.

Definition in_class (ignorecase : bool) (p : ascii -> bool) (d : ascii) : bool :=
  if ignorecase
  then p d || p (PyStr.lower_char d)
       || (if PyStr.is_lower d then p (ascii_of_N (PyStr.code d - 32)) else false)
  else p d.

(** [$] without MULTILINE: the end, or just before a final newline. *)
Definition at_end (s : string) : bool :=
  match s with
  | EmptyString => true
  | String c EmptyString => Ascii.eqb c "010"
  | _ => false
  end.

Definition word_before (st : mstate) : bool :=
  match prev st with Some c => PyStr.is_word c | None => false end.
Definition word_after (st : mstate) : bool :=
  match rest st with String c _ => PyStr.is_word c | EmptyString => false end.

Definition consumed (st st' : mstate) : string :=
  PyStr.take (String.length (rest st) - String.length (rest st')) (rest st).

(** The backtracking matcher, in continuation passing style: [k] is what
    remains to be matched after [r].  Alternatives are tried left to
    right, a greedy star tries one more iteration before stopping and a
    lazy one stops before trying one more; an iteration that consumes
    nothing is not repeated. *)
Fixpoint bt {R : Type} (ic : bool) (r : regex) (st : mstate)
    (k : mstate -> option R) {struct r} : option R :=
  match r with
  | Eps => k st
  | Chr c =>
      match rest st with
      | String d s' =>
          if same_char ic c d then k (MState (Some d) s' (caps st)) else None
      | EmptyString => None
      end
  | Cls p =>
      match rest st with
      | String d s' =>
          if in_class ic p d then k (MState (Some d) s' (caps st)) else None
      | EmptyString => None
      end
  | Cat r1 r2 => bt ic r1 st (fun st' => bt ic r2 st' k)
  | Alt r1 r2 =>
      match bt ic r1 st k with
      | Some x => Some x
      | None => bt ic r2 st k
      end
  | Star greedy r1 =>
      (fix loop (n : nat) (st : mstate) {struct n} : option R :=
         match n with
         | O => k st
         | S n' =>
             let again st' :=
               if (String.length (rest st') <? String.length (rest st))%nat
               then loop n' st' else None in
             if greedy then
               match bt ic r1 st again with
               | Some x => Some x
               | None => k st
               end
             else
               match k st with
               | Some x => Some x
               | None => bt ic r1 st again
               end
         end) (String.length (rest st)) st
  | Grp n r1 =>
      bt ic r1 st
         (fun st' => k (MState (prev st') (rest st')
                               (set_cap n (consumed st st') (caps st'))))
  | Eos => if at_end (rest st) then k st else None
  | WordB => if xorb (word_before st) (word_after st) then k st else None
  end.

(** A successful match: the whole matched text and the groups. *)
Record rmatch : Type := RMatch {
  group0 : string;
  groups : list (nat * string);
  after : string;
  last : option ascii
}.

(** Match [r] at the cursor. *)
Definition match_here (ic : bool) (r : regex) (p : option ascii) (s : string)
    : option rmatch :=
  let st := MState p s [] in
  bt ic r st (fun st' => Some (RMatch (consumed st st') (caps st') (rest st') (prev st'))).

(** [re.search]: the leftmost start at which the pattern matches. *)
Fixpoint search_from (ic : bool) (r : regex) (p : option ascii) (s : string)
    : option rmatch :=
  match match_here ic r p s with
  | Some m => Some m
  | None =>
      match s with
      | EmptyString => None
      | String c s' => search_from ic r (Some c) s'
      end
  end.

Definition search (ic : bool) (r : regex) (s : string) : option rmatch :=
  search_from ic r None s.

(** [re.sub(r, repl, s)] for a pattern that matches no empty text: the
    matches are replaced from left to right, without overlap. *)
Fixpoint sub_from (fuel : nat) (ic : bool) (r : regex) (repl : string)
    (p : option ascii) (s : string) : string :=
  match fuel with
  | O => s
  | S fuel' =>
      match s with
      | EmptyString => EmptyString
      | String c s' =>
          match match_here ic r p s with
          | Some m =>
              if (String.length (after m) <? String.length s)%nat
              then repl +:+ sub_from fuel' ic r repl (last m) (after m)
              else String c (sub_from fuel' ic r repl (Some c) s')
          | None => String c (sub_from fuel' ic r repl (Some c) s')
          end
      end
  end.

Definition sub (ic : bool) (r : regex) (repl s : string) : string :=
  sub_from (String.length s) ic r repl None s.

End Re.

(** ** Python values and insertion ordered dictionaries *)

(** The values a [Dict[str, Any]] or an unchecked JSON field holds.  The
    program never looks inside a list or a dictionary it is handed, so these
    are known by their number of items. *)
Inductive PyValue : Type :=
| PyNone
| PyBool (b : bool)
| PyInt (z : Z)
| PyFloat (q : Q)
| PyStr (s : string)
| PyDatetime (t : Z)
| PyList (items : nat)
| PyDict (items : nat).

(** [bool(v)] *)
Definition truthy (v : PyValue) : bool :=
  match v with
  | PyNone => false
  | PyBool b => b
  | PyInt z => negb (z =? 0)%Z
  | PyFloat q => negb (Qeq_bool q 0)
  | PyStr s => negb (String.eqb s "")
  | PyDatetime _ => true
  | PyList n => negb (Nat.eqb n 0)
  | PyDict n => negb (Nat.eqb n 0)
  end.

(** [x or y] *)
Definition py_or (x y : PyValue) : PyValue := if truthy x then x else y.

(** The name [type(v).__name__] of the types that have no hash. *)
Definition unhashable (v : PyValue) : option string :=
  match v with
  | PyList _ => Some "list"
  | PyDict _ => Some "dict"
  | _ => None
  end.

(** Exceptions carry their text, [str(e)]. *)
Inductive Exception : Type :=
| TypeError (text : string).

Definition str_of_exception (e : Exception) : string :=
  match e with TypeError text => text end.

(** [f"{x}"] for an optional string. *)
Definition str_of_optional (o : option string) : string :=
  match o with Some s => s | None => "None" end.

Definition Qltb (a b : Q) : bool := negb (Qle_bool b a).

(** A [dict] in iteration order: keys are unique, a new key goes last, an
    assignment to a key already there keeps its place. *)
Module ODict.
Section WithValue.
Context {V : Type}.

Definition t : Type := list (string * V).

Fixpoint get (k : string) (d : t) : option V :=
  match d with
  | [] => None
  | (k', v) :: d' => if String.eqb k k' then Some v else get k d'
  end.

(** [d[k] = v] *)
Fixpoint set (k : string) (v : V) (d : t) : t :=
  match d with
  | [] => [(k, v)]
  | (k', v') :: d' =>
      if String.eqb k k' then (k, v) :: d' else (k', v') :: set k v d'
  end.

(** [del d[k]] for a key of [d] *)
Fixpoint del (k : string) (d : t) : t :=
  match d with
  | [] => []
  | (k', v') :: d' =>
      if String.eqb k k' then d' else (k', v') :: del k d'
  end.

(** [d[k] = v] only where [k] is a key: the effect on the dictionary
    of mutating the object stored under [k]. *)
Fixpoint replace (k : string) (v : V) (d : t) : t :=
  match d with
  | [] => []
  | (k', v') :: d' =>
      if String.eqb k k' then (k, v) :: d' else (k', v') :: replace k v d'
  end.

Definition keys (d : t) : list string := fst <$> d.
End WithValue.
Arguments t : clear implicits.
End ODict.

(** [max(l, key=f)]: the first element with the greatest key. *)
Definition py_max {A : Type} (key : A -> Q) (l : list A) : option A :=
  match l with
  | [] => None
  | x :: l' =>
      Some (fold_left (fun best y => if Qltb (key best) (key y) then y else best) l' x)
  end.

(** [sorted(l, key=f)] is stable; insertion from the right keeps equal keys
    in their order. *)
Fixpoint sorted_insert {A : Type} (key : A -> Z) (x : A) (l : list A) : list A :=
  match l with
  | [] => [x]
  | y :: l' => if (key x <=? key y)%Z then x :: l else y :: sorted_insert key x l'
  end.

Fixpoint sorted {A : Type} (key : A -> Z) (l : list A) : list A :=
  match l with
  | [] => []
  | x :: l' => sorted_insert key x (sorted key l')
  end.

(** [l[-n:]] for [n > 0] and [l[:-n]] for [n > 0]. *)
Definition last_n {A : Type} (n : nat) (l : list A) : list A :=
  drop (length l - n) l.
Definition all_but_last_n {A : Type} (n : nat) (l : list A) : list A :=
  take (length l - n) l.

(** ** app/models *)

Module Message.
Record t : Type := Build {
  id : string;
  content : string;
  timestamp : Z;
  is_user : bool;
  message_type : string;
  metadata : gmap string PyValue
}.
End Message.

Module Conversation.
Record t : Type := Build {
  id : string;
  messages : list Message.t;
  created_at : Z;
  updated_at : Z;
  context : gmap string PyValue;
  user_preferences : PyValue
}.

(** [add_message]: [mid] and [ts] are the [uuid4()] and [datetime.now()]
    of the new Message, [now] the later [datetime.now()] of the update. *)
Definition add_message (self : t) (content : string) (is_user : bool)
    (message_type : string) (metadata : gmap string PyValue)
    (mid : string) (ts now : Z) : t :=
  let message := Message.Build mid content ts is_user message_type metadata in
  let messages1 := messages self ++ [message] in
  let messages2 :=
    if (50 <? length messages1)%nat then last_n 50 messages1 else messages1 in
  Build (id self) messages2 (created_at self) now (context self)
        (user_preferences self).

(** [get_recent_context] *)
Definition get_recent_context (self : t) (num_messages : nat) : list Message.t :=
  match messages self with
  | [] => []
  | ms => match num_messages with O => ms | _ => last_n num_messages ms end
  end.

Definition update_context (self : t) (key : string) (value : PyValue) (now : Z) : t :=
  Build (id self) (messages self) (created_at self) now
        (<[key := value]> (context self)) (user_preferences self).

Definition get_context (self : t) (key : string) (default : PyValue) : PyValue :=
  match context self !! key with Some v => v | None => default end.
End Conversation.

Module UserIntent.
Record t : Type := Build {
  intent : string;
  confidence : Q;
  entities : gmap string string;
  parameters : gmap string (list string)
}.
End UserIntent.

Module ChatResponse.
Record t : Type := Build {
  message : string;
  response_type : string;
  confidence : Q;
  actions_taken : list string;
  suggestions : list string;
  metadata : gmap string PyValue;
  timestamp : Z
}.
End ChatResponse.

Module APIResponse.
Record t (D : Type) : Type := Build {
  success : bool;
  data : option D;
  error : option string;
  metadata : gmap string PyValue;
  timestamp : Z
}.
Arguments Build {D}.
Arguments success {D}.
Arguments data {D}.
Arguments error {D}.
Arguments metadata {D}.
Arguments timestamp {D}.
End APIResponse.

(** ** The lexicons of the three services *)

Module WeatherService.
Definition get_weather_intent_keywords : list string :=
  [ "weather"; "temperature"; "temp"; "forecast"; "rain"; "snow"; "sunny";
    "cloudy"; "humidity"; "wind"; "storm"; "hot"; "cold"; "warm"; "cool";
    "degrees"; "celsius"; "fahrenheit"; "precipitation"; "climate" ].
End WeatherService.

Module NewsService.
Definition get_news_intent_keywords : list string :=
  [ "news"; "headlines"; "latest"; "breaking"; "article"; "report"; "story";
    "what's happening"; "current events"; "today's news"; "updates" ].

Definition category_keywords : list (string * list string) :=
  [ ("business", ["business"; "economy"; "finance"; "stock"; "market"; "trade"; "company"]);
    ("entertainment", ["entertainment"; "celebrity"; "movie"; "music"; "tv"; "show"; "actor"]);
    ("health", ["health"; "medical"; "doctor"; "hospital"; "medicine"; "disease"; "virus"]);
    ("science", ["science"; "research"; "study"; "discovery"; "space"; "technology"; "innovation"]);
    ("sports", ["sports"; "football"; "basketball"; "soccer"; "baseball"; "game"; "team"]);
    ("technology", ["technology"; "tech"; "computer"; "software"; "app"; "digital"; "ai";
                    "artificial intelligence"]) ].

(** [detect_news_category]: the first category, in the order of the
    table, one of whose keywords occurs in the lower-cased query. *)
Definition detect_news_category (query : string) : option string :=
  let query_lower := PyStr.lower query in
  fst <$> List.find (fun entry => PyStr.any_in (snd entry) query_lower) category_keywords.
End NewsService.

Module CalendarService.
Definition get_calendar_intent_keywords : list string :=
  [ "calendar"; "schedule"; "meeting"; "appointment"; "event"; "remind";
    "book"; "plan"; "agenda"; "today"; "tomorrow"; "next week"; "upcoming";
    "create event"; "add to calendar"; "what's on my calendar" ].
End CalendarService.

(** ** The environment and the state of a call *)

(** What one call of [process_message] reads from outside: the [n]-th
    identifier, clock reading and random index it draws, and the answers of
    the three external services with their formatters. *)
Record Env : Type := MkEnv {
  uuid4 : nat -> string;
  datetime_now : nat -> Z;
  random_index : nat -> nat;
  get_current_weather : string -> APIResponse.t PyValue;
  get_weather_forecast : string -> APIResponse.t PyValue;
  format_weather_message : PyValue -> string;
  search_news : string -> APIResponse.t PyValue;
  get_top_headlines : option string -> APIResponse.t PyValue;
  format_news_message : PyValue -> string;
  list_events : APIResponse.t PyValue;
  format_calendar_message : PyValue -> string
}.

(** The registry [self.conversations] and the number of draws made. *)
Record World : Type := MkWorld {
  conversations : ODict.t Conversation.t;
  tick : nat
}.

Inductive Result (A : Type) : Type :=
| Returned (a : A)
| Raised (e : Exception).
Arguments Returned {A}.
Arguments Raised {A}.

(** Computations that read and write the world and may raise. *)
Definition M (A : Type) : Type := World -> Result A * World.

Definition ret {A : Type} (a : A) : M A := fun w => (Returned a, w).

Definition raise {A : Type} (e : Exception) : M A := fun w => (Raised e, w).

Definition bind {A B : Type} (m : M A) (k : A -> M B) : M B :=
  fun w =>
    match m w with
    | (Returned a, w') => k a w'
    | (Raised e, w') => (Raised e, w')
    end.

Notation "'do' x <- m ; k" := (bind m (fun x => k))
  (at level 10, x name, m at level 100, k at level 200).
Notation "m ;; k" := (bind m (fun _ => k))
  (at level 100, k at level 200, right associativity).

Definition get_conversations : M (ODict.t Conversation.t) :=
  fun w => (Returned (conversations w), w).

Definition put_conversations (d : ODict.t Conversation.t) : M unit :=
  fun w => (Returned tt, MkWorld d (tick w)).

(** A step that cannot raise. *)
Definition lift {A : Type} (f : World -> A * World) : M A :=
  fun w => let (a, w') := f w in (Returned a, w').

Definition draw {A : Type} (oracle : nat -> A) : M A :=
  fun w => (Returned (oracle (tick w)), MkWorld (conversations w) (S (tick w))).

(** A conversation is an object shared with the registry: a mutation is
    seen through the registry as long as the object is registered. *)
Definition store_object (c : Conversation.t) : M unit :=
  fun w => (Returned tt,
            MkWorld (ODict.replace (Conversation.id c) c (conversations w)) (tick w)).

(** [datetime.hour], the clock counting seconds of local time. *)
Definition hour (t : Z) : Z := ((t / 3600) mod 24)%Z.

(** [random.choice(l)] *)
Definition random_choice (env : Env) (l : list string) : M string :=
  do i <- draw (random_index env);
  ret (nth (i mod length l) l "").

(** ** app/services/conversation_service.py *)

Module ConversationService.

(** [self.intent_keywords], in the order of the dictionary literal. *)
Definition intent_keywords : ODict.t (list string) :=
  [ ("weather", WeatherService.get_weather_intent_keywords);
    ("news", NewsService.get_news_intent_keywords);
    ("calendar", CalendarService.get_calendar_intent_keywords);
    ("greeting", ["hello"; "hi"; "hey"; "good morning"; "good afternoon"; "good evening"]);
    ("goodbye", ["bye"; "goodbye"; "see you"; "farewell"; "exit"; "quit"]);
    ("help", ["help"; "what can you do"; "commands"; "assistance"; "support"]);
    ("thanks", ["thank you"; "thanks"; "appreciate"; "grateful"]) ].

(** *** Entity extraction *)

(** [cue\s+([A-Za-z\s,]+?)(?:\s|$|[?.!])] *)
Definition location_pattern (cue : string) : Re.regex :=
  Re.Cat (Re.lit cue)
    (Re.Cat (Re.Plus true Re.space)
       (Re.Cat
          (Re.Grp 1 (Re.Plus false
             (Re.Cls (fun c => PyStr.is_alpha c || PyStr.is_space c
                               || Ascii.eqb c ","))))
          (Re.alts [Re.space; Re.Eos; Re.one_of "?.!"]))).

Definition location_patterns : list Re.regex :=
  map location_pattern ["in"; "for"; "at"; "weather"].

Definition not_a_location : list string :=
  ["today"; "tomorrow"; "now"; "there"; "here"].

(** The body of the loop of [_extract_location], for one pattern: the
    stripped group of a match that is not a filtered word. *)
Definition location_of (message : string) (pattern : Re.regex) : option string :=
  match Re.search true pattern message with
  | Some m =>
      let location := PyStr.strip (default "" (Re.group (Re.groups m) 1)) in
      if negb (PyStr.mem (PyStr.lower location) not_a_location)
      then Some location else None
  | None => None
  end.

Fixpoint first_some {A B : Type} (f : A -> option B) (l : list A) : option B :=
  match l with
  | [] => None
  | x :: l' => match f x with Some y => Some y | None => first_some f l' end
  end.

Definition _extract_location (message : string) : option string :=
  first_some (location_of message) location_patterns.

(** [cue\s+(.+?)(?:\s|$)] *)
Definition search_pattern (cue : string) : Re.regex :=
  Re.Cat (Re.lit cue)
    (Re.Cat (Re.Plus true Re.space)
       (Re.Cat (Re.Grp 1 (Re.Plus false Re.dot))
               (Re.alts [Re.space; Re.Eos]))).

Definition search_patterns : list Re.regex :=
  map search_pattern ["about"; "on"; "regarding"; "news"].

(** [\b(news|latest|today|yesterday)\b] *)
Definition filler_pattern : Re.regex :=
  Re.Cat Re.WordB
    (Re.Cat (Re.Grp 1 (Re.alts (map Re.lit ["news"; "latest"; "today"; "yesterday"])))
            Re.WordB).

Definition news_terms_of (message : string) (pattern : Re.regex) : option string :=
  match Re.search true pattern message with
  | Some m =>
      let terms := PyStr.strip (default "" (Re.group (Re.groups m) 1)) in
      let terms := PyStr.strip (Re.sub true filler_pattern "" terms) in
      if negb (String.eqb terms "") then Some terms else None
  | None => None
  end.

Definition _extract_news_terms (message : string) : option string :=
  first_some (news_terms_of message) search_patterns.

(** [(\d{1,2}):(\d{2})\s*(am|pm)?] *)
Definition time_pattern : Re.regex :=
  Re.Cat (Re.Grp 1 (Re.Cat Re.digit (Re.Opt Re.digit)))
    (Re.Cat (Re.Chr ":")
       (Re.Cat (Re.Grp 2 (Re.Cat Re.digit Re.digit))
          (Re.Cat (Re.Star true Re.space)
                  (Re.Opt (Re.Grp 3 (Re.Alt (Re.lit "am") (Re.lit "pm"))))))).

Definition _extract_time_entities (message : string) : gmap string string :=
  let message_lower := PyStr.lower message in
  let entities : gmap string string :=
    if PyStr.contains "today" message_lower then {[ "date_reference" := "today" ]}
    else if PyStr.contains "tomorrow" message_lower then {[ "date_reference" := "tomorrow" ]}
    else if PyStr.contains "next week" message_lower then {[ "date_reference" := "next_week" ]}
    else if PyStr.contains "this week" message_lower then {[ "date_reference" := "this_week" ]}
    else ∅ in
  match Re.search false time_pattern message_lower with
  | Some m => <[ "time" := Re.group0 m ]> entities
  | None => entities
  end.

(** [if x: d[k] = x] for an optional string: [None] and [""] are false. *)
Definition set_if_true (k : string) (x : option string) (d : gmap string string)
    : gmap string string :=
  match x with
  | Some v => if negb (String.eqb v "") then <[ k := v ]> d else d
  | None => d
  end.

(** [_extract_entities]; the conversation is not consulted. *)
Definition _extract_entities (message intent : string) (conversation : Conversation.t)
    : gmap string string :=
  let message_lower := PyStr.lower message in
  if String.eqb intent "weather" then
    let entities := set_if_true "location" (_extract_location message) ∅ in
    if PyStr.any_in ["tomorrow"; "today"; "forecast"; "week"] message_lower
    then <[ "time_reference" := "forecast" ]> entities
    else <[ "time_reference" := "current" ]> entities
  else if String.eqb intent "news" then
    let entities :=
      set_if_true "category" (NewsService.detect_news_category message) ∅ in
    set_if_true "search_terms" (_extract_news_terms message) entities
  else if String.eqb intent "calendar" then
    let entities : gmap string string :=
      if PyStr.any_in ["schedule"; "create"; "add"; "book"] message_lower
      then {[ "action" := "create" ]}
      else if PyStr.any_in ["list"; "show"; "what's"; "upcoming"] message_lower
      then {[ "action" := "list" ]}
      else {[ "action" := "list" ]} in
    (* entities.update(time_entities): the new keys win *)
    _extract_time_entities message ∪ entities
  else ∅.

(** *** Intent detection *)

Record ScoreEntry : Type := MkScore {
  score : Q;
  keywords : list string
}.

(** The inner loop of [_detect_intent]: the count of the keywords found
    and the keywords found, in the order of the lexicon. *)
Definition match_keywords (message_lower : string) (kws : list string)
    : nat * list string :=
  fold_left
    (fun acc keyword =>
       if PyStr.contains keyword message_lower
       then (S (fst acc), snd acc ++ [keyword]) else acc)
    kws (O, []).

(** [score / len(keywords)] *)
Definition normalized (score len : nat) : Q :=
  (inject_Z (Z.of_nat score) / inject_Z (Z.of_nat len))%Q.

(** The outer loop: the table [intent_scores]. *)
Definition intent_scores_for (lexicon : ODict.t (list string)) (message_lower : string)
    : ODict.t ScoreEntry :=
  fold_left
    (fun scores entry =>
       let '(intent_name, kws) := entry in
       let '(score, matched_keywords) := match_keywords message_lower kws in
       if (0 <? score)%nat
       then ODict.set intent_name
              (MkScore (normalized score (length kws)) matched_keywords) scores
       else scores)
    lexicon [].

Definition score_of (scores : ODict.t ScoreEntry) (k : string) : Q :=
  match ODict.get k scores with Some e => score e | None => 0%Q end.

Definition general_intent : UserIntent.t :=
  UserIntent.Build "general" (1 # 2) ∅ ∅.

Definition _detect_intent (message : string) (conversation : Conversation.t)
    : UserIntent.t :=
  let message_lower := PyStr.lower message in
  let intent_scores := intent_scores_for intent_keywords message_lower in
  match py_max (score_of intent_scores) (ODict.keys intent_scores) with
  | Some primary_intent =>
      let confidence := Qmin (score_of intent_scores primary_intent * 2) 1 in
      let entities := _extract_entities message primary_intent conversation in
      UserIntent.Build primary_intent confidence entities
        {[ "matched_keywords" :=
             match ODict.get primary_intent intent_scores with
             | Some e => keywords e
             | None => []
             end ]}
  | None => general_intent
  end.

(** *** The registry and the dispatcher *)

Section WithEnv.
Variable env : Env.

Definition new_conversation (user_preferences : PyValue) : M Conversation.t :=
  do id <- draw (uuid4 env);
  do created_at <- draw (datetime_now env);
  do updated_at <- draw (datetime_now env);
  ret (Conversation.Build id [] created_at updated_at ∅ user_preferences).

(** [conversation.add_message(content, is_user=...)] on the shared object *)
Definition conversation_add_message (c : Conversation.t) (content : string)
    (is_user : bool) : M Conversation.t :=
  do mid <- draw (uuid4 env);
  do ts <- draw (datetime_now env);
  do now <- draw (datetime_now env);
  let c' := Conversation.add_message c content is_user "text" ∅ mid ts now in
  store_object c' ;; ret c'.

(** [conversation.update_context(key, value)] on the shared object *)
Definition conversation_update_context (c : Conversation.t) (key : string)
    (value : PyValue) : M Conversation.t :=
  do now <- draw (datetime_now env);
  let c' := Conversation.update_context c key value now in
  store_object c' ;; ret c'.

Definition chat_response (message response_type : string) (confidence : Q)
    (actions_taken suggestions : list string) : M ChatResponse.t :=
  do ts <- draw (datetime_now env);
  ret (ChatResponse.Build message response_type confidence actions_taken
         suggestions ∅ ts).

(** [APIResponse(...)]: the time stamp is one more reading of the clock. *)
Definition api_response {D : Type} (success : bool) (data : option D)
    (error : option string) (metadata : gmap string PyValue) (w : World)
    : APIResponse.t D * World :=
  (APIResponse.Build success data error metadata (datetime_now env (tick w)),
   MkWorld (conversations w) (S (tick w))).

(** [conversation_id in self.conversations] *)
Definition known (conversation_id : PyValue) (d : ODict.t Conversation.t)
    : M (option Conversation.t) :=
  match unhashable conversation_id with
  | Some type_name =>
      raise (TypeError ("unhashable type: '" +:+ type_name +:+ "'"))
  | None =>
      ret (match conversation_id with
           | PyStr s => ODict.get s d
           | _ => None
           end)
  end.

(** The clean-up of the registry: all but the ten entries that sort
    last by [updated_at] are deleted. *)
Definition evict (d : ODict.t Conversation.t) : ODict.t Conversation.t :=
  if (10 <? length d)%nat then
    let oldest_conversations :=
      all_but_last_n 10 (sorted (fun x => Conversation.updated_at (snd x)) d) in
    fold_left (fun d' old => ODict.del (fst old) d') oldest_conversations d
  else d.

Definition _get_or_create_conversation (conversation_id user_preferences : PyValue)
    : M Conversation.t :=
  do d <- get_conversations;
  do found <- (if truthy conversation_id then known conversation_id d
               else ret None);
  match found with
  | Some conversation => ret conversation
  | None =>
      do conversation <- new_conversation (py_or user_preferences (PyDict 0));
      put_conversations
        (evict (ODict.set (Conversation.id conversation) conversation d)) ;;
      ret conversation
  end.

(** *** Handlers *)

(** The call the weather handler makes. *)
Definition weather_lookup (intent : UserIntent.t) : APIResponse.t PyValue :=
  let location := default "current location" (UserIntent.entities intent !! "location") in
  let time_ref := default "current" (UserIntent.entities intent !! "time_reference") in
  if String.eqb time_ref "forecast"
  then get_weather_forecast env location
  else get_current_weather env location.

Definition _handle_weather_intent (intent : UserIntent.t) (message : string)
    (conversation : Conversation.t) : M ChatResponse.t :=
  let location := default "current location" (UserIntent.entities intent !! "location") in
  let result := weather_lookup intent in
  if APIResponse.success result then
    chat_response
      (format_weather_message env (default PyNone (APIResponse.data result)))
      "weather" (UserIntent.confidence intent)
      ["Retrieved weather for " +:+ location] []
  else
    chat_response
      ("Sorry, I couldn't get weather information. "
         +:+ str_of_optional (APIResponse.error result))
      "error" (UserIntent.confidence intent) [] [].

(** The call the news handler makes; an empty search string is false. *)
Definition news_lookup (intent : UserIntent.t) : APIResponse.t PyValue :=
  let category := UserIntent.entities intent !! "category" in
  match UserIntent.entities intent !! "search_terms" with
  | Some terms =>
      if negb (String.eqb terms "") then search_news env terms
      else get_top_headlines env category
  | None => get_top_headlines env category
  end.

Definition news_action (intent : UserIntent.t) : string :=
  let category := UserIntent.entities intent !! "category" in
  let by_category :=
    "Retrieved "
      +:+ (match category with
           | Some c => if negb (String.eqb c "") then c else "general"
           | None => "general"
           end)
      +:+ " news" in
  match UserIntent.entities intent !! "search_terms" with
  | Some terms =>
      if negb (String.eqb terms "")
      then "Searched news for '" +:+ terms +:+ "'" else by_category
  | None => by_category
  end.

Definition _handle_news_intent (intent : UserIntent.t) (message : string)
    (conversation : Conversation.t) : M ChatResponse.t :=
  let result := news_lookup intent in
  if APIResponse.success result then
    chat_response
      (format_news_message env (default PyNone (APIResponse.data result)))
      "news" (UserIntent.confidence intent) [news_action intent] []
  else
    chat_response
      ("Sorry, I couldn't get news information. "
         +:+ str_of_optional (APIResponse.error result))
      "error" (UserIntent.confidence intent) [] [].

Definition calendar_guidance : string :=
  "I can help you view your calendar events. To create events, please use specific commands like 'Schedule a meeting tomorrow at 2 PM'.".

Definition _handle_calendar_intent (intent : UserIntent.t) (message : string)
    (conversation : Conversation.t) : M ChatResponse.t :=
  let action := default "list" (UserIntent.entities intent !! "action") in
  if String.eqb action "list" then
    let result := list_events env in
    if APIResponse.success result then
      chat_response
        (format_calendar_message env (default PyNone (APIResponse.data result)))
        "calendar" (UserIntent.confidence intent)
        ["Retrieved calendar events"] []
    else
      chat_response
        ("Sorry, I couldn't access your calendar. "
           +:+ str_of_optional (APIResponse.error result))
        "error" (UserIntent.confidence intent) [] []
  else
    chat_response calendar_guidance "calendar" (UserIntent.confidence intent) []
      ["What's on my calendar today?"; "Show upcoming events"].

Definition _handle_greeting_intent (intent : UserIntent.t) (message : string)
    (conversation : Conversation.t) : M ChatResponse.t :=
  do now <- draw (datetime_now env);
  let greeting :=
    if (hour now <? 12)%Z then "Good morning! How can I assist you today?"
    else if (hour now <? 17)%Z then "Good afternoon! What can I help you with?"
    else "Good evening! How may I be of service?" in
  chat_response greeting "greeting" (UserIntent.confidence intent) []
    [ "What's the weather like?"; "Show me the latest news";
      "What's on my calendar today?"; "What can you do?" ].

Definition _handle_goodbye_intent (intent : UserIntent.t) (message : string)
    (conversation : Conversation.t) : M ChatResponse.t :=
  do farewell <- random_choice env
    [ "Goodbye! Have a great day!";
      "See you later! Feel free to ask me anything anytime.";
      "Farewell! I'm always here when you need assistance." ];
  chat_response farewell "goodbye" (UserIntent.confidence intent) [] [].
Definition dq : string := String (ascii_of_nat 34) EmptyString.
Definition nl : string := String (ascii_of_nat 10) EmptyString.
Definition example (s : string) : string := "   • " +:+ dq +:+ s +:+ dq.

Definition help_message : string :=
  String.concat nl
    [ "🤖 **Personal AI Assistant - Help**"; "";
      "I can help you with:"; "";
      "🌤️ **Weather**: ";
      example "What's the weather in New York?";
      example "Will it rain today?";
      example "Weather forecast for this week"; "";
      "📰 **News**: ";
      example "Show me the latest news";
      example "Technology news";
      example "News about climate change"; "";
      "📅 **Calendar**: ";
      example "What's on my calendar today?";
      example "Show upcoming events";
      example "Schedule a meeting" +:+ " (basic support)"; "";
      "🎤 **Voice Commands**: ";
      "   • Click the microphone button to speak";
      "   • I can respond with voice too!"; "";
      "Just ask me naturally - I understand conversational language!" ].

Definition _handle_help_intent (intent : UserIntent.t) (message : string)
    (conversation : Conversation.t) : M ChatResponse.t :=
  chat_response help_message "help" (UserIntent.confidence intent) []
    [ "Weather in London"; "Latest tech news"; "My calendar today" ].

Definition _handle_thanks_intent (intent : UserIntent.t) (message : string)
    (conversation : Conversation.t) : M ChatResponse.t :=
  do response <- random_choice env
    [ "You're welcome! Happy to help!";
      "My pleasure! Is there anything else you need?";
      "Glad I could help! Feel free to ask me anything else." ];
  chat_response response "thanks" (UserIntent.confidence intent) []
    [ "What else can you do?"; "Show me the weather"; "Latest news please" ].

Definition _handle_general_intent (intent : UserIntent.t) (message : string)
    (conversation : Conversation.t) : M ChatResponse.t :=
  do response <- random_choice env
    [ "I understand you're trying to communicate with me, but I'm not sure exactly what you need. Could you be more specific?";
      "I'm here to help with weather, news, and calendar information. What would you like to know?";
      "I didn't quite understand that. You can ask me about the weather, latest news, or your calendar events." ];
  chat_response response "general" (3 # 10) []
    [ "Help - show me what you can do"; "What's the weather like?";
      "Show me today's news"; "What's on my calendar?" ].

Definition _handle_intent (intent : UserIntent.t) (message : string)
    (conversation : Conversation.t) : M ChatResponse.t :=
  let name := UserIntent.intent intent in
  if String.eqb name "weather" then _handle_weather_intent intent message conversation
  else if String.eqb name "news" then _handle_news_intent intent message conversation
  else if String.eqb name "calendar" then _handle_calendar_intent intent message conversation
  else if String.eqb name "greeting" then _handle_greeting_intent intent message conversation
  else if String.eqb name "goodbye" then _handle_goodbye_intent intent message conversation
  else if String.eqb name "help" then _handle_help_intent intent message conversation
  else if String.eqb name "thanks" then _handle_thanks_intent intent message conversation
  else _handle_general_intent intent message conversation.

(** *** [process_message] *)

(** The body of the [try] statement. *)
Definition process_message_try (message : string)
    (conversation_id user_preferences : PyValue)
    : M (APIResponse.t ChatResponse.t) :=
  do conversation <- _get_or_create_conversation conversation_id user_preferences;
  do conversation <- conversation_add_message conversation message true;
  let intent := _detect_intent message conversation in
  do response <- _handle_intent intent message conversation;
  do conversation <-
    conversation_add_message conversation (ChatResponse.message response) false;
  do conversation <-
    conversation_update_context conversation "last_intent"
      (PyStr (UserIntent.intent intent));
  do now <- draw (datetime_now env);
  do conversation <-
    conversation_update_context conversation "last_message_time" (PyDatetime now);
  lift (api_response true (Some response) None
          {[ "conversation_id" := PyStr (Conversation.id conversation);
             "intent" := PyStr (UserIntent.intent intent);
             "confidence" := PyFloat (UserIntent.confidence intent) ]}).

(** The [except Exception as e] clause. *)
Definition process_message_except (e : Exception) (w : World)
    : APIResponse.t ChatResponse.t * World :=
  api_response false None
    (Some ("Failed to process message: " +:+ str_of_exception e)) ∅ w.

(** [process_message]: whatever the body raises is handled, so the call
    always returns a response. *)
Definition process_message (message : string)
    (conversation_id user_preferences : PyValue) (w : World)
    : APIResponse.t ChatResponse.t * World :=
  match process_message_try message conversation_id user_preferences w with
  | (Returned r, w') => (r, w')
  | (Raised e, w') => process_message_except e w'
  end.

(** [l[-n:]] for any integer [n] *)
Definition slice_from_minus {A : Type} (n : Z) (l : list A) : list A :=
  if (0 <? n)%Z then last_n (Z.to_nat n) l else drop (Z.to_nat (- n)) l.

(** [get_conversation_history] *)
Definition get_conversation_history (conversation_id : string) (limit : Z)
    (w : World) : list Message.t :=
  match ODict.get conversation_id (conversations w) with
  | Some conversation => slice_from_minus limit (Conversation.messages conversation)
  | None => []
  end.

(** [get_conversation] *)
Definition get_conversation (conversation_id : string) (w : World)
    : option Conversation.t :=
  ODict.get conversation_id (conversations w).

End WithEnv.
End ConversationService.

(** ** Notions the statements use *)

Module Spec.
Import ConversationService.

(** A keyword occurs in an utterance: it is a substring of the lower-cased
    utterance. *)
Definition occurs (utterance keyword : string) : bool :=
  PyStr.contains keyword (PyStr.lower utterance).

(** The keywords of a lexicon that occur in the utterance. *)
Definition matched (utterance : string) (kws : list string) : list string :=
  List.filter (occurs utterance) kws.

(** The score of a lexicon: the number of its keywords that occur, divided
    by the number of its keywords. *)
Definition lexicon_score (utterance : string) (kws : list string) : Q :=
  (inject_Z (Z.of_nat (length (matched utterance kws)))
   / inject_Z (Z.of_nat (length kws)))%Q.

(** The entry of the score table for an entry of the lexicon, if it has
    one. *)
Definition scored (utterance : string) (entry : string * list string)
    : option (string * ScoreEntry) :=
  match matched utterance (snd entry) with
  | [] => None
  | m =>
      Some (fst entry,
            MkScore (normalized (length m) (length (snd entry))) m)
  end.

(** A well-formed registry: no key twice, and every conversation filed
    under its own identifier. *)
Definition registry_ok (d : ODict.t Conversation.t) : bool :=
  bool_decide (NoDup (ODict.keys d))
  && forallb (fun p => String.eqb (Conversation.id (snd p)) (fst p)) d.

(** The call to an external service that the handler of an intent makes,
    if it makes one. *)
Definition collaborator_call (env : Env) (intent : UserIntent.t)
    : option (APIResponse.t PyValue) :=
  let name := UserIntent.intent intent in
  if String.eqb name "weather" then Some (weather_lookup env intent)
  else if String.eqb name "news" then Some (news_lookup env intent)
  else if String.eqb name "calendar" then
    if String.eqb (default "list" (UserIntent.entities intent !! "action")) "list"
    then Some (list_events env) else None
  else None.

(** The fixed text that precedes the error of the service. *)
Definition apology (name : string) : string :=
  if String.eqb name "weather" then "Sorry, I couldn't get weather information. "
  else if String.eqb name "news" then "Sorry, I couldn't get news information. "
  else "Sorry, I couldn't access your calendar. ".

(** A conversation identifier that can be looked up: false, or hashable. *)
Definition usable_id (conversation_id : PyValue) : bool :=
  negb (truthy conversation_id)
  || match unhashable conversation_id with Some _ => false | None => true end.

(** The three ways [_get_or_create_conversation] can go. *)
Inductive get_or_create_outcome (env : Env)
    (conversation_id user_preferences : PyValue)
    (w : World) : Result Conversation.t * World -> Prop :=
| goc_raises type_name :
    truthy conversation_id = true ->
    unhashable conversation_id = Some type_name ->
    get_or_create_outcome env conversation_id user_preferences w
      (Raised (TypeError ("unhashable type: '" +:+ type_name +:+ "'")), w)
| goc_found s c :
    conversation_id = PyStr s -> s <> "" ->
    ODict.get s (conversations w) = Some c ->
    get_or_create_outcome env conversation_id user_preferences w (Returned c, w)
| goc_created :
    usable_id conversation_id = true ->
    (forall s, conversation_id = PyStr s -> s <> "" ->
               ODict.get s (conversations w) = None) ->
    let c := Conversation.Build (uuid4 env (tick w)) []
               (datetime_now env (S (tick w))) (datetime_now env (S (S (tick w))))
               ∅ (py_or user_preferences (PyDict 0)) in
    get_or_create_outcome env conversation_id user_preferences w
      (Returned c,
       MkWorld (evict (ODict.set (Conversation.id c) c (conversations w)))
               (S (S (S (tick w))))).

End Spec.

(** ** Sample inputs *)

Module Samples.

Definition failing (e : string) : APIResponse.t PyValue :=
  APIResponse.Build false None (Some e) ∅ 0.

(** Identifiers id0, id1, ..., a clock that starts at 100 and advances by
    one at each reading, and external services that are all down. *)
Definition env0 : Env :=
  MkEnv (fun n => "id" +:+ pretty n) (fun n => (100 + Z.of_nat n)%Z) (fun n => n)
    (fun location => failing ("Location '" +:+ location +:+ "' not found"))
    (fun location => failing ("Location '" +:+ location +:+ "' not found"))
    (fun _ => "weather report")
    (fun _ => failing "News search error: Unknown error")
    (fun _ => failing "News API error: Unknown error")
    (fun _ => "news report")
    (failing "Google Calendar service not authenticated")
    (fun _ => "calendar report").

Definition w0 : World := MkWorld [] 0.

Definition no_conversation : Conversation.t :=
  Conversation.Build "c" [] 0 0 ∅ PyNone.

Definition sample_message (n : nat) : Message.t :=
  Message.Build ("m" +:+ pretty n) "hello" (Z.of_nat n) true "text" ∅.

(** A conversation of 50 messages m0 ... m49. *)
Definition full_conversation : Conversation.t :=
  Conversation.Build "c" (map sample_message (seq 0 50)) 0 49 ∅ PyNone.

Definition conversation_at (id : string) (t : Z) : Conversation.t :=
  Conversation.Build id [] t t ∅ (PyDict 0).

(** Ten conversations; c1 and c3 share the least [updated_at]. *)
Definition ten_conversations : ODict.t Conversation.t :=
  map (fun p => (fst p, conversation_at (fst p) (snd p)))
    [ ("c0", 7); ("c1", 3); ("c2", 9); ("c3", 3); ("c4", 8);
      ("c5", 6); ("c6", 5); ("c7", 4); ("c8", 10); ("c9", 11) ]%Z.

Definition w10 : World := MkWorld ten_conversations 0.


End Samples.

(** ** app/utils/helpers.py *)

Module Helpers.

(** [s[:n]] for an integer [n] *)
Definition slice_to (n : Z) (s : string) : string :=
  if (0 <=? n)%Z then PyStr.take (Z.to_nat n) s
  else PyStr.take (String.length s - Z.to_nat (- n)) s.

(** [s.split()], with the word read so far. *)
Fixpoint split_from (word : string) (s : string) : list string :=
  match s with
  | EmptyString => if String.eqb word "" then [] else [word]
  | String c s' =>
      if PyStr.is_space c then
        if String.eqb word "" then split_from "" s' else word :: split_from "" s'
      else split_from (word +:+ String c "") s'
  end.

Definition split (s : string) : list string := split_from "" s.

(** [sep.join(words)] *)
Fixpoint join (sep : string) (words : list string) : string :=
  match words with
  | [] => ""
  | [w] => w
  | w :: ws => w +:+ sep +:+ join sep ws
  end.

(** The characters of the class of [sanitize_input]: the angle brackets
    and the two quotes. *)
Definition harmful : string := "<>" +:+ ConversationService.dq +:+ "'".

Definition sanitize_input (text : PyValue) (max_length : Z) : string :=
  match text with
  | PyStr text =>
      let text := slice_to max_length text in
      let text := Re.sub false (Re.one_of harmful) "" text in
      let text := join " " (split text) in
      PyStr.strip text
  | _ => ""
  end.

(** [truncate_text] on a string *)
Definition truncate_text (text : string) (max_length : Z) (suffix : string) : string :=
  if (Z.of_nat (String.length text) <=? max_length)%Z then text
  else slice_to (max_length - Z.of_nat (String.length suffix)) text +:+ suffix.

(** [clean_text] on a string *)
Definition clean_text (text : string) (remove_extra_spaces remove_special_chars : bool)
    : string :=
  let text := if remove_extra_spaces then join " " (split text) else text in
  let text :=
    if remove_special_chars
    then Re.sub false (Re.Cls (fun c => negb (PyStr.is_word c || PyStr.is_space c)))
           "" text
    else text in
  PyStr.strip text.

(** The dictionary that [paginate_list] returns. *)
Record Page (A : Type) : Type := MkPage {
  items : list A;
  page : Z;
  per_page : Z;
  total_items : Z;
  total_pages : Z;
  has_next : bool;
  has_prev : bool
}.
Arguments MkPage {A}.
Arguments items {A}.
Arguments page {A}.
Arguments per_page {A}.
Arguments total_items {A}.
Arguments total_pages {A}.
Arguments has_next {A}.
Arguments has_prev {A}.

Definition paginate_list {A : Type} (all : list A) (page per_page : Z) : Page A :=
  let page := if (page <? 1)%Z then 1%Z else page in
  let per_page := if (per_page <? 1)%Z then 10%Z else per_page in
  let total_items := Z.of_nat (length all) in
  let total_pages := ((total_items + per_page - 1) / per_page)%Z in
  let start_index := ((page - 1) * per_page)%Z in
  let end_index := (start_index + per_page)%Z in
  let page_items :=
    take (Z.to_nat end_index - Z.to_nat start_index) (drop (Z.to_nat start_index) all) in
  MkPage page_items page per_page total_items total_pages
    (page <? total_pages)%Z (1 <? page)%Z.

End Helpers.

(** ** app/routes/chat.py *)

Module ChatRoutes.
Import ConversationService.

(** A parsed JSON value: an object with its fields, or a value that is no
    object ([None] for the literal null). *)
Inductive Json : Type :=
| JObject (fields : gmap string PyValue)
| JOther (v : PyValue).

(** What [request.get_json()] does inside the route's [try].  It raises for
    a request whose body cannot be read as JSON: a missing or empty body,
    text that is not JSON, a content type that is not JSON.  Otherwise it
    returns the parsed value. *)
Inductive GetJson : Type :=
| Unreadable
| Parsed (data : Json).

(** [bool(data)] *)
Definition json_truthy (data : Json) : bool :=
  match data with
  | JObject fields => negb (bool_decide (fields = ∅))
  | JOther v => truthy v
  end.

(** What a route answers: the status and the body handed to [jsonify]. *)
Inductive Reply : Type :=
| Ok (response : ChatResponse.t) (conversation_id intent intent_confidence : option PyValue)
| Error (status : nat) (error : string).

Definition status (r : Reply) : nat :=
  match r with Ok _ _ _ _ => 200 | Error s _ => s end.

(** The [try] body of [send_message] from the parsed value on: its three
    exits, and the route's own [except] clause for what the body raises
    before the service is called: [.get] on a body that is no object,
    [.strip()] on a message that is no string. *)
Definition send_message_parsed (env : Env) (data : Json) (w : World) : Reply * World :=
  if negb (json_truthy data) then (Error 400 "No JSON data provided", w)
  else
    match data with
    | JOther _ => (Error 500 "Internal server error", w)
    | JObject fields =>
        match default (PyStr "") (fields !! "message") with
        | PyStr raw =>
            let message := PyStr.strip raw in
            if String.eqb message "" then (Error 400 "Message is required", w)
            else
              let message := Helpers.sanitize_input (PyStr message) 1000 in
              let conversation_id := default PyNone (fields !! "conversation_id") in
              let user_preferences :=
                default (PyDict 0) (fields !! "user_preferences") in
              let (response, w') :=
                process_message env message conversation_id user_preferences w in
              if APIResponse.success response then
                match APIResponse.data response with
                | Some data =>
                    (Ok data
                       (APIResponse.metadata response !! "conversation_id")
                       (APIResponse.metadata response !! "intent")
                       (APIResponse.metadata response !! "confidence"), w')
                | None => (Error 500 "Internal server error", w')
                end
              else (Error 500 (str_of_optional (APIResponse.error response)), w')
        | _ => (Error 500 "Internal server error", w)
        end
    end.

(** [send_message]: what [request.get_json()] raises is caught by the
    route's [except] clause, like any other exception of the body. *)
Definition send_message (env : Env) (request : GetJson) (w : World) : Reply * World :=
  match request with
  | Unreadable => (Error 500 "Internal server error", w)
  | Parsed data => send_message_parsed env data w
  end.

(** [get_conversation_history]: the limit of the query, 20 if there is
    none, is clamped between 1 and 100; the answer is always a success. *)
Definition get_conversation_history (conversation_id : string) (limit : option Z)
    (w : World) : nat * list Message.t :=
  let limit := default 20%Z limit in
  let limit := Z.max 1 (Z.min limit 100) in
  (200, ConversationService.get_conversation_history conversation_id limit w).

(** [get_conversation_info]: the status and, for a conversation that is
    registered, its identifier and the number of its messages. *)
Definition get_conversation_info (conversation_id : string) (w : World)
    : nat * option (string * nat) :=
  match ConversationService.get_conversation conversation_id w with
  | Some conversation =>
      (200, Some (Conversation.id conversation,
                  length (Conversation.messages conversation)))
  | None => (404, None)
  end.

End ChatRoutes.

(** ** Further notions the statements use *)

Module Notions.

(** The text that the handler of [name] shows for the answer of its
    service. *)
Definition formatted (env : Env) (name : string) (result : APIResponse.t PyValue)
    : string :=
  let data := default PyNone (APIResponse.data result) in
  if String.eqb name "weather" then format_weather_message env data
  else if String.eqb name "news" then format_news_message env data
  else format_calendar_message env data.

(** Every character of a string satisfies [p]. *)
Fixpoint all_chars (p : ascii -> bool) (s : string) : bool :=
  match s with
  | EmptyString => true
  | String c s' => p c && all_chars p s'
  end.

(** The characters of [s] that satisfy [p], in their order. *)
Fixpoint keep_chars (p : ascii -> bool) (s : string) : string :=
  match s with
  | EmptyString => EmptyString
  | String c s' => if p c then String c (keep_chars p s') else keep_chars p s'
  end.

Definition is_harmful (c : ascii) : bool :=
  PyStr.contains (String c EmptyString) Helpers.harmful.

(** The string does not begin with white space. *)
Definition head_not_space (s : string) : bool :=
  match s with
  | String c _ => negb (PyStr.is_space c)
  | EmptyString => true
  end.

(** A word: not empty, and without white space. *)
Definition is_word_of_text (w : string) : bool :=
  negb (String.eqb w "") && all_chars (fun c => negb (PyStr.is_space c)) w.

End Notions.

(** * Properties *)

(** ** The message cap *)

Lemma last_n_length {A : Type} (n : nat) (l : list A) :
  length (last_n n l) = Nat.min n (length l).
Proof. unfold last_n. rewrite length_drop. lia. Qed.

Lemma last_n_snoc_full {A : Type} (n : nat) (l : list A) (x : A) :
  length l = n -> 0 < n -> last_n n (l ++ [x]) = drop 1 l ++ [x].
Proof.
  intros Hn Hpos. unfold last_n. rewrite length_app. simpl.
  replace (length l + 1 - n) with 1 by lia.
  destruct l as [|y l]; simpl in *; [lia | reflexivity].
Qed.

(** C4.  Whatever the conversation, [add_message] leaves at most 50
    messages.  On a conversation of exactly 50 messages it leaves exactly
    50: the former ones but the oldest, in their order, followed by the new
    message. *)
Theorem add_message_cap (self : Conversation.t) (content : string) (is_user : bool)
    (message_type : string) (metadata : gmap string PyValue)
    (mid : string) (ts now : Z) :
  let self' :=
    Conversation.add_message self content is_user message_type metadata mid ts now in
  let message := Message.Build mid content ts is_user message_type metadata in
  length (Conversation.messages self') <= 50
  /\ (length (Conversation.messages self) = 50 ->
      Conversation.messages self' = drop 1 (Conversation.messages self) ++ [message]
      /\ length (Conversation.messages self') = 50
      /\ last (Conversation.messages self') = Some message).
Proof.
  intros self' message. subst self'. unfold Conversation.add_message. simpl.
  fold message. split.
  - destruct (50 <? length (Conversation.messages self ++ [message]))%nat eqn:E.
    + rewrite last_n_length. lia.
    + apply Nat.ltb_ge in E. exact E.
  - intros H50.
    assert (E : (50 <? length (Conversation.messages self ++ [message]))%nat = true).
    { apply Nat.ltb_lt. rewrite length_app. simpl. lia. }
    rewrite E. rewrite (last_n_snoc_full 50) by (assumption || lia).
    split; [reflexivity|]. split.
    + rewrite length_app, length_drop. simpl. lia.
    + apply last_snoc.
Qed.

Lemma add_message_cap_witness :
  length (Conversation.messages Samples.full_conversation) = 50
  /\ map Message.id
       (Conversation.messages
          (Conversation.add_message Samples.full_conversation "bye" false "text" ∅
             "m50" 50 51))
     = map (fun n => "m" +:+ pretty n) (seq 1 49) ++ ["m50"].
Proof.
  split; [reflexivity|].
  destruct (add_message_cap Samples.full_conversation "bye" false "text" ∅ "m50" 50 51)
    as [_ H].
  destruct (H eq_refl) as [-> _]. vm_compute. reflexivity.
Defined.
(** ** The registry *)

Section Sorting.
Context {A : Type} (key : A -> Z).

Lemma sorted_insert_length (x : A) (l : list A) :
  length (sorted_insert key x l) = S (length l).
Proof.
  induction l as [|y l IH]; simpl; [reflexivity|].
  destruct (key x <=? key y)%Z; simpl; [reflexivity | now rewrite IH].
Qed.

Lemma sorted_length (l : list A) : length (sorted key l) = length l.
Proof.
  induction l as [|x l IH]; simpl; [reflexivity|].
  now rewrite sorted_insert_length, IH.
Qed.

Lemma sorted_insert_head (x : A) (l : list A) :
  head (sorted_insert key x l)
  = match head l with
    | Some y => if (key x <=? key y)%Z then Some x else Some y
    | None => Some x
    end.
Proof.
  destruct l as [|y l]; simpl; [reflexivity|].
  now destruct (key x <=? key y)%Z.
Qed.

Lemma sorted_insert_perm (x : A) (l : list A) : sorted_insert key x l ≡ₚ x :: l.
Proof.
  induction l as [|y l IH]; simpl; [reflexivity|].
  destruct (key x <=? key y)%Z; [reflexivity|].
  rewrite IH. apply Permutation_swap.
Qed.

(** [sorted] rearranges its argument, in the order of the keys. *)
Lemma sorted_perm (l : list A) : sorted key l ≡ₚ l.
Proof.
  induction l as [|x l IH]; simpl; [reflexivity|].
  now rewrite sorted_insert_perm, IH.
Qed.

Lemma sorted_insert_ordered (x : A) (l : list A) :
  StronglySorted (fun a b => (key a <= key b)%Z) l ->
  StronglySorted (fun a b => (key a <= key b)%Z) (sorted_insert key x l).
Proof.
  induction 1 as [|y l Hs IH Hy]; simpl.
  - repeat constructor.
  - destruct (key x <=? key y)%Z eqn:E.
    + apply Z.leb_le in E. constructor; [now constructor|].
      constructor; [exact E|].
      eapply Forall_impl; [exact Hy|]. simpl. intros; lia.
    + apply Z.leb_gt in E. constructor; [exact IH|].
      rewrite sorted_insert_perm. constructor; [lia | exact Hy].
Qed.

Lemma sorted_ordered (l : list A) :
  StronglySorted (fun a b => (key a <= key b)%Z) (sorted key l).
Proof.
  induction l as [|x l IH]; simpl; [constructor | now apply sorted_insert_ordered].
Qed.

(** The head of the sorted list is the first of the elements of least key. *)
Lemma sorted_head (l : list A) (m : A) :
  head (sorted key l) = Some m ->
  exists l1 l2,
    l = l1 ++ m :: l2
    /\ Forall (fun y => (key m < key y)%Z) l1
    /\ Forall (fun y => (key m <= key y)%Z) l2.
Proof.
  revert m. induction l as [|x l IH]; intros m; simpl; [discriminate|].
  rewrite sorted_insert_head.
  destruct (head (sorted key l)) as [y|] eqn:Hy.
  - destruct (IH y eq_refl) as (l1 & l2 & -> & H1 & H2).
    destruct (key x <=? key y)%Z eqn:E; intros [= <-].
    + apply Z.leb_le in E. exists [], (l1 ++ y :: l2). split; [reflexivity|].
      split; [constructor|].
      apply Forall_app. split.
      * eapply Forall_impl; [exact H1|]. simpl. intros; lia.
      * constructor; [exact E|]. eapply Forall_impl; [exact H2|]. simpl. intros; lia.
    + apply Z.leb_gt in E. exists (x :: l1), l2. split; [reflexivity|].
      split; [|exact H2]. constructor; [exact E | exact H1].
  - intros [= <-]. destruct l as [|z l].
    + exists [], []. repeat split; constructor.
    + exfalso. pose proof (sorted_length (z :: l)) as HL.
      destruct (sorted key (z :: l)); simpl in *; discriminate.
Qed.

End Sorting.

Section RegistryFacts.
Context {V : Type}.
Implicit Types d : ODict.t V.


Lemma odict_get_in k v d : ODict.get k d = Some v -> (k, v) ∈ d.
Proof.
  induction d as [|[k' v'] d IH]; simpl; [discriminate|].
  destruct (String.eqb_spec k k') as [->|Hne].
  - intros [= ->]. left.
  - intros H. right. now apply IH.
Qed.

Lemma odict_in_get k v d : NoDup (ODict.keys d) -> (k, v) ∈ d -> ODict.get k d = Some v.
Proof.
  induction d as [|[k' v'] d IH]; simpl; intros Hnd Hin.
  - now apply elem_of_nil in Hin.
  - apply NoDup_cons in Hnd as [Hk Hnd].
    apply elem_of_cons in Hin as [[= -> ->]|Hin].
    + now rewrite String.eqb_refl.
    + destruct (String.eqb_spec k k') as [->|Hne]; [|now apply IH].
      exfalso. apply Hk. apply (list_elem_of_fmap_2 fst) in Hin. exact Hin.
Qed.

Lemma odict_set_fresh k v d : k ∉ ODict.keys d -> ODict.set k v d = d ++ [(k, v)].
Proof.
  induction d as [|[k' v'] d IH]; simpl; intros H; [reflexivity|].
  apply not_elem_of_cons in H as [Hne H].
  destruct (String.eqb_spec k k') as [->|_]; [congruence|]. now rewrite IH.
Qed.

Lemma odict_set_keys_known k v d : k ∈ ODict.keys d -> ODict.keys (ODict.set k v d) = ODict.keys d.
Proof.
  induction d as [|[k' v'] d IH]; simpl; intros H.
  - now apply elem_of_nil in H.
  - destruct (String.eqb_spec k k') as [->|Hne]; [reflexivity|].
    simpl. f_equal. apply IH. apply elem_of_cons in H as [|]; [congruence|assumption].
Qed.

Lemma odict_set_length_known k v d : k ∈ ODict.keys d -> length (ODict.set k v d) = length d.
Proof.
  intros H. apply odict_set_keys_known with (v := v) in H.
  unfold ODict.keys in H. apply (f_equal length) in H. now rewrite !length_fmap in H.
Qed.

Lemma odict_set_in k v d p : p ∈ ODict.set k v d -> p = (k, v) \/ p ∈ d.
Proof.
  induction d as [|[k' v'] d IH]; simpl.
  - intros H. apply list_elem_of_singleton in H. now left.
  - destruct (String.eqb_spec k k') as [->|Hne]; intros H.
    + apply elem_of_cons in H as [->|H]; [now left|]. right. now right.
    + apply elem_of_cons in H as [->|H]; [right; left|].
      destruct (IH H) as [->|H']; [now left|]. right. now right.
Qed.

Lemma odict_del_middle k v (l1 l2 : ODict.t V) :
  k ∉ ODict.keys l1 -> ODict.del k (l1 ++ (k, v) :: l2) = l1 ++ l2.
Proof.
  induction l1 as [|[k' v'] l1 IH]; simpl; intros H.
  - now rewrite String.eqb_refl.
  - apply not_elem_of_cons in H as [Hne H].
    destruct (String.eqb_spec k k') as [->|_]; [congruence|]. now rewrite IH.
Qed.

Lemma odict_replace_keys k v d : ODict.keys (ODict.replace k v d) = ODict.keys d.
Proof.
  induction d as [|[k' v'] d IH]; simpl; [reflexivity|].
  destruct (String.eqb_spec k k') as [->|Hne]; simpl; [reflexivity | now rewrite IH].
Qed.

End RegistryFacts.

Section Registry.
Import ConversationService Spec.
Variable env : Env.

Lemma registry_ok_spec (d : ODict.t Conversation.t) :
  registry_ok d = true
  <-> NoDup (ODict.keys d) /\ Forall (fun p => Conversation.id (snd p) = fst p) d.
Proof.
  unfold registry_ok. rewrite andb_true_iff, bool_decide_eq_true, forallb_forall.
  rewrite Forall_forall. split; intros [H1 H2]; (split; [exact H1|]); intros p Hp.
  - apply String.eqb_eq. apply H2. now apply list_elem_of_In.
  - apply String.eqb_eq. apply H2. now apply list_elem_of_In.
Qed.

(** What the clean-up does to a registry of at most eleven entries. *)
Lemma evict_spec (d : ODict.t Conversation.t) :
  NoDup (ODict.keys d) -> length d <= 11 ->
  (length d <= 10 /\ evict d = d)
  \/ (length d = 11 /\ exists l1 victim l2,
        d = l1 ++ victim :: l2
        /\ Forall (fun p => (Conversation.updated_at (snd victim)
                             < Conversation.updated_at (snd p))%Z) l1
        /\ Forall (fun p => (Conversation.updated_at (snd victim)
                             <= Conversation.updated_at (snd p))%Z) l2
        /\ evict d = l1 ++ l2).
Proof.
  intros Hnd Hlen. unfold evict.
  destruct (10 <? length d)%nat eqn:E.
  - apply Nat.ltb_lt in E. right. split; [lia|].
    set (key := fun x : string * Conversation.t => Conversation.updated_at (snd x)).
    pose proof (sorted_length key d) as HL.
    destruct (sorted key d) as [|m rest] eqn:Hs; [simpl in HL; lia|].
    destruct (sorted_head key d m) as (l1 & l2 & Hd & H1 & H2).
    { now rewrite Hs. }
    exists l1, m, l2. split; [exact Hd|]. split; [exact H1|]. split; [exact H2|].
    unfold all_but_last_n. rewrite HL.
    replace (length d - 10) with 1 by lia. simpl.
    rewrite Hd. destruct m as [k v]. simpl. apply odict_del_middle.
    rewrite Hd in Hnd. unfold ODict.keys in Hnd. rewrite fmap_app in Hnd.
    apply NoDup_app in Hnd as (_ & Hdisj & _).
    intros Hin. apply (Hdisj k Hin). simpl. left.
  - apply Nat.ltb_ge in E. left. split; [exact E | reflexivity].
Qed.

Lemma get_or_create_cases (conversation_id user_preferences : PyValue) (w : World) :
  get_or_create_outcome env conversation_id user_preferences w
    (_get_or_create_conversation env conversation_id user_preferences w).
Proof.
  unfold _get_or_create_conversation, bind, get_conversations.
  destruct (truthy conversation_id) eqn:Ht.
  - unfold known. destruct (unhashable conversation_id) as [ty|] eqn:Hu.
    + unfold raise. now apply goc_raises.
    + unfold ret.
      assert (Hus : usable_id conversation_id = true).
      { unfold usable_id. rewrite Hu. apply orb_true_r. }
      destruct conversation_id as [| | | |s| | |];
        try (apply goc_created; [exact Hus | intros ? [=]]).
      destruct (ODict.get s (conversations w)) as [c|] eqn:Hg.
      * destruct w as [d t]. apply goc_found with (s := s); try easy.
        intros ->. discriminate.
      * apply goc_created; [exact Hus|]. now intros ? [= <-] _.
  - unfold ret. apply goc_created.
    + unfold usable_id. now rewrite Ht.
    + intros s -> Hs. simpl in Ht. destruct (String.eqb_spec s ""); [congruence|discriminate].
Qed.
End Registry.

Section RegistryCap.
Import ConversationService Spec.
Variable env : Env.

Lemma registry_get_id (d : ODict.t Conversation.t) (s : string) (c : Conversation.t) :
  registry_ok d = true -> ODict.get s d = Some c -> Conversation.id c = s.
Proof.
  intros Hok Hg. apply registry_ok_spec in Hok as [_ Hall].
  apply odict_get_in in Hg. rewrite Forall_forall in Hall.
  exact (Hall (s, c) Hg).
Qed.

Lemma registry_ok_set (d : ODict.t Conversation.t) (c : Conversation.t) :
  registry_ok d = true -> registry_ok (ODict.set (Conversation.id c) c d) = true.
Proof.
  rewrite !registry_ok_spec. intros [Hnd Hall]. split.
  - destruct (decide (Conversation.id c ∈ ODict.keys d)) as [Hin|Hout].
    + now rewrite odict_set_keys_known.
    + rewrite odict_set_fresh by exact Hout. unfold ODict.keys. rewrite fmap_app.
      apply NoDup_app. split; [exact Hnd|]. split.
      * intros x Hx Hx'. simpl in Hx'. apply list_elem_of_singleton in Hx'. now subst.
      * simpl. apply NoDup_singleton.
  - rewrite Forall_forall in *. intros p Hp.
    apply odict_set_in in Hp as [->|Hp]; [reflexivity | now apply Hall].
Qed.

Lemma registry_ok_remove (l1 l2 : ODict.t Conversation.t) (m : string * Conversation.t) :
  registry_ok (l1 ++ m :: l2) = true -> registry_ok (l1 ++ l2) = true.
Proof.
  rewrite !registry_ok_spec. unfold ODict.keys. rewrite !fmap_app, fmap_cons.
  rewrite !Forall_app, Forall_cons. intros [Hnd (H1 & _ & H2)]. split; [|now split].
  apply NoDup_app in Hnd as (Hn1 & Hdisj & Hn2).
  apply NoDup_cons in Hn2 as [_ Hn2].
  apply NoDup_app. repeat split; try assumption.
  intros x Hx Hx'. apply (Hdisj x Hx). now right.
Qed.

End RegistryCap.


(** On the sample registry the conversation removed is c1, the first of the
    two of least [updated_at]. *)
Example eviction_on_sample :
  ODict.keys
    (conversations
       (snd (ConversationService._get_or_create_conversation Samples.env0 PyNone PyNone
               Samples.w10)))
  = ["c0"; "c2"; "c3"; "c4"; "c5"; "c6"; "c7"; "c8"; "c9"; "id0"].
Proof. vm_compute. reflexivity. Qed.

(** ** The classifier *)

Lemma Qltb_lt (a b : Q) : Qltb a b = true <-> (a < b)%Q.
Proof.
  unfold Qltb. rewrite negb_true_iff. split.
  - intros H. apply Qnot_le_lt. intros Hle. apply Qle_bool_iff in Hle. congruence.
  - intros H. destruct (Qle_bool b a) eqn:E; [|reflexivity].
    apply Qle_bool_iff in E. exfalso. exact (Qlt_not_le _ _ H E).
Qed.

Lemma Qltb_ge (a b : Q) : Qltb a b = false <-> (b <= a)%Q.
Proof.
  unfold Qltb. rewrite negb_false_iff. apply Qle_bool_iff.
Qed.

Section PyMax.
Context {A : Type} (key : A -> Q).

Lemma py_max_fold (l pre post : list A) (b : A) :
  let best :=
    fold_left (fun best y => if Qltb (key best) (key y) then y else best) l b in
  Forall (fun y => (key y < key b)%Q) pre ->
  Forall (fun y => (key y <= key b)%Q) post ->
  exists l1 l2,
    pre ++ b :: post ++ l = l1 ++ best :: l2
    /\ Forall (fun y => (key y < key best)%Q) l1
    /\ Forall (fun y => (key y <= key best)%Q) l2.
Proof.
  revert pre post b. induction l as [|y l IH]; intros pre post b best Hpre Hpost.
  - exists pre, post. rewrite app_nil_r. auto.
  - subst best. cbn [fold_left]. destruct (Qltb (key b) (key y)) eqn:E.
    + apply Qltb_lt in E.
      destruct (IH (pre ++ b :: post) [] y) as (l1 & l2 & Heq & H1 & H2).
      * apply Forall_app. split.
        -- eapply Forall_impl; [exact Hpre|]. simpl. intros z Hz.
           eapply Qlt_trans; eassumption.
        -- constructor; [exact E|].
           eapply Forall_impl; [exact Hpost|]. simpl. intros z Hz.
           eapply Qle_lt_trans; eassumption.
      * constructor.
      * exists l1, l2. split; [|auto]. rewrite <- Heq. simpl.
        rewrite <- app_assoc. reflexivity.
    + apply Qltb_ge in E.
      destruct (IH pre (post ++ [y]) b) as (l1 & l2 & Heq & H1 & H2).
      * exact Hpre.
      * apply Forall_app. split; [exact Hpost|]. constructor; [exact E|constructor].
      * exists l1, l2. split; [|auto]. rewrite <- Heq.
        rewrite <- app_assoc. reflexivity.
Qed.

(** [max] returns the first of the elements of greatest key. *)
Lemma py_max_first (l : list A) :
  match py_max key l with
  | None => l = []
  | Some x =>
      exists l1 l2,
        l = l1 ++ x :: l2
        /\ Forall (fun y => (key y < key x)%Q) l1
        /\ Forall (fun y => (key y <= key x)%Q) l2
  end.
Proof.
  destruct l as [|x l]; simpl; [reflexivity|].
  destruct (py_max_fold l [] [] x) as (l1 & l2 & Heq & H1 & H2); try constructor.
  exists l1, l2. auto.
Qed.
End PyMax.

Lemma omap_split {A B : Type} (f : A -> option B) (l : list A) (m1 m2 : list B) (y : B) :
  omap f l = m1 ++ y :: m2 ->
  exists l1 x l2,
    l = l1 ++ x :: l2 /\ f x = Some y /\ omap f l1 = m1 /\ omap f l2 = m2.
Proof.
  revert m1. induction l as [|a l IH]; intros m1; simpl.
  - intros H. now destruct m1.
  - destruct (f a) as [b|] eqn:Ea.
    + destruct m1 as [|b' m1]; simpl.
      * intros [= <- <-]. exists [], a, l. repeat split; auto.
      * intros [= <- H]. destruct (IH m1 H) as (l1 & x & l2 & -> & Hx & <- & <-).
        exists (a :: l1), x, l2. simpl. rewrite Ea. repeat split; auto.
    + intros H. destruct (IH m1 H) as (l1 & x & l2 & -> & Hx & <- & <-).
      exists (a :: l1), x, l2. simpl. rewrite Ea. repeat split; auto.
Qed.

Section Classifier.
Import ConversationService Spec.

Lemma match_keywords_fold (ml : string) (kws acc : list string) :
  fold_left
    (fun acc keyword =>
       if PyStr.contains keyword ml
       then (S (fst acc), snd acc ++ [keyword]) else acc)
    kws (length acc, acc)
  = (length (acc ++ List.filter (fun k => PyStr.contains k ml) kws),
     acc ++ List.filter (fun k => PyStr.contains k ml) kws).
Proof.
  revert acc. induction kws as [|k kws IH]; intros acc; simpl.
  - now rewrite app_nil_r.
  - destruct (PyStr.contains k ml); simpl.
    + replace (S (length acc)) with (length (acc ++ [k]))
        by (rewrite length_app; simpl; lia).
      rewrite IH. now rewrite <- app_assoc.
    + apply IH.
Qed.

Lemma match_keywords_spec (message : string) (kws : list string) :
  match_keywords (PyStr.lower message) kws
  = (length (matched message kws), matched message kws).
Proof. unfold match_keywords. apply (match_keywords_fold _ kws []). Qed.

Lemma scored_name (message : string) (entry : string * list string)
    (p : string * ScoreEntry) :
  scored message entry = Some p ->
  fst p = fst entry
  /\ matched message (snd entry) <> []
  /\ score (snd p) = lexicon_score message (snd entry)
  /\ keywords (snd p) = matched message (snd entry).
Proof.
  unfold scored. destruct entry as [name kws]. simpl.
  destruct (matched message kws) as [|k m] eqn:Hm; simpl; [discriminate|].
  intros [= <-]. simpl. unfold lexicon_score. rewrite Hm. auto.
Qed.

Lemma scored_none (message : string) (entry : string * list string) :
  scored message entry = None -> matched message (snd entry) = [].
Proof.
  unfold scored. destruct entry as [name kws]. simpl.
  destruct (matched message kws); simpl; [reflexivity | discriminate].
Qed.

Lemma omap_scored_keys (message : string) (lex : ODict.t (list string)) :
  ODict.keys (omap (scored message) lex) `sublist_of` ODict.keys lex.
Proof.
  induction lex as [|entry lex IH]; simpl; [constructor|].
  destruct (scored message entry) as [p|] eqn:E.
  - apply scored_name in E as [<- _]. simpl. now constructor.
  - now constructor.
Qed.

(** The score table holds, in the order of the lexicon, the entries whose
    lexicon has a keyword in the utterance. *)
Lemma intent_scores_for_spec (message : string) (lex : ODict.t (list string)) :
  NoDup (ODict.keys lex) ->
  intent_scores_for lex (PyStr.lower message) = omap (scored message) lex.
Proof.
  unfold intent_scores_for.
  match goal with |- _ -> fold_left ?f _ _ = _ => set (step := f) end.
  assert (Hstep : forall acc name kws,
             step acc (name, kws)
             = match scored message (name, kws) with
               | Some p => ODict.set (fst p) (snd p) acc
               | None => acc
               end).
  { intros acc name kws. unfold step, scored. rewrite match_keywords_spec.
    cbn [fst snd]. now destruct (matched message kws). }
  clearbody step.
  enough (H : forall acc : ODict.t ScoreEntry,
             NoDup (ODict.keys lex) ->
             (forall k, k ∈ ODict.keys lex -> k ∉ ODict.keys acc) ->
             fold_left step lex acc = acc ++ omap (scored message) lex).
  { intros Hnd. apply (H [] Hnd). intros k _. apply not_elem_of_nil. }
  induction lex as [|[name kws] lex IH]; intros acc Hnd Hfresh.
  - cbn. now rewrite app_nil_r.
  - unfold ODict.keys in Hnd, Hfresh. rewrite fmap_cons in Hnd, Hfresh.
    cbn [fst] in Hnd, Hfresh.
    apply NoDup_cons in Hnd as [Hname Hnd].
    cbn [fold_left]. rewrite Hstep. cbn [omap list_omap].
    destruct (scored message (name, kws)) as [p|] eqn:E.
    + apply scored_name in E as (Hp & _). cbn [fst] in Hp.
      destruct p as [k e]. cbn [fst snd] in *. subst k.
      rewrite odict_set_fresh by (apply Hfresh; left).
      rewrite IH; [now rewrite <- app_assoc | exact Hnd |].
      intros k' Hk'. unfold ODict.keys. rewrite fmap_app.
      rewrite elem_of_app. cbn. rewrite list_elem_of_singleton. intros [Hin | ->].
      * revert Hin. apply Hfresh. now right.
      * contradiction.
    + apply IH; [exact Hnd|]. intros k Hk. apply Hfresh. now right.
Qed.
End Classifier.

Section ClassifierMain.
Import ConversationService Spec.

Lemma lexicon_score_pos (message : string) (kws : list string) :
  matched message kws <> [] -> (0 < lexicon_score message kws)%Q.
Proof.
  intros Hm. unfold lexicon_score.
  assert (Hn : 0 < length (matched message kws)).
  { destruct (matched message kws); [congruence | simpl; lia]. }
  assert (Hlen : length (matched message kws) <= length kws).
  { unfold matched. apply List.filter_length_le. }
  apply Qlt_shift_div_l.
  - unfold Qlt. simpl. lia.
  - unfold Qlt. simpl. lia.
Qed.

Lemma lexicon_score_none (message : string) (kws : list string) :
  matched message kws = [] -> (lexicon_score message kws == 0)%Q.
Proof.
  intros Hm. unfold lexicon_score. rewrite Hm. simpl length.
  change (inject_Z (Z.of_nat 0)) with 0%Q. unfold Qdiv. apply Qmult_0_l.
Qed.

Lemma omap_nil_inv {A B : Type} (f : A -> option B) (l : list A) :
  omap f l = [] -> Forall (fun x => f x = None) l.
Proof.
  induction l as [|a l IH]; cbn [omap list_omap]; [constructor|].
  destruct (f a) eqn:E; [discriminate|]. intros H. constructor; auto.
Qed.

Lemma intent_keywords_nodup : NoDup (ODict.keys intent_keywords).
Proof. apply (bool_decide_unpack _). vm_compute. exact I. Qed.

(** The two outcomes of [_detect_intent]. *)
Lemma detect_intent_cases (message : string) (conversation : Conversation.t) :
  (Forall (fun e => matched message (snd e) = []) intent_keywords
   /\ _detect_intent message conversation = general_intent)
  \/ (exists before name kws after,
        intent_keywords = before ++ (name, kws) :: after
        /\ matched message kws <> []
        /\ Forall (fun e => (lexicon_score message (snd e)
                             < lexicon_score message kws)%Q) before
        /\ Forall (fun e => (lexicon_score message (snd e)
                             <= lexicon_score message kws)%Q) after
        /\ _detect_intent message conversation
           = UserIntent.Build name (Qmin (lexicon_score message kws * 2) 1)
               (_extract_entities message name conversation)
               {[ "matched_keywords" := matched message kws ]}).
Proof.
  unfold _detect_intent.
  rewrite (intent_scores_for_spec message intent_keywords intent_keywords_nodup).
  set (scores := omap (scored message) intent_keywords).
  assert (Hnd : NoDup (ODict.keys scores)).
  { eapply sublist_NoDup; [apply intent_keywords_nodup | apply omap_scored_keys]. }
  assert (Hscore : forall q, q ∈ scores ->
             ODict.get (fst q) scores = Some (snd q)
             /\ score_of scores (fst q) = score (snd q)).
  { intros [k e] Hq. cbn [fst snd]. unfold score_of.
    rewrite (odict_in_get k e scores Hnd Hq). auto. }
  pose proof (py_max_first (score_of scores) (ODict.keys scores)) as Hmax.
  destruct (py_max (score_of scores) (ODict.keys scores)) as [k|].
  - right. destruct Hmax as (ks1 & ks2 & Hkeys & H1 & H2).
    unfold ODict.keys in Hkeys.
    apply fmap_app_inv in Hkeys as (s1 & s' & -> & Hs' & Hsc).
    symmetry in Hs'. apply fmap_cons_inv in Hs' as (p & s2 & Hk & -> & ->).
    destruct (omap_split _ _ _ _ _ Hsc) as (l1 & x & l2 & Hlex & Hx & Hl1 & Hl2).
    destruct x as [name kws].
    destruct (scored_name _ _ _ Hx) as (Hname & Hm & Hsp & Hkp).
    cbn [fst snd] in Hname, Hm, Hsp, Hkp.
    assert (Hp : p ∈ scores).
    { rewrite Hsc. apply elem_of_app. right. left. }
    destruct (Hscore p Hp) as [Hget Hso]. subst k.
    exists l1, name, kws, l2. split; [exact Hlex|]. split; [exact Hm|].
    assert (Hlift : forall (R : Q -> Q -> Prop) (l : list (string * list string))
                      (s : list (string * ScoreEntry)),
               (forall a, (0 < a)%Q -> forall z, (z == 0)%Q -> R z a) ->
               omap (scored message) l = s ->
               (forall q, q ∈ s -> q ∈ scores) ->
               Forall (fun y => R (score_of scores y) (score_of scores (fst p)))
                      (fst <$> s) ->
               Forall (fun e => R (lexicon_score message (snd e))
                                  (lexicon_score message kws)) l).
    { intros R l s HR Hl Hin HF. apply Forall_forall. intros e He.
      destruct (scored message e) as [q|] eqn:Eq.
      - assert (Hq : q ∈ s).
        { rewrite <- Hl. apply list_elem_of_omap. exists e. auto. }
        rewrite Forall_forall in HF.
        specialize (HF (fst q) (list_elem_of_fmap_2 fst _ _ Hq)).
        destruct (Hscore q (Hin q Hq)) as [_ Hq2].
        rewrite Hq2, Hso in HF.
        apply scored_name in Eq as (_ & _ & Hqs & _).
        now rewrite Hqs, Hsp in HF.
      - apply scored_none in Eq. apply HR.
        + now apply lexicon_score_pos.
        + now apply lexicon_score_none. }
    split; [|split].
    + apply (Hlift Qlt l1 s1); auto.
      * intros a Ha z Hz. now rewrite Hz.
      * intros q Hq. rewrite Hsc. apply elem_of_app. now left.
    + apply (Hlift Qle l2 s2); auto.
      * intros a Ha z Hz. rewrite Hz. now apply Qlt_le_weak.
      * intros q Hq. rewrite Hsc. apply elem_of_app. right. now right.
    + rewrite Hget, Hso, Hsp, Hkp, Hname. reflexivity.
  - left. unfold ODict.keys in Hmax. apply fmap_nil_inv in Hmax.
    split; [|reflexivity].
    apply omap_nil_inv in Hmax.
    eapply Forall_impl; [exact Hmax|]. intros e. apply scored_none.
Qed.
End ClassifierMain.

Section ClassifierClaims.
Import ConversationService Spec.

Lemma matched_nonempty (message : string) (kws : list string) :
  matched message kws <> [] <-> exists kw, kw ∈ kws /\ occurs message kw = true.
Proof.
  unfold matched. split.
  - intros H. destruct (List.filter (occurs message) kws) as [|kw m] eqn:E; [congruence|].
    exists kw. assert (Hin : In kw (List.filter (occurs message) kws)) by (rewrite E; now left).
    apply List.filter_In in Hin as [Hin Hocc]. split; [now apply list_elem_of_In | exact Hocc].
  - intros (kw & Hin & Hocc) E.
    assert (Hf : In kw (List.filter (occurs message) kws)).
    { apply List.filter_In. split; [now apply list_elem_of_In | exact Hocc]. }
    rewrite E in Hf. destruct Hf.
Qed.

Lemma lexicon_score_pos_iff (message : string) (kws : list string) :
  (0 < lexicon_score message kws)%Q <-> matched message kws <> [].
Proof.
  split; [|apply lexicon_score_pos].
  intros Hpos Hm. apply lexicon_score_none in Hm. rewrite Hm in Hpos.
  exact (Qlt_irrefl 0 Hpos).
Qed.

(** C1.  [_detect_intent] scores every lexicon by the number of its keywords
    that are substrings of the lower-cased utterance over the number of its
    keywords; no lexicon is named general.  If no score is positive, as for
    the empty utterance, the result is general with confidence 0.5 and no
    entities or parameters.  Otherwise the result is the first intent, in
    the order of the lexicon, whose score is the greatest, with confidence
    min(score * 2, 1), and the parameter matched_keywords lists the
    keywords that occur. *)
Theorem detect_intent_scoring (message : string) (conversation : Conversation.t) :
  let r := _detect_intent message conversation in
  ("general" ∉ ODict.keys intent_keywords)
  /\ ((forall name kws, (name, kws) ∈ intent_keywords ->
         ~ (0 < lexicon_score message kws)%Q) ->
      r = UserIntent.Build "general" (1 # 2) ∅ ∅)
  /\ ((exists name kws, (name, kws) ∈ intent_keywords
                        /\ (0 < lexicon_score message kws)%Q) ->
      exists before name kws after,
        intent_keywords = before ++ (name, kws) :: after
        /\ (0 < lexicon_score message kws)%Q
        /\ Forall (fun e => (lexicon_score message (snd e)
                             < lexicon_score message kws)%Q) before
        /\ Forall (fun e => (lexicon_score message (snd e)
                             <= lexicon_score message kws)%Q) after
        /\ UserIntent.intent r = name
        /\ UserIntent.confidence r = Qmin (lexicon_score message kws * 2) 1
        /\ UserIntent.parameters r !! "matched_keywords" = Some (matched message kws))
  /\ _detect_intent "" conversation = UserIntent.Build "general" (1 # 2) ∅ ∅.
Proof.
  intros r. subst r. split; [|split; [|split]].
  - apply (bool_decide_unpack _). vm_compute. exact I.
  - intros Hnone.
    destruct (detect_intent_cases message conversation)
      as [[_ ->] | (before & name & kws & after & Hlex & Hm & _)]; [reflexivity|].
    exfalso. apply (Hnone name kws).
    + rewrite Hlex. apply elem_of_app. right. left.
    + now apply lexicon_score_pos.
  - intros (name0 & kws0 & Hin & Hpos).
    destruct (detect_intent_cases message conversation)
      as [[Hall _] | (before & name & kws & after & Hlex & Hm & H1 & H2 & ->)].
    + exfalso. rewrite Forall_forall in Hall. specialize (Hall _ Hin).
      apply lexicon_score_pos_iff in Hpos. now apply Hpos.
    + exists before, name, kws, after. cbn [UserIntent.intent UserIntent.confidence
        UserIntent.parameters].
      repeat (split; [first [assumption | reflexivity | now apply lexicon_score_pos]|]).
      apply lookup_singleton_eq.
  - vm_compute. reflexivity.
Qed.

(** C9.  If some keyword of the greeting lexicon occurs in the utterance
    and no keyword of any other lexicon does, [_detect_intent] answers
    greeting with a positive confidence. *)
Theorem greeting_only_is_greeting (message : string) (conversation : Conversation.t) :
  (exists kw,
      kw ∈ ["hello"; "hi"; "hey"; "good morning"; "good afternoon"; "good evening"]
      /\ occurs message kw = true) ->
  (forall name kws kw,
      (name, kws) ∈ intent_keywords -> name <> "greeting" -> kw ∈ kws ->
      occurs message kw = false) ->
  UserIntent.intent (_detect_intent message conversation) = "greeting"
  /\ (0 < UserIntent.confidence (_detect_intent message conversation))%Q.
Proof.
  intros Hgreet Hothers.
  destruct (detect_intent_cases message conversation)
    as [[Hall _] | (before & name & kws & after & Hlex & Hm & _ & _ & ->)].
  - exfalso. rewrite Forall_forall in Hall.
    assert (Hin : ("greeting",
                   ["hello"; "hi"; "hey"; "good morning"; "good afternoon";
                    "good evening"]) ∈ intent_keywords).
    { apply list_elem_of_In. vm_compute. tauto. }
    specialize (Hall _ Hin). cbn [snd] in Hall.
    revert Hall. now apply matched_nonempty.
  - cbn [UserIntent.intent UserIntent.confidence]. split.
    + destruct (String.eqb_spec name "greeting") as [->|Hne]; [reflexivity|].
      exfalso. apply matched_nonempty in Hm as (kw & Hkw & Hocc).
      rewrite (Hothers name kws kw) in Hocc; [discriminate | | exact Hne | exact Hkw].
      rewrite Hlex. apply elem_of_app. right. left.
    + apply Q.min_glb_lt; [|reflexivity].
      apply Qmult_lt_0_compat; [|reflexivity]. now apply lexicon_score_pos.
Qed.

Lemma greeting_only_is_greeting_witness :
  UserIntent.intent
    (_detect_intent "Hello" (Conversation.Build "c" [] 0 0 ∅ PyNone)) = "greeting"
  /\ (0 < UserIntent.confidence
            (_detect_intent "Hello" (Conversation.Build "c" [] 0 0 ∅ PyNone)))%Q.
Proof.
  apply greeting_only_is_greeting.
  - exists "hello". split; [left | reflexivity].
  - intros name kws kw Hin Hne Hkw.
    apply list_elem_of_In in Hin. apply list_elem_of_In in Hkw.
    vm_compute in Hin.
    repeat (destruct Hin as [[= <- <-] | Hin];
            [ try congruence;
              vm_compute in Hkw;
              repeat (destruct Hkw as [<- | Hkw]; [reflexivity|]);
              destruct Hkw
            |]).
    destruct Hin.
Defined.
(** Each keyword of the greeting lexicon, used alone, is such an utterance,
    and so is their sequence. *)
Example greeting_keywords_alone :
  Forall
    (fun u =>
       map (fun e => (fst e, negb (Nat.eqb (length (matched u (snd e))) 0)))
           intent_keywords
       = [ ("weather", false); ("news", false); ("calendar", false);
           ("greeting", true); ("goodbye", false); ("help", false);
           ("thanks", false) ])
    [ "hello"; "hi"; "hey"; "good morning"; "good afternoon"; "good evening";
      "Hello hi, hey! Good morning good afternoon good evening" ].
Proof. repeat constructor. Qed.

End ClassifierClaims.

Lemma detect_intent_scoring_witness :
  let message := "Hello" in
  let r := ConversationService._detect_intent message Samples.no_conversation in
  exists before name kws after,
    ConversationService.intent_keywords = before ++ (name, kws) :: after
    /\ (0 < Spec.lexicon_score message kws)%Q
    /\ Forall (fun e => (Spec.lexicon_score message (snd e)
                         < Spec.lexicon_score message kws)%Q) before
    /\ Forall (fun e => (Spec.lexicon_score message (snd e)
                         <= Spec.lexicon_score message kws)%Q) after
    /\ UserIntent.intent r = name
    /\ UserIntent.confidence r = Qmin (Spec.lexicon_score message kws * 2) 1
    /\ UserIntent.parameters r !! "matched_keywords" = Some (Spec.matched message kws).
Proof.
  intros message r.
  destruct (detect_intent_scoring message Samples.no_conversation) as (_ & _ & H & _).
  apply H.
  exists "greeting",
    ["hello"; "hi"; "hey"; "good morning"; "good afternoon"; "good evening"].
  split; [apply list_elem_of_In; vm_compute; tauto | vm_compute; reflexivity].
Defined.
(** ** The dispatcher *)

Section Dispatch.
Import ConversationService Spec.
Variable env : Env.

Lemma detect_intent_conversation (message : string) (c c' : Conversation.t) :
  _detect_intent message c = _detect_intent message c'.
Proof. reflexivity. Qed.

Lemma detect_intent_general (message : string) (c : Conversation.t) :
  UserIntent.intent (_detect_intent message c) = "general" ->
  _detect_intent message c = general_intent.
Proof.
  destruct (detect_intent_cases message c)
    as [[_ ->] | (before & name & kws & after & Hlex & _ & _ & _ & ->)];
    [reflexivity|].
  cbn [UserIntent.intent]. intros ->. exfalso.
  assert (Hin : In ("general", kws) intent_keywords).
  { rewrite Hlex. apply in_or_app. right. now left. }
  vm_compute in Hin.
  repeat (destruct Hin as [Hin | Hin]; [discriminate Hin|]). destruct Hin.
Qed.

Lemma chat_response_run (message response_type : string) (confidence : Q)
    (actions suggestions : list string) (w : World) :
  chat_response env message response_type confidence actions suggestions w
  = (Returned (ChatResponse.Build message response_type confidence actions
                 suggestions ∅ (datetime_now env (tick w))),
     MkWorld (conversations w) (S (tick w))).
Proof. reflexivity. Qed.

(** No handler raises. *)
Lemma handle_intent_returns (intent : UserIntent.t) (message : string)
    (c : Conversation.t) (w : World) :
  exists resp w', _handle_intent env intent message c w = (Returned resp, w').
Proof.
  unfold _handle_intent.
  repeat match goal with
         | |- context [if String.eqb ?a ?b then _ else _] => destruct (String.eqb a b)
         end.
  - unfold _handle_weather_intent.
    destruct (APIResponse.success _); rewrite chat_response_run; eauto.
  - unfold _handle_news_intent.
    destruct (APIResponse.success _); rewrite chat_response_run; eauto.
  - unfold _handle_calendar_intent.
    destruct (String.eqb _ "list"); [destruct (APIResponse.success _)|];
      rewrite chat_response_run; eauto.
  - unfold _handle_greeting_intent, bind, draw. rewrite chat_response_run. eauto.
  - unfold _handle_goodbye_intent, bind, random_choice, draw, ret, bind.
    rewrite chat_response_run. eauto.
  - unfold _handle_help_intent. rewrite chat_response_run. eauto.
  - unfold _handle_thanks_intent, bind, random_choice, draw, ret, bind.
    rewrite chat_response_run. eauto.
  - unfold _handle_general_intent, bind, random_choice, draw, ret, bind.
    rewrite chat_response_run. eauto.
Qed.

(** The handler of a request whose external call fails. *)
Lemma handle_intent_failure (intent : UserIntent.t) (message : string)
    (c : Conversation.t) (w : World) (result : APIResponse.t PyValue) :
  collaborator_call env intent = Some result ->
  APIResponse.success result = false ->
  _handle_intent env intent message c w
  = (Returned
       (ChatResponse.Build
          (apology (UserIntent.intent intent)
             +:+ str_of_optional (APIResponse.error result))
          "error" (UserIntent.confidence intent) [] [] ∅ (datetime_now env (tick w))),
     MkWorld (conversations w) (S (tick w))).
Proof.
  unfold collaborator_call, _handle_intent, apology.
  destruct (String.eqb (UserIntent.intent intent) "weather").
  { intros [= <-] Hf. unfold _handle_weather_intent. now rewrite Hf. }
  destruct (String.eqb (UserIntent.intent intent) "news").
  { intros [= <-] Hf. unfold _handle_news_intent. now rewrite Hf. }
  destruct (String.eqb (UserIntent.intent intent) "calendar"); [|discriminate].
  unfold _handle_calendar_intent.
  destruct (String.eqb _ "list"); [|discriminate].
  intros [= <-] Hf. now rewrite Hf.
Qed.

Lemma bind_returned {A B : Type} (m : M A) (k : A -> M B) (w w' : World) (a : A) :
  m w = (Returned a, w') -> bind m k w = k a w'.
Proof. intros H. unfold bind. now rewrite H. Qed.

Lemma conversation_add_message_run (c : Conversation.t) (content : string)
    (is_user : bool) (w : World) :
  let c' := Conversation.add_message c content is_user "text" ∅
              (uuid4 env (tick w)) (datetime_now env (S (tick w)))
              (datetime_now env (S (S (tick w)))) in
  conversation_add_message env c content is_user w
  = (Returned c',
     MkWorld (ODict.replace (Conversation.id c) c' (conversations w))
             (S (S (S (tick w))))).
Proof. reflexivity. Qed.

Lemma conversation_update_context_run (c : Conversation.t) (key : string)
    (value : PyValue) (w : World) :
  let c' := Conversation.update_context c key value (datetime_now env (tick w)) in
  conversation_update_context env c key value w
  = (Returned c',
     MkWorld (ODict.replace (Conversation.id c) c' (conversations w)) (S (tick w))).
Proof. reflexivity. Qed.

Lemma draw_run {A : Type} (oracle : nat -> A) (w : World) :
  draw oracle w = (Returned (oracle (tick w)), MkWorld (conversations w) (S (tick w))).
Proof. reflexivity. Qed.

(** The run of [process_message] once the conversation is at hand. *)
Lemma process_message_returns (message : string)
    (conversation_id user_preferences : PyValue) (w w1 : World) (c0 : Conversation.t) :
  _get_or_create_conversation env conversation_id user_preferences w
    = (Returned c0, w1) ->
  exists c1 w1' resp w2 w3 ts,
    _handle_intent env (_detect_intent message c1) message c1 w1'
      = (Returned resp, w2)
    /\ process_message env message conversation_id user_preferences w
       = (APIResponse.Build true (Some resp) None
            {[ "conversation_id" := PyStr (Conversation.id c0);
               "intent" := PyStr (UserIntent.intent (_detect_intent message c1));
               "confidence" := PyFloat (UserIntent.confidence (_detect_intent message c1)) ]}
            ts, w3).
Proof.
  intros Hgoc.
  unfold process_message, process_message_try.
  rewrite (bind_returned _ _ _ _ _ Hgoc).
  rewrite (bind_returned _ _ _ _ _ (conversation_add_message_run c0 message true w1)).
  cbv zeta.
  match goal with
  | |- context [bind (_handle_intent env (_detect_intent message ?c) message ?c) _ ?w'] =>
      destruct (handle_intent_returns (_detect_intent message c) message c w')
        as (resp & w2 & Hh);
      exists c, w', resp, w2
  end.
  rewrite (bind_returned _ _ _ _ _ Hh).
  rewrite (bind_returned _ _ _ _ _ (conversation_add_message_run _ _ _ _)).
  rewrite (bind_returned _ _ _ _ _ (conversation_update_context_run _ _ _ _)).
  rewrite (bind_returned _ _ _ _ _ (draw_run _ _)).
  rewrite (bind_returned _ _ _ _ _ (conversation_update_context_run _ _ _ _)).
  unfold lift, api_response.
  cbn [Conversation.id Conversation.add_message Conversation.update_context tick
       conversations].
  eexists _, _. split; [exact Hh | reflexivity].
Qed.

Lemma get_or_create_usable (conversation_id user_preferences : PyValue) (w : World) :
  usable_id conversation_id = true ->
  exists c0 w1,
    _get_or_create_conversation env conversation_id user_preferences w
    = (Returned c0, w1).
Proof.
  intros Hus.
  destruct (get_or_create_cases env conversation_id user_preferences w); eauto.
  unfold usable_id in Hus. rewrite H, H0 in Hus. discriminate.
Qed.
End Dispatch.

Section DispatchClaims.
Import ConversationService Spec.

(** C6.  When the call that the weather, news or calendar handler makes to
    its external service returns a failure, [process_message] returns a
    success envelope whose response has type error, whose message is a fixed
    apology followed by the error text of the service, and whose confidence
    is that of the classified intent, which the envelope reports too. *)
Theorem collaborator_failure_is_error_response (env : Env) (message : string)
    (conversation_id user_preferences : PyValue) (w : World)
    (conversation : Conversation.t) (result : APIResponse.t PyValue) :
  usable_id conversation_id = true ->
  collaborator_call env (_detect_intent message conversation) = Some result ->
  APIResponse.success result = false ->
  let intent := _detect_intent message conversation in
  let r := fst (process_message env message conversation_id user_preferences w) in
  exists response,
    APIResponse.success r = true
    /\ APIResponse.data r = Some response
    /\ APIResponse.error r = None
    /\ ChatResponse.response_type response = "error"
    /\ ChatResponse.message response
       = apology (UserIntent.intent intent)
           +:+ str_of_optional (APIResponse.error result)
    /\ ChatResponse.confidence response = UserIntent.confidence intent
    /\ APIResponse.metadata r !! "confidence"
       = Some (PyFloat (UserIntent.confidence intent))
    /\ APIResponse.metadata r !! "intent" = Some (PyStr (UserIntent.intent intent)).
Proof.
  intros Hus Hcall Hfail intent r. subst intent r.
  destruct (get_or_create_usable env conversation_id user_preferences w Hus)
    as (c0 & w1 & Hgoc).
  destruct (process_message_returns env message _ _ _ _ _ Hgoc)
    as (c1 & w1' & resp & w2 & w3 & ts & Hh & ->).
  rewrite (detect_intent_conversation message c1 conversation) in *.
  rewrite (handle_intent_failure env _ message c1 w1' result Hcall Hfail) in Hh.
  injection Hh as <- _.
  eexists. cbn [fst APIResponse.success APIResponse.data APIResponse.error
                APIResponse.metadata ChatResponse.response_type
                ChatResponse.message ChatResponse.confidence].
  repeat split.
Qed.

Lemma collaborator_failure_is_error_response_witness :
  exists response,
    APIResponse.success
      (fst (process_message Samples.env0 "weather in Nowhereland" PyNone PyNone
              Samples.w0)) = true
    /\ APIResponse.data
         (fst (process_message Samples.env0 "weather in Nowhereland" PyNone PyNone
                 Samples.w0)) = Some response
    /\ ChatResponse.response_type response = "error"
    /\ ChatResponse.message response
       = "Sorry, I couldn't get weather information. Location 'Nowhereland' not found".
Proof.
  destruct (collaborator_failure_is_error_response Samples.env0
              "weather in Nowhereland" PyNone PyNone Samples.w0
              Samples.no_conversation
              (Samples.failing "Location 'Nowhereland' not found")
              eq_refl eq_refl eq_refl)
    as (response & H1 & H2 & _ & H4 & H5 & _).
  exists response. repeat (split; [assumption|]). exact H5.
Defined.

(** C10.  For an utterance classified as general, the response of
    [process_message] has confidence 0.3 while the envelope reports the
    confidence 0.5 of the classifier; the two differ. *)
Theorem general_confidences_differ (env : Env) (message : string)
    (conversation_id user_preferences : PyValue) (w : World)
    (conversation : Conversation.t) :
  usable_id conversation_id = true ->
  UserIntent.intent (_detect_intent message conversation) = "general" ->
  let r := fst (process_message env message conversation_id user_preferences w) in
  exists response,
    APIResponse.success r = true
    /\ APIResponse.data r = Some response
    /\ ChatResponse.response_type response = "general"
    /\ ChatResponse.confidence response = (3 # 10)%Q
    /\ UserIntent.confidence (_detect_intent message conversation) = (1 # 2)%Q
    /\ APIResponse.metadata r !! "confidence" = Some (PyFloat (1 # 2))
    /\ APIResponse.metadata r !! "intent" = Some (PyStr "general")
    /\ ~ (ChatResponse.confidence response == 1 # 2)%Q.
Proof.
  intros Hus Hgen r. subst r.
  apply detect_intent_general in Hgen.
  destruct (get_or_create_usable env conversation_id user_preferences w Hus)
    as (c0 & w1 & Hgoc).
  destruct (process_message_returns env message _ _ _ _ _ Hgoc)
    as (c1 & w1' & resp & w2 & w3 & ts & Hh & ->).
  rewrite (detect_intent_conversation message c1 conversation) in *.
  rewrite Hgen in *.
  unfold _handle_intent in Hh. cbn [UserIntent.intent general_intent] in Hh.
  change (_handle_general_intent env general_intent message c1 w1' = (Returned resp, w2))
    in Hh.
  unfold _handle_general_intent, bind, random_choice, draw, ret, bind in Hh.
  rewrite chat_response_run in Hh. injection Hh as <- _.
  eexists. cbn [fst APIResponse.success APIResponse.data APIResponse.metadata
                ChatResponse.response_type ChatResponse.confidence
                UserIntent.confidence UserIntent.intent general_intent].
  repeat (split; [reflexivity|]).
  intros H. discriminate H.
Qed.

Lemma general_confidences_differ_witness :
  exists response,
    APIResponse.data
      (fst (process_message Samples.env0 "blah" (PyStr "nobody") PyNone Samples.w0))
    = Some response
    /\ ChatResponse.confidence response = (3 # 10)%Q
    /\ APIResponse.metadata
         (fst (process_message Samples.env0 "blah" (PyStr "nobody") PyNone Samples.w0))
       !! "confidence" = Some (PyFloat (1 # 2)).
Proof.
  destruct (general_confidences_differ Samples.env0 "blah" (PyStr "nobody") PyNone
              Samples.w0 Samples.no_conversation eq_refl eq_refl)
    as (response & _ & H2 & _ & H4 & _ & H6 & _).
  exists response. auto.
Defined.

(** C7, as the program has it.  Whatever exception the body of
    [process_message] raises, the call returns a failure whose error is the
    fixed prefix followed by the text of the exception, and no response.
    The body raises only in the look-up of the registry, before any handler
    runs and before the registry is touched. *)
Theorem process_message_reports_exception (env : Env) (message : string)
    (conversation_id user_preferences : PyValue) (w w' : World) (e : Exception) :
  process_message_try env message conversation_id user_preferences w = (Raised e, w') ->
  let r := fst (process_message env message conversation_id user_preferences w) in
  APIResponse.success r = false
  /\ APIResponse.data r = None
  /\ APIResponse.error r = Some ("Failed to process message: " +:+ str_of_exception e)
  /\ usable_id conversation_id = false
  /\ w' = w
  /\ conversations (snd (process_message env message conversation_id user_preferences w))
     = conversations w.
Proof.
  intros Hraise r. subst r. unfold process_message. rewrite Hraise.
  cbn [fst snd process_message_except api_response APIResponse.success
       APIResponse.data APIResponse.error conversations].
  repeat (split; [reflexivity|]).
  destruct (usable_id conversation_id) eqn:Hus.
  - exfalso.
    destruct (get_or_create_usable env conversation_id user_preferences w Hus)
      as (c0 & w1 & Hgoc).
    destruct (process_message_returns env message _ _ _ _ _ Hgoc)
      as (c1 & w1' & resp & w2 & w3 & ts & _ & Hp).
    unfold process_message in Hp. rewrite Hraise in Hp.
    unfold process_message_except, api_response in Hp. discriminate Hp.
  - split; [reflexivity|].
    unfold process_message_try in Hraise.
    pose proof (get_or_create_cases env conversation_id user_preferences w) as Hc.
    inversion Hc as [ty Ht Hu Heq | s c Hid Hs Hg Heq | Hus' Hnone c Heq].
    + unfold bind at 1 in Hraise. rewrite <- Heq in Hraise.
      injection Hraise as _ <-. auto.
    + subst. unfold usable_id in Hus. cbn [unhashable] in Hus.
      rewrite orb_true_r in Hus. discriminate Hus.
    + congruence.
Qed.

Lemma process_message_reports_exception_witness :
  APIResponse.error
    (fst (process_message Samples.env0 "hello" (PyList 1) PyNone Samples.w0))
  = Some "Failed to process message: unhashable type: 'list'".
Proof.
  destruct (process_message_reports_exception Samples.env0 "hello" (PyList 1) PyNone
              Samples.w0 Samples.w0 (TypeError "unhashable type: 'list'") eq_refl)
    as (_ & _ & H & _).
  exact H.
Defined.

(** C7, as the claim has it, fails: the error of the failure result
    contains the text of the exception. *)
Lemma internal_error_exposes_exception_text :
  ~ (forall (env : Env) (message : string) (conversation_id user_preferences : PyValue)
            (w w' : World) (e : Exception),
        process_message_try env message conversation_id user_preferences w
          = (Raised e, w') ->
        exists err,
          APIResponse.success
            (fst (process_message env message conversation_id user_preferences w))
          = false
          /\ APIResponse.error
               (fst (process_message env message conversation_id user_preferences w))
             = Some err
          /\ PyStr.contains (str_of_exception e) err = false).
Proof.
  intros H.
  destruct (H Samples.env0 "hello" (PyList 1) PyNone Samples.w0 Samples.w0
              (TypeError "unhashable type: 'list'") eq_refl)
    as (err & _ & Herr & Hc).
  vm_compute in Herr. injection Herr as <-. vm_compute in Hc. discriminate Hc.
Qed.
End DispatchClaims.

(** ** The scenarios of the specification, run *)

Section Scenarios.
Import ConversationService Spec.

(** C2.  On the utterance of the scenario the calendar lexicon scores 1/16,
    for tomorrow, and the weather lexicon 1/20, for weather: the result is
    calendar, with the entities of a calendar request.  The weather branch
    of the extractor, had it been taken, gives the entities of the claim. *)
Theorem weather_in_paris_tomorrow (conversation : Conversation.t) :
  let message := "What's the weather in Paris tomorrow?" in
  let r := _detect_intent message conversation in
  UserIntent.intent r = "calendar"
  /\ (UserIntent.confidence r == 1 # 8)%Q
  /\ UserIntent.entities r = {[ "action" := "list"; "date_reference" := "tomorrow" ]}
  /\ matched message WeatherService.get_weather_intent_keywords = ["weather"]
  /\ matched message CalendarService.get_calendar_intent_keywords = ["tomorrow"]
  /\ (lexicon_score message WeatherService.get_weather_intent_keywords == 1 # 20)%Q
  /\ (lexicon_score message CalendarService.get_calendar_intent_keywords == 1 # 16)%Q
  /\ _extract_entities message "weather" conversation
     = {[ "location" := "Paris"; "time_reference" := "forecast" ]}.
Proof.
  intros message r. subst message r.
  repeat split; vm_compute; reflexivity.
Qed.

(** The example that the help text files under weather is a calendar
    request too. *)
Example will_it_rain_today (conversation : Conversation.t) :
  UserIntent.intent (_detect_intent "Will it rain today?" conversation) = "calendar".
Proof. vm_compute. reflexivity. Qed.

(** C3.  On the utterance of the scenario the intent is news, but the
    category is entertainment: show is a keyword of entertainment, which
    comes before technology in the table.  Without it the category is
    science, whose keywords include technology. *)
Theorem show_me_technology_news (conversation : Conversation.t) :
  let r := _detect_intent "Show me technology news" conversation in
  UserIntent.intent r = "news"
  /\ UserIntent.entities r = {[ "category" := "entertainment" ]}
  /\ NewsService.detect_news_category "Show me technology news" = Some "entertainment"
  /\ NewsService.detect_news_category "Technology news" = Some "science".
Proof.
  intros r. subst r. repeat split; vm_compute; reflexivity.
Qed.

(** C8.  The group of a location pattern ends at the first white space:
    of New York only New is extracted. *)
Theorem location_stops_at_first_space (conversation : Conversation.t) :
  _extract_location "weather in New York" = Some "New"
  /\ _extract_location "What's the weather in New York?" = Some "New"
  /\ UserIntent.intent (_detect_intent "weather in New York" conversation) = "weather"
  /\ UserIntent.entities (_detect_intent "weather in New York" conversation)
     = {[ "location" := "New"; "time_reference" := "current" ]}.
Proof. repeat split; vm_compute; reflexivity. Qed.

(** A filtered word is passed over and the next pattern is tried. *)
Example filtered_word_is_skipped :
  location_of "forecast for tomorrow at Oslo" (location_pattern "for") = None
  /\ _extract_location "forecast for tomorrow at Oslo" = Some "Oslo".
Proof. split; vm_compute; reflexivity. Qed.

(** The cue is found inside a word as well. *)
Example cue_inside_a_word :
  _extract_location "Will it rain in Paris" = Some "in".
Proof. vm_compute. reflexivity. Qed.

End Scenarios.
(** ** More on conversations *)

Lemma last_n_suffix {A : Type} (n : nat) (l : list A) :
  take (length l - n) l ++ last_n n l = l.
Proof. unfold last_n. apply take_drop. Qed.

(** X1.  [add_message] touches nothing but the messages and [updated_at].
    The messages become the old ones followed by the new one, less the
    oldest in excess of 50: none is reordered, and the new one is last. *)
Theorem add_message_keeps_order (self : Conversation.t) (content : string)
    (is_user : bool) (message_type : string) (metadata : gmap string PyValue)
    (mid : string) (ts now : Z) :
  let self' :=
    Conversation.add_message self content is_user message_type metadata mid ts now in
  let message := Message.Build mid content ts is_user message_type metadata in
  let n := length (Conversation.messages self) in
  Conversation.id self' = Conversation.id self
  /\ Conversation.created_at self' = Conversation.created_at self
  /\ Conversation.context self' = Conversation.context self
  /\ Conversation.user_preferences self' = Conversation.user_preferences self
  /\ Conversation.updated_at self' = now
  /\ Conversation.messages self'
     = drop (n + 1 - 50) (Conversation.messages self ++ [message])
  /\ length (Conversation.messages self') = Nat.min (n + 1) 50
  /\ last (Conversation.messages self') = Some message
  /\ (n < 50 -> Conversation.messages self' = Conversation.messages self ++ [message]).
Proof.
  intros self' message n. subst self' n. unfold Conversation.add_message.
  cbn [Conversation.id Conversation.created_at Conversation.context
       Conversation.user_preferences Conversation.updated_at Conversation.messages].
  fold message.
  set (l := Conversation.messages self ++ [message]).
  assert (Hl : length l = length (Conversation.messages self) + 1).
  { unfold l. rewrite length_app. reflexivity. }
  assert (Hm : Conversation.messages
                 (Conversation.Build (Conversation.id self)
                    (if (50 <? length l)%nat then last_n 50 l else l)
                    (Conversation.created_at self) now (Conversation.context self)
                    (Conversation.user_preferences self))
               = drop (length (Conversation.messages self) + 1 - 50) l).
  { cbn [Conversation.messages]. destruct (50 <? length l)%nat eqn:E.
    - unfold last_n. now rewrite Hl.
    - apply Nat.ltb_ge in E.
      replace (length (Conversation.messages self) + 1 - 50) with 0 by lia.
      reflexivity. }
  cbn [Conversation.messages] in Hm.
  repeat (split; [reflexivity|]). rewrite Hm.
  split; [reflexivity|]. split; [rewrite length_drop; lia|]. split.
  - unfold l. rewrite drop_app_le by lia. apply last_snoc.
  - intros Hlt. replace (length (Conversation.messages self) + 1 - 50) with 0 by lia.
    reflexivity.
Qed.

Lemma add_message_keeps_order_witness :
  Conversation.messages
    (Conversation.add_message Samples.no_conversation "hi" true "text" ∅ "m0" 1 2)
  = [Message.Build "m0" "hi" 1 true "text" ∅].
Proof.
  destruct (add_message_keeps_order Samples.no_conversation "hi" true "text" ∅ "m0" 1 2)
    as (_ & _ & _ & _ & _ & _ & _ & _ & H).
  apply H. vm_compute. lia.
Defined.

(** X2.  [get_recent_context] returns the end of the message list: for a
    positive count the last messages, that many if there are as many, in
    their order.  For the count 0 it returns every message. *)
Theorem get_recent_context_suffix (self : Conversation.t) (num_messages : nat) :
  let recent := Conversation.get_recent_context self num_messages in
  (exists older, Conversation.messages self = older ++ recent)
  /\ (0 < num_messages ->
      length recent = Nat.min num_messages (length (Conversation.messages self)))
  /\ (num_messages = 0 -> recent = Conversation.messages self).
Proof.
  intros recent. subst recent. unfold Conversation.get_recent_context.
  destruct (Conversation.messages self) as [|m ms] eqn:E.
  - split; [exists []; reflexivity|]. split; [intros _; simpl; lia | reflexivity].
  - destruct num_messages as [|k].
    + split; [exists []; reflexivity|]. split; [lia | reflexivity].
    + split; [|split; [|discriminate]].
      * exists (take (length (m :: ms) - S k) (m :: ms)).
        symmetry. apply last_n_suffix.
      * intros _. apply last_n_length.
Qed.

Lemma get_recent_context_suffix_witness :
  map Message.id (Conversation.get_recent_context Samples.full_conversation 2)
  = ["m48"; "m49"]
  /\ length (Conversation.get_recent_context Samples.full_conversation 0) = 50.
Proof.
  destruct (get_recent_context_suffix Samples.full_conversation 2) as (_ & H & _).
  destruct (get_recent_context_suffix Samples.full_conversation 0) as (_ & _ & H0).
  split.
  - specialize (H ltac:(lia)). vm_compute. reflexivity.
  - rewrite (H0 eq_refl). reflexivity.
Defined.

(** X3.  [update_context] then [get_context]: the key just set reads back
    its value whatever the default, every other key reads as before, and
    the messages are untouched. *)
Theorem update_then_get_context (self : Conversation.t) (key : string)
    (value : PyValue) (now : Z) (other : string) (default : PyValue) :
  let self' := Conversation.update_context self key value now in
  Conversation.get_context self' key default = value
  /\ (other <> key ->
      Conversation.get_context self' other default
      = Conversation.get_context self other default)
  /\ Conversation.messages self' = Conversation.messages self
  /\ Conversation.id self' = Conversation.id self
  /\ Conversation.updated_at self' = now.
Proof.
  intros self'. subst self'. unfold Conversation.get_context, Conversation.update_context.
  cbn [Conversation.context Conversation.messages Conversation.id
       Conversation.updated_at].
  split; [now rewrite lookup_insert_eq|].
  split; [|auto]. intros Hne. now rewrite lookup_insert_ne.
Qed.

Lemma update_then_get_context_witness :
  Conversation.get_context
    (Conversation.update_context Samples.no_conversation "last_intent"
       (PyStr "news") 5)
    "units" PyNone
  = PyNone.
Proof.
  destruct (update_then_get_context Samples.no_conversation "last_intent"
              (PyStr "news") 5 "units" PyNone) as (_ & H & _).
  rewrite H by discriminate. reflexivity.
Defined.
(** ** More on the registry *)

Section MoreRegistryFacts.
Context {V : Type}.
Implicit Types d : ODict.t V.

Lemma odict_get_set_eq k v d : ODict.get k (ODict.set k v d) = Some v.
Proof.
  induction d as [|[k' v'] d IH]; simpl.
  - now rewrite String.eqb_refl.
  - destruct (String.eqb_spec k k') as [->|Hne]; simpl.
    + now rewrite String.eqb_refl.
    + destruct (String.eqb_spec k k'); [congruence | exact IH].
Qed.

Lemma odict_get_set_ne k k' v d :
  k' <> k -> ODict.get k' (ODict.set k v d) = ODict.get k' d.
Proof.
  intros Hne. induction d as [|[k0 v0] d IH]; simpl.
  - destruct (String.eqb_spec k' k); [congruence | reflexivity].
  - destruct (String.eqb_spec k k0) as [->|Hk]; simpl.
    + destruct (String.eqb_spec k' k0); [congruence | reflexivity].
    + destruct (String.eqb_spec k' k0); [reflexivity | exact IH].
Qed.

Lemma odict_get_replace_eq k v d :
  ODict.get k (ODict.replace k v d)
  = match ODict.get k d with Some _ => Some v | None => None end.
Proof.
  induction d as [|[k' v'] d IH]; simpl; [reflexivity|].
  destruct (String.eqb_spec k k') as [->|Hne]; simpl.
  - now rewrite String.eqb_refl.
  - destruct (String.eqb_spec k k'); [congruence | exact IH].
Qed.

Lemma odict_get_replace_ne k k' v d :
  k' <> k -> ODict.get k' (ODict.replace k v d) = ODict.get k' d.
Proof.
  intros Hne. induction d as [|[k0 v0] d IH]; simpl; [reflexivity|].
  destruct (String.eqb_spec k k0) as [->|Hk]; simpl.
  - destruct (String.eqb_spec k' k0); [congruence | reflexivity].
  - destruct (String.eqb_spec k' k0); [reflexivity | exact IH].
Qed.

Lemma odict_replace_replace k v1 v2 d :
  ODict.replace k v2 (ODict.replace k v1 d) = ODict.replace k v2 d.
Proof.
  induction d as [|[k' v'] d IH]; simpl; [reflexivity|].
  destruct (String.eqb_spec k k') as [->|Hne]; simpl.
  - now rewrite String.eqb_refl.
  - destruct (String.eqb_spec k k'); [congruence | now rewrite IH].
Qed.

Lemma odict_replace_length k v d : length (ODict.replace k v d) = length d.
Proof.
  pose proof (odict_replace_keys k v d) as H. unfold ODict.keys in H.
  apply (f_equal length) in H. now rewrite !length_fmap in H.
Qed.

Lemma odict_replace_in k v d p : p ∈ ODict.replace k v d -> p = (k, v) \/ p ∈ d.
Proof.
  induction d as [|[k' v'] d IH]; simpl; [intros H; now right|].
  destruct (String.eqb_spec k k') as [->|Hne]; intros H.
  - apply elem_of_cons in H as [->|H]; [now left|]. right. now right.
  - apply elem_of_cons in H as [->|H]; [right; left|].
    destruct (IH H) as [->|H']; [now left|]. right. now right.
Qed.

End MoreRegistryFacts.

Section MoreRegistry.
Import ConversationService Spec.
Variable env : Env.

Lemma registry_ok_replace (d : ODict.t Conversation.t) (c : Conversation.t) :
  registry_ok d = true -> registry_ok (ODict.replace (Conversation.id c) c d) = true.
Proof.
  rewrite !registry_ok_spec. intros [Hnd Hall]. split.
  - now rewrite odict_replace_keys.
  - rewrite Forall_forall in *. intros p Hp.
    apply odict_replace_in in Hp as [->|Hp]; [reflexivity | now apply Hall].
Qed.

(** The registry after [_get_or_create_conversation] is well formed and
    holds at most ten conversations, if it was and did. *)
Lemma get_or_create_invariant (conversation_id user_preferences : PyValue)
    (w w' : World) (r : Result Conversation.t) :
  registry_ok (conversations w) = true ->
  length (conversations w) <= 10 ->
  _get_or_create_conversation env conversation_id user_preferences w = (r, w') ->
  registry_ok (conversations w') = true /\ length (conversations w') <= 10.
Proof.
  intros Hok Hlen Hrun.
  pose proof (get_or_create_cases env conversation_id user_preferences w) as Hcase.
  rewrite Hrun in Hcase.
  inversion Hcase as [ty Ht Hu | s c Hid Hs Hg | Hus Hnone c]; subst; auto.
  set (d := conversations w) in *.
  set (d1 := ODict.set (uuid4 env (tick w)) c d).
  assert (Hok1 : registry_ok d1 = true) by (apply (registry_ok_set d c); exact Hok).
  assert (Hlen1 : length d1 <= 11).
  { destruct (decide (Conversation.id c ∈ ODict.keys d)) as [Hin|Hout].
    - unfold d1. rewrite (odict_set_length_known (Conversation.id c)) by exact Hin. lia.
    - unfold d1. rewrite (odict_set_fresh (Conversation.id c)) by exact Hout.
      rewrite length_app. simpl. lia. }
  pose proof Hok1 as Hok1'. apply registry_ok_spec in Hok1' as [Hnd1 _].
  simpl conversations.
  destruct (evict_spec d1 Hnd1 Hlen1)
    as [[Hle ->] | [H11 (l1 & m & l2 & Hd1 & _ & _ & ->)]].
  - auto.
  - split; [apply (registry_ok_remove l1 l2 m); now rewrite <- Hd1|].
    rewrite Hd1, length_app in H11. simpl in H11. rewrite length_app. lia.
Qed.

(** X4.  For an identifier that is registered, [_get_or_create_conversation]
    returns the registered conversation and changes nothing: no draw is
    made, the registry is the same, and the preferences handed in are
    ignored.  Asking again gives the same conversation. *)
Theorem get_or_create_known (s : string) (c : Conversation.t)
    (user_preferences user_preferences' : PyValue) (w : World) :
  s <> "" ->
  ODict.get s (conversations w) = Some c ->
  _get_or_create_conversation env (PyStr s) user_preferences w = (Returned c, w)
  /\ bind (_get_or_create_conversation env (PyStr s) user_preferences)
       (fun _ => _get_or_create_conversation env (PyStr s) user_preferences') w
     = (Returned c, w).
Proof.
  intros Hs Hg.
  assert (H : forall p, _get_or_create_conversation env (PyStr s) p w = (Returned c, w)).
  { intros p. unfold _get_or_create_conversation, bind, get_conversations, known, ret.
    cbn [truthy unhashable]. destruct (String.eqb_spec s ""); [congruence|].
    cbn [negb]. rewrite Hg. now destruct w. }
  split; [apply H|]. unfold bind. rewrite H. apply H.
Qed.

(** Creation on a registry of fewer than ten. *)
Lemma get_or_create_creates (conversation_id user_preferences : PyValue) (w : World) :
  usable_id conversation_id = true ->
  (forall s, conversation_id = PyStr s -> ODict.get s (conversations w) = None) ->
  length (conversations w) < 10 ->
  let c := Conversation.Build (uuid4 env (tick w)) []
             (datetime_now env (S (tick w))) (datetime_now env (S (S (tick w))))
             ∅ (py_or user_preferences (PyDict 0)) in
  exists w',
    _get_or_create_conversation env conversation_id user_preferences w = (Returned c, w')
    /\ tick w' = tick w + 3
    /\ ODict.get (uuid4 env (tick w)) (conversations w') = Some c
    /\ (forall k, k <> uuid4 env (tick w) ->
                  ODict.get k (conversations w') = ODict.get k (conversations w)).
Proof.
  intros Hus Hnone Hlen c.
  pose proof (get_or_create_cases env conversation_id user_preferences w) as Hcase.
  remember (_get_or_create_conversation env conversation_id user_preferences w)
    as run eqn:Hrun.
  destruct Hcase as [ty Ht Hu | s c' Hid Hs Hg | Hus' Hnone' c'].
  - unfold usable_id in Hus. rewrite Ht, Hu in Hus. discriminate.
  - rewrite (Hnone s Hid) in Hg. discriminate.
  - exists (MkWorld (evict (ODict.set (uuid4 env (tick w)) c (conversations w)))
                    (S (S (S (tick w))))).
    split; [reflexivity|]. cbn [tick conversations Conversation.id].
    assert (He : evict (ODict.set (uuid4 env (tick w)) c (conversations w))
                 = ODict.set (uuid4 env (tick w)) c (conversations w)).
    { unfold evict.
      assert (Hl : length (ODict.set (uuid4 env (tick w)) c (conversations w)) <= 10).
      { destruct (decide (uuid4 env (tick w) ∈ ODict.keys (conversations w))) as [Hin|Hout].
        - rewrite odict_set_length_known by exact Hin. lia.
        - rewrite odict_set_fresh by exact Hout. rewrite length_app. simpl. lia. }
      apply Nat.ltb_ge in Hl. now rewrite Hl. }
    rewrite He.
    split; [lia|]. split; [apply odict_get_set_eq|].
    intros k Hk. now apply odict_get_set_ne.
Qed.

(** X5.  For an identifier that is not registered (or none), on a registry
    of fewer than ten, the call makes three draws and files a new
    conversation, without message or context, under the identifier that
    [uuid4()] gives, whatever identifier was asked for.  If that identifier
    is not registered either, the new conversation comes last and the
    registry is otherwise as before, so the identifier asked for stays
    unregistered unless it is the one drawn.  If [uuid4()] gives a registered
    identifier, the new conversation takes the place of its namesake and the
    order of the keys is as before.  In both cases every other key reads as
    before. *)
Theorem get_or_create_unknown (conversation_id user_preferences : PyValue) (w : World) :
  usable_id conversation_id = true ->
  (forall s, conversation_id = PyStr s -> ODict.get s (conversations w) = None) ->
  length (conversations w) < 10 ->
  let id := uuid4 env (tick w) in
  let c := Conversation.Build id []
             (datetime_now env (S (tick w))) (datetime_now env (S (S (tick w))))
             ∅ (py_or user_preferences (PyDict 0)) in
  let d' := ODict.set id c (conversations w) in
  _get_or_create_conversation env conversation_id user_preferences w
  = (Returned c, MkWorld d' (S (S (S (tick w)))))
  /\ (id ∉ ODict.keys (conversations w) ->
      d' = conversations w ++ [(id, c)]
      /\ forall s, conversation_id = PyStr s -> s <> id -> ODict.get s d' = None)
  /\ (id ∈ ODict.keys (conversations w) ->
      ODict.keys d' = ODict.keys (conversations w)
      /\ length d' = length (conversations w))
  /\ ODict.get id d' = Some c
  /\ (forall k, k <> id -> ODict.get k d' = ODict.get k (conversations w)).
Proof.
  intros Hus Hnone Hlen id c d'.
  assert (Hother : forall k, k <> id -> ODict.get k d' = ODict.get k (conversations w))
    by (intros k Hk; now apply odict_get_set_ne).
  split; [|split; [|split; [|split]]].
  - pose proof (get_or_create_cases env conversation_id user_preferences w) as Hcase.
    remember (_get_or_create_conversation env conversation_id user_preferences w)
      as run eqn:Hrun.
    destruct Hcase as [ty Ht Hu | s c' Hid Hs Hg | Hus' Hnone' c'].
    + unfold usable_id in Hus. rewrite Ht, Hu in Hus. discriminate.
    + rewrite (Hnone s Hid) in Hg. discriminate.
    + assert (He : evict d' = d').
      { assert (Hl : length d' <= 10).
        { unfold d'.
          destruct (decide (id ∈ ODict.keys (conversations w))) as [Hin|Hout].
          - rewrite odict_set_length_known by exact Hin. lia.
          - rewrite odict_set_fresh by exact Hout. rewrite length_app. simpl. lia. }
        unfold evict. apply Nat.ltb_ge in Hl. now rewrite Hl. }
      rewrite <- He. reflexivity.
  - intros Hout. split; [now apply odict_set_fresh|].
    intros s Hs Hne. rewrite (Hother s Hne). now apply Hnone.
  - intros Hin. split; [now apply odict_set_keys_known|].
    now apply odict_set_length_known.
  - apply odict_get_set_eq.
  - exact Hother.
Qed.
End MoreRegistry.

Lemma get_or_create_known_witness :
  ConversationService._get_or_create_conversation Samples.env0 (PyStr "c3")
    (PyStr "ignored") Samples.w10
  = (Returned (Samples.conversation_at "c3" 3), Samples.w10).
Proof.
  apply (get_or_create_known Samples.env0 "c3" (Samples.conversation_at "c3" 3)
           (PyStr "ignored") PyNone Samples.w10).
  - discriminate.
  - reflexivity.
Defined.

Lemma get_or_create_unknown_witness :
  ConversationService._get_or_create_conversation Samples.env0 (PyStr "mine") PyNone
    Samples.w0
  = (Returned (Conversation.Build "id0" [] 101 102 ∅ (PyDict 0)),
     MkWorld [("id0", Conversation.Build "id0" [] 101 102 ∅ (PyDict 0))] 3).
Proof.
  destruct (get_or_create_unknown Samples.env0 (PyStr "mine") PyNone Samples.w0)
    as (Hrun & _).
  - reflexivity.
  - intros s _. reflexivity.
  - vm_compute. lia.
  - exact Hrun.
Defined.

(** ** More on [process_message] *)

Section ProcessRun.
Import ConversationService Spec.
Variable env : Env.

Lemma add_message_messages (c : Conversation.t) (content : string) (is_user : bool)
    (mt : string) (md : gmap string PyValue) (mid : string) (ts now : Z) :
  Conversation.messages (Conversation.add_message c content is_user mt md mid ts now)
  = drop (length (Conversation.messages c) + 1 - 50)
         (Conversation.messages c ++ [Message.Build mid content ts is_user mt md]).
Proof.
  unfold Conversation.add_message. cbn [Conversation.messages].
  set (l := Conversation.messages c ++ _).
  assert (Hl : length l = length (Conversation.messages c) + 1).
  { unfold l. rewrite length_app. reflexivity. }
  destruct (50 <? length l)%nat eqn:E.
  - unfold last_n. now rewrite Hl.
  - apply Nat.ltb_ge in E.
    replace (length (Conversation.messages c) + 1 - 50) with 0 by lia. reflexivity.
Qed.

(** Two messages appended in turn: they end the list, after what is kept
    of the former messages. *)
Lemma two_messages_appended (l0 : list Message.t) (um am : Message.t) :
  let l1 := drop (length l0 + 1 - 50) (l0 ++ [um]) in
  let l2 := drop (length l1 + 1 - 50) (l1 ++ [am]) in
  exists dropped kept,
    l0 = dropped ++ kept
    /\ l2 = kept ++ [um; am]
    /\ length l2 <= 50
    /\ (length l0 <= 48 -> dropped = []).
Proof.
  intros l1 l2.
  set (k1 := length l0 + 1 - 50).
  assert (H1 : l1 = drop k1 l0 ++ [um]).
  { unfold l1. fold k1. apply drop_app_le. unfold k1. lia. }
  assert (Hlen1 : length l1 = length l0 - k1 + 1).
  { rewrite H1, length_app, length_drop. reflexivity. }
  set (k2 := length l1 + 1 - 50).
  assert (H2 : l2 = drop (k1 + k2) l0 ++ [um; am]).
  { unfold l2. fold k2. rewrite H1. rewrite <- app_assoc. cbn [app].
    rewrite drop_app_le by (rewrite length_drop; unfold k2, k1 in *; lia).
    now rewrite drop_drop. }
  exists (take (k1 + k2) l0), (drop (k1 + k2) l0).
  split; [symmetry; apply take_drop|]. split; [exact H2|]. split.
  - rewrite H2, length_app, length_drop. cbn [length]. unfold k2, k1 in *. lia.
  - intros H48. replace (k1 + k2) with 0 by (unfold k2, k1 in *; lia). reflexivity.
Qed.

(** A handler draws from the environment and leaves the registry alone. *)
Lemma handle_intent_registry (intent : UserIntent.t) (message : string)
    (c : Conversation.t) (w : World) :
  exists resp t,
    _handle_intent env intent message c w
    = (Returned resp, MkWorld (conversations w) t).
Proof.
  unfold _handle_intent.
  repeat match goal with
         | |- context [if String.eqb ?a ?b then _ else _] => destruct (String.eqb a b)
         end.
  - unfold _handle_weather_intent.
    destruct (APIResponse.success _); rewrite chat_response_run; eauto.
  - unfold _handle_news_intent.
    destruct (APIResponse.success _); rewrite chat_response_run; eauto.
  - unfold _handle_calendar_intent.
    destruct (String.eqb _ "list"); [destruct (APIResponse.success _)|];
      rewrite chat_response_run; eauto.
  - unfold _handle_greeting_intent, bind, draw. rewrite chat_response_run. eauto.
  - unfold _handle_goodbye_intent, bind, random_choice, draw, ret, bind.
    rewrite chat_response_run. eauto.
  - unfold _handle_help_intent. rewrite chat_response_run. eauto.
  - unfold _handle_thanks_intent, bind, random_choice, draw, ret, bind.
    rewrite chat_response_run. eauto.
  - unfold _handle_general_intent, bind, random_choice, draw, ret, bind.
    rewrite chat_response_run. eauto.
Qed.

(** What [process_message] leaves behind when the conversation is at hand:
    the conversation, with the two messages and the two context entries,
    put back under its identifier if it is registered. *)
Lemma process_message_world (message : string)
    (conversation_id user_preferences : PyValue) (w w1 : World) (c0 : Conversation.t) :
  _get_or_create_conversation env conversation_id user_preferences w
    = (Returned c0, w1) ->
  exists resp c4 t ts um am dropped kept,
    process_message env message conversation_id user_preferences w
    = (APIResponse.Build true (Some resp) None
         {[ "conversation_id" := PyStr (Conversation.id c0);
            "intent" := PyStr (UserIntent.intent (_detect_intent message c0));
            "confidence" := PyFloat (UserIntent.confidence (_detect_intent message c0)) ]}
         ts,
       MkWorld (ODict.replace (Conversation.id c0) c4 (conversations w1)) t)
    /\ Conversation.id c4 = Conversation.id c0
    /\ Conversation.created_at c4 = Conversation.created_at c0
    /\ Conversation.user_preferences c4 = Conversation.user_preferences c0
    /\ Message.content um = message /\ Message.is_user um = true
    /\ Message.content am = ChatResponse.message resp /\ Message.is_user am = false
    /\ Conversation.messages c0 = dropped ++ kept
    /\ Conversation.messages c4 = kept ++ [um; am]
    /\ length (Conversation.messages c4) <= 50
    /\ (length (Conversation.messages c0) <= 48 -> dropped = [])
    /\ Conversation.context c4 !! "last_intent"
       = Some (PyStr (UserIntent.intent (_detect_intent message c0)))
    /\ (exists now, Conversation.context c4 !! "last_message_time"
                    = Some (PyDatetime now))
    /\ (forall k, k <> "last_intent" -> k <> "last_message_time" ->
                  Conversation.context c4 !! k = Conversation.context c0 !! k).
Proof.
  intros Hgoc.
  unfold process_message, process_message_try.
  rewrite (bind_returned _ _ _ _ _ Hgoc).
  rewrite (bind_returned _ _ _ _ _ (conversation_add_message_run env c0 message true w1)).
  cbv zeta.
  match goal with
  | |- context [bind (_handle_intent env (_detect_intent message ?c) message ?c) _ ?w'] =>
      destruct (handle_intent_registry (_detect_intent message c) message c w')
        as (resp & t2 & Hh);
      rewrite (detect_intent_conversation message c c0) in *
  end.
  rewrite (bind_returned _ _ _ _ _ Hh).
  rewrite (bind_returned _ _ _ _ _ (conversation_add_message_run env _ _ _ _)).
  rewrite (bind_returned _ _ _ _ _ (conversation_update_context_run env _ _ _ _)).
  rewrite (bind_returned _ _ _ _ _ (draw_run _ _)).
  rewrite (bind_returned _ _ _ _ _ (conversation_update_context_run env _ _ _ _)).
  unfold lift, api_response.
  cbn [Conversation.id Conversation.add_message Conversation.update_context tick
       conversations].
  rewrite !odict_replace_replace.
  set (um := Message.Build (uuid4 env (tick w1)) message
               (datetime_now env (S (tick w1))) true "text" ∅).
  set (am := Message.Build (uuid4 env t2) (ChatResponse.message resp)
               (datetime_now env (S t2)) false "text" ∅).
  destruct (two_messages_appended (Conversation.messages c0) um am)
    as (dropped & kept & Hd & Hk & Hlen & H48).
  exists resp. eexists. eexists. eexists. exists um, am.
  exists dropped, kept.
  cbn [Conversation.id Conversation.created_at Conversation.user_preferences
       Conversation.messages Conversation.context Message.content Message.is_user].
  split; [reflexivity|].
  unfold Conversation.update_context.
  cbn [Conversation.id Conversation.created_at Conversation.user_preferences
       Conversation.messages Conversation.context].
  repeat (split; [reflexivity|]).
  split; [exact Hd|].
  rewrite !add_message_messages. fold um am.
  cbv zeta in Hk, Hlen.
  split; [exact Hk|]. split; [exact Hlen|].
  split; [exact H48|].
  split; [rewrite lookup_insert_ne by discriminate; apply lookup_insert_eq|].
  split; [eexists; apply lookup_insert_eq|].
  intros k Hk1 Hk2. now rewrite !lookup_insert_ne by congruence.
Qed.

Lemma process_message_raised (message : string)
    (conversation_id user_preferences : PyValue) (w w1 : World) (e : Exception) :
  _get_or_create_conversation env conversation_id user_preferences w = (Raised e, w1) ->
  process_message env message conversation_id user_preferences w
  = (APIResponse.Build false None
       (Some ("Failed to process message: " +:+ str_of_exception e)) ∅
       (datetime_now env (tick w1)),
     MkWorld (conversations w1) (S (tick w1))).
Proof.
  intros Hgoc. unfold process_message, process_message_try.
  unfold bind at 1. rewrite Hgoc. reflexivity.
Qed.
End ProcessRun.

Section ProcessClaims.
Import ConversationService Spec.

(** X6.  [process_message] keeps the registry well formed and within ten
    conversations, whatever the message, the identifier and the
    preferences, also when it fails. *)
Theorem process_message_keeps_registry (env : Env) (message : string)
    (conversation_id user_preferences : PyValue) (w : World) :
  registry_ok (conversations w) = true ->
  length (conversations w) <= 10 ->
  let w' := snd (process_message env message conversation_id user_preferences w) in
  registry_ok (conversations w') = true /\ length (conversations w') <= 10.
Proof.
  intros Hok Hlen w'. subst w'.
  destruct (_get_or_create_conversation env conversation_id user_preferences w)
    as [[c0|e] w1] eqn:Hgoc.
  - destruct (get_or_create_invariant env _ _ _ _ _ Hok Hlen Hgoc) as [Hok1 Hlen1].
    destruct (process_message_world env message _ _ _ _ _ Hgoc)
      as (resp & c4 & t & ts & um & am & dropped & kept & -> & Hid & _).
    cbn [snd conversations]. rewrite <- Hid. split.
    + now apply registry_ok_replace.
    + now rewrite odict_replace_length.
  - destruct (get_or_create_invariant env _ _ _ _ _ Hok Hlen Hgoc) as [Hok1 Hlen1].
    rewrite (process_message_raised env message _ _ _ _ _ Hgoc).
    cbn [snd conversations]. auto.
Qed.

Lemma process_message_keeps_registry_witness :
  let w' := snd (process_message Samples.env0 "Hello" PyNone PyNone Samples.w10) in
  registry_ok (conversations w') = true /\ length (conversations w') <= 10.
Proof.
  apply (process_message_keeps_registry Samples.env0 "Hello" PyNone PyNone Samples.w10).
  - reflexivity.
  - vm_compute. lia.
Defined.

(** X7.  On a registered conversation [process_message] succeeds, reports
    the identifier it was given, and leaves the conversation with the
    utterance as a user message followed by the text of the response as an
    assistant message, after the former messages (all of them if there were
    at most 48), and with [last_intent] set to the detected intent.  The
    other conversations, and the order of the registry, are untouched. *)
Theorem process_message_appends (env : Env) (message s : string)
    (c0 : Conversation.t) (user_preferences : PyValue) (w : World) :
  registry_ok (conversations w) = true ->
  s <> "" ->
  ODict.get s (conversations w) = Some c0 ->
  let r := fst (process_message env message (PyStr s) user_preferences w) in
  let w' := snd (process_message env message (PyStr s) user_preferences w) in
  exists resp c' um am dropped kept,
    APIResponse.success r = true
    /\ APIResponse.data r = Some resp
    /\ APIResponse.metadata r !! "conversation_id" = Some (PyStr s)
    /\ ODict.get s (conversations w') = Some c'
    /\ ODict.keys (conversations w') = ODict.keys (conversations w)
    /\ (forall k, k <> s ->
                  ODict.get k (conversations w') = ODict.get k (conversations w))
    /\ Conversation.messages c0 = dropped ++ kept
    /\ Conversation.messages c' = kept ++ [um; am]
    /\ (length (Conversation.messages c0) <= 48 -> dropped = [])
    /\ Message.content um = message /\ Message.is_user um = true
    /\ Message.content am = ChatResponse.message resp /\ Message.is_user am = false
    /\ Conversation.context c' !! "last_intent"
       = Some (PyStr (UserIntent.intent (_detect_intent message c0)))
    /\ Conversation.user_preferences c' = Conversation.user_preferences c0.
Proof.
  intros Hok Hs Hg r w'. subst r w'.
  assert (Hgoc : _get_or_create_conversation env (PyStr s) user_preferences w
                 = (Returned c0, w)).
  { unfold _get_or_create_conversation, bind, get_conversations, known, ret.
    cbn [truthy unhashable]. destruct (String.eqb_spec s ""); [congruence|].
    cbn [negb]. rewrite Hg. now destruct w. }
  pose proof (registry_get_id _ _ _ Hok Hg) as Hid0.
  destruct (process_message_world env message _ _ _ _ _ Hgoc)
    as (resp & c4 & t & ts & um & am & dropped & kept & -> & Hid & _ & Hpref
        & Hum1 & Hum2 & Ham1 & Ham2 & Hd & Hk & _ & H48 & Hli & _ & _).
  exists resp, c4, um, am, dropped, kept.
  cbn [fst snd conversations APIResponse.success APIResponse.data APIResponse.metadata].
  rewrite Hid0.
  split; [reflexivity|]. split; [reflexivity|].
  split; [apply lookup_insert_eq|].
  split; [rewrite odict_get_replace_eq, Hg; reflexivity|].
  split; [apply odict_replace_keys|].
  split; [intros k Hk'; now apply odict_get_replace_ne|].
  repeat (split; [assumption|]). assumption.
Qed.

Lemma process_message_appends_witness :
  exists c',
    ODict.get "c3"
      (conversations
         (snd (process_message Samples.env0 "Hello" (PyStr "c3") PyNone Samples.w10)))
    = Some c'
    /\ map Message.content (Conversation.messages c')
       = ["Hello"; "Good morning! How can I assist you today?"].
Proof.
  destruct (process_message_appends Samples.env0 "Hello" "c3"
              (Samples.conversation_at "c3" 3) PyNone Samples.w10
              eq_refl ltac:(discriminate) eq_refl)
    as (resp & c' & um & am & dropped & kept & _ & Hdata & _ & Hget & _ & _ & Hd & Hk
        & H48 & Hum & _ & Ham & _).
  exists c'. split; [exact Hget|].
  rewrite Hk. specialize (H48 ltac:(vm_compute; lia)). subst dropped.
  cbn [app Samples.conversation_at Conversation.messages] in Hd. subst kept.
  cbn [app map]. rewrite Hum, Ham.
  vm_compute in Hdata. injection Hdata as <-. reflexivity.
Defined.

(** X8.  For an identifier that is not registered (or none), on a registry
    of fewer than ten, [process_message] succeeds and reports the fresh
    identifier; the new conversation is registered under it with exactly
    two messages, the utterance and then the response, and with the
    preferences handed in (an empty dictionary if they are false). *)
Theorem process_message_starts_conversation (env : Env) (message : string)
    (conversation_id user_preferences : PyValue) (w : World) :
  usable_id conversation_id = true ->
  (forall s, conversation_id = PyStr s -> ODict.get s (conversations w) = None) ->
  length (conversations w) < 10 ->
  let r := fst (process_message env message conversation_id user_preferences w) in
  let w' := snd (process_message env message conversation_id user_preferences w) in
  exists resp c' um am,
    APIResponse.success r = true
    /\ APIResponse.data r = Some resp
    /\ APIResponse.metadata r !! "conversation_id" = Some (PyStr (uuid4 env (tick w)))
    /\ ODict.get (uuid4 env (tick w)) (conversations w') = Some c'
    /\ Conversation.id c' = uuid4 env (tick w)
    /\ Conversation.messages c' = [um; am]
    /\ Message.content um = message /\ Message.is_user um = true
    /\ Message.content am = ChatResponse.message resp /\ Message.is_user am = false
    /\ Conversation.user_preferences c' = py_or user_preferences (PyDict 0)
    /\ (forall k, k <> uuid4 env (tick w) ->
                  ODict.get k (conversations w') = ODict.get k (conversations w)).
Proof.
  intros Hus Hnone Hlen r w'. subst r w'.
  destruct (get_or_create_creates env conversation_id user_preferences w Hus Hnone Hlen)
    as (w1 & Hgoc & _ & Hget & Hothers).
  destruct (process_message_world env message _ _ _ _ _ Hgoc)
    as (resp & c4 & t & ts & um & am & dropped & kept & -> & Hid & _ & Hpref
        & Hum1 & Hum2 & Ham1 & Ham2 & Hd & Hk & _ & _).
  cbn [Conversation.id Conversation.messages Conversation.user_preferences] in *.
  symmetry in Hd. apply app_eq_nil in Hd as [-> ->].
  exists resp, c4, um, am.
  cbn [fst snd conversations APIResponse.success APIResponse.data APIResponse.metadata].
  split; [reflexivity|]. split; [reflexivity|].
  split; [apply lookup_insert_eq|].
  split; [rewrite odict_get_replace_eq, Hget; reflexivity|].
  split; [exact Hid|]. split; [exact Hk|].
  repeat (split; [assumption|]).
  intros k Hk'. rewrite odict_get_replace_ne by exact Hk'. now apply Hothers.
Qed.

Lemma process_message_starts_conversation_witness :
  exists c',
    ODict.get "id0"
      (conversations (snd (process_message Samples.env0 "Hello" PyNone PyNone Samples.w0)))
    = Some c'
    /\ length (Conversation.messages c') = 2
    /\ Conversation.user_preferences c' = PyDict 0.
Proof.
  destruct (process_message_starts_conversation Samples.env0 "Hello" PyNone PyNone
              Samples.w0 eq_refl ltac:(intros s [=]) ltac:(vm_compute; lia))
    as (resp & c' & um & am & _ & _ & _ & Hget & _ & Hm & _ & _ & _ & _ & Hp & _).
  exists c'. split; [exact Hget|]. rewrite Hm, Hp. split; reflexivity.
Defined.
End ProcessClaims.

Section HistoryAndHandlers.
Import ConversationService Spec.

(** X9.  [get_conversation_history] returns nothing for an identifier that
    is not registered.  For a registered conversation and a positive limit
    it returns the last messages, as many as the limit if there are as
    many, in their order; for the limit 0 it returns every message, and
    for a negative limit all but the first messages, as many as the limit
    is below zero. *)
Theorem conversation_history_is_suffix (conversation_id : string) (limit : Z) (w : World) :
  let history := get_conversation_history conversation_id limit w in
  (ODict.get conversation_id (conversations w) = None -> history = [])
  /\ (forall c,
        ODict.get conversation_id (conversations w) = Some c ->
        (exists older, Conversation.messages c = older ++ history)
        /\ ((0 < limit)%Z ->
            length history = Nat.min (Z.to_nat limit) (length (Conversation.messages c)))
        /\ (limit = 0%Z -> history = Conversation.messages c)
        /\ ((limit < 0)%Z ->
            history = drop (Z.to_nat (- limit)) (Conversation.messages c))).
Proof.
  intros history. subst history. unfold get_conversation_history. split.
  - now intros ->.
  - intros c ->. unfold slice_from_minus.
    destruct (0 <? limit)%Z eqn:E.
    + apply Z.ltb_lt in E. split; [|split; [|split]]; try lia.
      * exists (take (length (Conversation.messages c) - Z.to_nat limit)
                  (Conversation.messages c)).
        symmetry. apply last_n_suffix.
      * intros _. apply last_n_length.
    + apply Z.ltb_ge in E. split; [|split; [|split]]; try lia.
      * exists (take (Z.to_nat (- limit)) (Conversation.messages c)).
        symmetry. apply take_drop.
      * intros ->. reflexivity.
      * reflexivity.
Qed.

Lemma conversation_history_is_suffix_witness :
  get_conversation_history "nobody" 20 Samples.w10 = []
  /\ length
       (get_conversation_history "c"
          20 (MkWorld [("c", Samples.full_conversation)] 0)) = 20.
Proof.
  destruct (conversation_history_is_suffix "nobody" 20 Samples.w10) as [H _].
  destruct (conversation_history_is_suffix "c" 20
              (MkWorld [("c", Samples.full_conversation)] 0)) as [_ H'].
  split; [apply H; reflexivity|].
  destruct (H' Samples.full_conversation eq_refl) as (_ & Hl & _).
  rewrite Hl by lia. reflexivity.
Defined.

End HistoryAndHandlers.

Section HandlerClaims.
Import ConversationService Spec Notions.

Lemma handle_intent_success (env : Env) (intent : UserIntent.t) (message : string)
    (c : Conversation.t) (w : World) (result : APIResponse.t PyValue) :
  collaborator_call env intent = Some result ->
  APIResponse.success result = true ->
  exists action,
    _handle_intent env intent message c w
    = (Returned
         (ChatResponse.Build (formatted env (UserIntent.intent intent) result)
            (UserIntent.intent intent) (UserIntent.confidence intent) [action] [] ∅
            (datetime_now env (tick w))),
       MkWorld (conversations w) (S (tick w))).
Proof.
  unfold collaborator_call, _handle_intent, formatted.
  destruct (String.eqb_spec (UserIntent.intent intent) "weather") as [->|_].
  { intros [= <-] Hs. unfold _handle_weather_intent. rewrite Hs. eexists. reflexivity. }
  destruct (String.eqb_spec (UserIntent.intent intent) "news") as [->|_].
  { intros [= <-] Hs. unfold _handle_news_intent. rewrite Hs. eexists. reflexivity. }
  destruct (String.eqb_spec (UserIntent.intent intent) "calendar") as [->|_];
    [|discriminate].
  unfold _handle_calendar_intent.
  destruct (String.eqb _ "list"); [|discriminate].
  intros [= <-] Hs. rewrite Hs. eexists. reflexivity.
Qed.

(** X10.  When the call that the weather, news or calendar handler makes to
    its external service succeeds, [process_message] answers with a response
    whose type is the name of the intent, whose message is the text the
    service's formatter gives for the data, whose confidence is that of the
    intent, with one action recorded and no suggestion. *)
Theorem collaborator_success_is_shown (env : Env) (message : string)
    (conversation_id user_preferences : PyValue) (w : World)
    (conversation : Conversation.t) (result : APIResponse.t PyValue) :
  usable_id conversation_id = true ->
  collaborator_call env (_detect_intent message conversation) = Some result ->
  APIResponse.success result = true ->
  let intent := _detect_intent message conversation in
  let r := fst (process_message env message conversation_id user_preferences w) in
  exists response action,
    APIResponse.success r = true
    /\ APIResponse.data r = Some response
    /\ ChatResponse.response_type response = UserIntent.intent intent
    /\ ChatResponse.message response = formatted env (UserIntent.intent intent) result
    /\ ChatResponse.confidence response = UserIntent.confidence intent
    /\ ChatResponse.actions_taken response = [action]
    /\ ChatResponse.suggestions response = [].
Proof.
  intros Hus Hcall Hok intent r. subst intent r.
  destruct (get_or_create_usable env conversation_id user_preferences w Hus)
    as (c0 & w1 & Hgoc).
  destruct (process_message_returns env message _ _ _ _ _ Hgoc)
    as (c1 & w1' & resp & w2 & w3 & ts & Hh & ->).
  rewrite (detect_intent_conversation message c1 conversation) in *.
  destruct (handle_intent_success env _ message c1 w1' result Hcall Hok)
    as (action & Hs).
  rewrite Hs in Hh. injection Hh as <- _.
  eexists _, action. repeat split.
Qed.

Lemma collaborator_success_is_shown_witness :
  let env :=
    MkEnv (uuid4 Samples.env0) (datetime_now Samples.env0) (random_index Samples.env0)
      (fun _ => APIResponse.Build true (Some (PyStr "sunny")) None ∅ 0)
      (get_weather_forecast Samples.env0) (fun _ => "Sunny in Oslo")
      (search_news Samples.env0) (get_top_headlines Samples.env0)
      (format_news_message Samples.env0) (list_events Samples.env0)
      (format_calendar_message Samples.env0) in
  exists response action,
    APIResponse.data (fst (process_message env "weather in Oslo" PyNone PyNone Samples.w0))
    = Some response
    /\ ChatResponse.response_type response = "weather"
    /\ ChatResponse.message response = "Sunny in Oslo"
    /\ ChatResponse.actions_taken response = [action].
Proof.
  intros env.
  destruct (collaborator_success_is_shown env "weather in Oslo" PyNone PyNone
              Samples.w0 Samples.no_conversation
              (APIResponse.Build true (Some (PyStr "sunny")) None ∅ 0)
              eq_refl eq_refl eq_refl)
    as (response & action & _ & H2 & H3 & H4 & _ & H6 & _).
  exists response, action. auto.
Defined.

Lemma time_entities_no_action (message : string) :
  _extract_time_entities message !! "action" = None.
Proof.
  unfold _extract_time_entities.
  destruct (Re.search false time_pattern (PyStr.lower message));
    repeat match goal with
           | |- context [if ?b then _ else _] => destruct b
           end;
    reflexivity.
Qed.

Lemma detect_intent_entities (message : string) (c : Conversation.t) :
  UserIntent.entities (_detect_intent message c)
  = _extract_entities message (UserIntent.intent (_detect_intent message c)) c.
Proof.
  destruct (detect_intent_cases message c)
    as [[_ ->] | (before & name & kws & after & _ & _ & _ & _ & ->)]; reflexivity.
Qed.

(** X11.  A calendar request that contains schedule, create, add or book is
    answered with the fixed guidance, with the type calendar and two
    suggestions, whatever the calendar service would answer: the service is
    not consulted. *)
Theorem calendar_create_is_guidance (env : Env) (message : string)
    (conversation_id user_preferences : PyValue) (w : World)
    (conversation : Conversation.t) :
  usable_id conversation_id = true ->
  UserIntent.intent (_detect_intent message conversation) = "calendar" ->
  PyStr.any_in ["schedule"; "create"; "add"; "book"] (PyStr.lower message) = true ->
  let r := fst (process_message env message conversation_id user_preferences w) in
  collaborator_call env (_detect_intent message conversation) = None
  /\ exists response,
       APIResponse.success r = true
       /\ APIResponse.data r = Some response
       /\ ChatResponse.response_type response = "calendar"
       /\ ChatResponse.message response = calendar_guidance
       /\ ChatResponse.confidence response
          = UserIntent.confidence (_detect_intent message conversation)
       /\ ChatResponse.actions_taken response = []
       /\ ChatResponse.suggestions response
          = ["What's on my calendar today?"; "Show upcoming events"].
Proof.
  intros Hus Hcal Hcreate r. subst r.
  assert (Haction : UserIntent.entities (_detect_intent message conversation)
                    !! "action" = Some "create").
  { rewrite detect_intent_entities, Hcal. unfold _extract_entities.
    cbn [String.eqb Ascii.eqb Bool.eqb]. rewrite Hcreate.
    rewrite lookup_union_r by apply time_entities_no_action.
    apply lookup_singleton_eq. }
  split.
  { unfold collaborator_call. rewrite Hcal, Haction. reflexivity. }

  destruct (get_or_create_usable env conversation_id user_preferences w Hus)
    as (c0 & w1 & Hgoc).
  destruct (process_message_returns env message _ _ _ _ _ Hgoc)
    as (c1 & w1' & resp & w2 & w3 & ts & Hh & ->).
  rewrite (detect_intent_conversation message c1 conversation) in *.
  unfold _handle_intent in Hh. rewrite Hcal in Hh.
  cbn [String.eqb Ascii.eqb Bool.eqb] in Hh.
  assert (Hact : String.eqb
                   (default "list"
                      (UserIntent.entities (_detect_intent message conversation)
                       !! "action")) "list" = false)
    by (rewrite Haction; reflexivity).
  unfold _handle_calendar_intent in Hh. rewrite Hact in Hh.
  rewrite chat_response_run in Hh. injection Hh as <- _.
  eexists. repeat split.
Qed.

Lemma calendar_create_is_guidance_witness :
  exists response,
    APIResponse.data
      (fst (process_message Samples.env0 "Schedule a meeting tomorrow" PyNone PyNone
              Samples.w0)) = Some response
    /\ ChatResponse.response_type response = "calendar"
    /\ ChatResponse.message response = calendar_guidance.
Proof.
  destruct (calendar_create_is_guidance Samples.env0 "Schedule a meeting tomorrow"
              PyNone PyNone Samples.w0 Samples.no_conversation
              eq_refl eq_refl eq_refl)
    as (_ & response & _ & H2 & H3 & H4 & _).
  exists response. auto.
Defined.
End HandlerClaims.

(** ** Strings *)

Section StringFacts.

Lemma string_app_cons (c : ascii) (a b : string) :
  String c a +:+ b = String c (a +:+ b).
Proof. reflexivity. Qed.

Lemma string_app_nil_r (s : string) : s +:+ "" = s.
Proof.
  induction s as [|c s IH]; [reflexivity|]. now rewrite string_app_cons, IH.
Qed.

Lemma string_app_assoc (a b c : string) : (a +:+ b) +:+ c = a +:+ (b +:+ c).
Proof.
  induction a as [|x a IH]; [reflexivity|]. now rewrite !string_app_cons, IH.
Qed.

Lemma string_length_app (a b : string) :
  String.length (a +:+ b) = String.length a + String.length b.
Proof.
  induction a as [|x a IH]; [reflexivity|].
  rewrite string_app_cons. cbn [String.length]. now rewrite IH.
Qed.

Lemma lower_app (a b : string) : PyStr.lower (a +:+ b) = PyStr.lower a +:+ PyStr.lower b.
Proof.
  induction a as [|x a IH]; [reflexivity|].
  rewrite string_app_cons. cbn [PyStr.lower]. now rewrite IH, string_app_cons.
Qed.

Lemma lower_char_idempotent (c : ascii) :
  PyStr.lower_char (PyStr.lower_char c) = PyStr.lower_char c.
Proof. destruct c as [[] [] [] [] [] [] [] []]; reflexivity. Qed.

Lemma lower_idempotent (s : string) : PyStr.lower (PyStr.lower s) = PyStr.lower s.
Proof.
  induction s as [|c s IH]; [reflexivity|]. cbn [PyStr.lower].
  now rewrite lower_char_idempotent, IH.
Qed.

Lemma starts_with_app (n a b : string) :
  PyStr.starts_with n a = true -> PyStr.starts_with n (a +:+ b) = true.
Proof.
  revert a. induction n as [|x n IH]; intros a; [reflexivity|].
  destruct a as [|y a]; [discriminate|].
  rewrite string_app_cons. cbn [PyStr.starts_with].
  rewrite !andb_true_iff. intros [H1 H2]. auto.
Qed.

Lemma contains_app_l (n a b : string) :
  PyStr.contains n a = true -> PyStr.contains n (a +:+ b) = true.
Proof.
  induction a as [|y a IH].
  - cbn [PyStr.contains]. rewrite orb_false_r. intros H.
    destruct n; [destruct b; reflexivity | discriminate].
  - rewrite string_app_cons. cbn [PyStr.contains]. rewrite !orb_true_iff.
    intros [H|H].
    + left. rewrite <- string_app_cons. now apply starts_with_app.
    + right. now apply IH.
Qed.

Lemma contains_app_r (n a b : string) :
  PyStr.contains n b = true -> PyStr.contains n (a +:+ b) = true.
Proof.
  intros H. induction a as [|y a IH]; [exact H|].
  rewrite string_app_cons. cbn [PyStr.contains]. rewrite IH. apply orb_true_r.
Qed.

End StringFacts.

Section MoreClassifier.
Import ConversationService Spec.

Lemma detect_intent_general_iff (message : string) (c : Conversation.t) :
  UserIntent.intent (_detect_intent message c) = "general"
  <-> Forall (fun e => matched message (snd e) = []) intent_keywords.
Proof.
  split.
  - intros H. apply detect_intent_general in H.
    destruct (detect_intent_cases message c)
      as [[Hall _] | (before & name & kws & after & Hlex & _ & _ & _ & Heq)];
      [exact Hall|].
    rewrite Heq in H. unfold general_intent in H. injection H as -> _. exfalso.
    assert (Hin : In ("general", kws) intent_keywords).
    { rewrite Hlex. apply in_or_app. right. now left. }
    vm_compute in Hin.
    repeat (destruct Hin as [Hin | Hin]; [discriminate Hin|]). destruct Hin.
  - intros Hall.
    destruct (detect_intent_cases message c)
      as [[_ ->] | (before & name & kws & after & Hlex & Hm & _)]; [reflexivity|].
    exfalso. apply Hm. rewrite Forall_forall in Hall.
    apply (Hall (name, kws)). rewrite Hlex. apply elem_of_app. right. left.
Qed.

(** X12.  Whatever the utterance, the intent that [_detect_intent] returns
    is one of the eight names, its confidence is above 0 and at most 1, and
    it is general exactly when no keyword of any lexicon occurs in the
    utterance. *)
Theorem detect_intent_in_range (message : string) (conversation : Conversation.t) :
  let r := _detect_intent message conversation in
  UserIntent.intent r
    ∈ ["weather"; "news"; "calendar"; "greeting"; "goodbye"; "help"; "thanks"; "general"]
  /\ (0 < UserIntent.confidence r)%Q
  /\ (UserIntent.confidence r <= 1)%Q
  /\ (UserIntent.intent r = "general"
      <-> forall name kws kw,
            (name, kws) ∈ intent_keywords -> kw ∈ kws -> occurs message kw = false).
Proof.
  intros r. subst r. split; [|split; [|split]].
  - destruct (detect_intent_cases message conversation)
      as [[_ ->] | (before & name & kws & after & Hlex & _ & _ & _ & ->)].
    + apply list_elem_of_In. vm_compute. tauto.
    + cbn [UserIntent.intent].
      assert (Hin : In (name, kws) intent_keywords).
      { rewrite Hlex. apply in_or_app. right. now left. }
      apply list_elem_of_In. vm_compute in Hin. vm_compute.
      repeat (destruct Hin as [[= <- _] | Hin]; [tauto|]). destruct Hin.
  - destruct (detect_intent_cases message conversation)
      as [[_ ->] | (before & name & kws & after & _ & Hm & _ & _ & ->)];
      [reflexivity|].
    cbn [UserIntent.confidence]. apply Q.min_glb_lt; [|reflexivity].
    apply Qmult_lt_0_compat; [|reflexivity]. now apply lexicon_score_pos.
  - destruct (detect_intent_cases message conversation)
      as [[_ ->] | (before & name & kws & after & _ & Hm & _ & _ & ->)];
      [discriminate|].
    cbn [UserIntent.confidence]. apply Q.le_min_r.
  - rewrite detect_intent_general_iff, Forall_forall. split.
    + intros Hall name kws kw Hin Hkw.
      specialize (Hall _ Hin). cbn [snd] in Hall.
      destruct (occurs message kw) eqn:E; [|reflexivity]. exfalso.
      revert Hall. apply matched_nonempty. eauto.
    + intros Hnone [name kws] Hin. cbn [snd].
      destruct (matched message kws) as [|kw m] eqn:E; [reflexivity|]. exfalso.
      assert (Hm : matched message kws <> []) by (rewrite E; discriminate).
      apply matched_nonempty in Hm as (kw' & Hkw & Hocc).
      now rewrite (Hnone name kws kw' Hin Hkw) in Hocc.
Qed.

(** X13.  Classification does not see the case of letters: two utterances
    with the same lower-case form get the same intent, confidence and
    parameters. *)
Theorem detect_intent_ignores_case (m1 m2 : string) (c1 c2 : Conversation.t) :
  PyStr.lower m1 = PyStr.lower m2 ->
  UserIntent.intent (_detect_intent m1 c1) = UserIntent.intent (_detect_intent m2 c2)
  /\ UserIntent.confidence (_detect_intent m1 c1)
     = UserIntent.confidence (_detect_intent m2 c2)
  /\ UserIntent.parameters (_detect_intent m1 c1)
     = UserIntent.parameters (_detect_intent m2 c2).
Proof.
  intros H. unfold _detect_intent. rewrite H.
  destruct (py_max _ _); repeat split.
Qed.

Lemma detect_intent_ignores_case_witness :
  UserIntent.intent (_detect_intent "HELLO" Samples.no_conversation)
  = UserIntent.intent (_detect_intent "hello" Samples.no_conversation).
Proof.
  apply (detect_intent_ignores_case "HELLO" "hello" Samples.no_conversation
           Samples.no_conversation eq_refl).
Defined.

Lemma occurs_in_context (before u after kw : string) :
  occurs u kw = true -> occurs (before +:+ u +:+ after) kw = true.
Proof.
  unfold occurs. intros H. rewrite !lower_app.
  apply contains_app_r. now apply contains_app_l.
Qed.

(** X14.  Text around an utterance never removes a keyword: a keyword that
    occurs in an utterance occurs in every text that contains it.  Hence a
    part of a text classified as general is classified as general. *)
Theorem general_text_has_general_parts (before u after : string)
    (conversation : Conversation.t) :
  (forall kw, occurs u kw = true -> occurs (before +:+ u +:+ after) kw = true)
  /\ (UserIntent.intent (_detect_intent (before +:+ u +:+ after) conversation) = "general"
      -> UserIntent.intent (_detect_intent u conversation) = "general").
Proof.
  split; [intros kw; apply occurs_in_context|].
  rewrite !detect_intent_general_iff, !Forall_forall. intros Hall e He.
  specialize (Hall e He).
  destruct (matched u (snd e)) as [|kw m] eqn:E; [reflexivity|]. exfalso.
  assert (Hm : matched u (snd e) <> []) by (rewrite E; discriminate).
  apply matched_nonempty in Hm as (kw' & Hkw & Hocc).
  revert Hall. apply matched_nonempty. exists kw'. split; [exact Hkw|].
  now apply occurs_in_context.
Qed.

Lemma general_text_has_general_parts_witness :
  UserIntent.intent (_detect_intent "blue" Samples.no_conversation) = "general".
Proof.
  destruct (general_text_has_general_parts "a " "blue" " box" Samples.no_conversation)
    as [_ H].
  apply H. reflexivity.
Defined.
End MoreClassifier.

(** ** The news categories *)

Lemma find_first {A : Type} (f : A -> bool) (l : list A) :
  match List.find f l with
  | Some x =>
      exists l1 l2, l = l1 ++ x :: l2 /\ f x = true /\ Forall (fun y => f y = false) l1
  | None => Forall (fun y => f y = false) l
  end.
Proof.
  induction l as [|a l IH]; cbn [List.find]; [constructor|].
  destruct (f a) eqn:E.
  - exists [], l. repeat split; [exact E | constructor].
  - destruct (List.find f l) as [x|].
    + destruct IH as (l1 & l2 & -> & Hx & Hall).
      exists (a :: l1), l2. repeat split; [exact Hx | now constructor].
    + now constructor.
Qed.

(** X15.  [detect_news_category] returns the first category of its table,
    in the order of the table, one of whose keywords is a substring of the
    lower-cased query, and nothing if no keyword of the table is. *)
Theorem detect_news_category_first_hit (query : string) :
  let hit (entry : string * list string) :=
    PyStr.any_in (snd entry) (PyStr.lower query) in
  match NewsService.detect_news_category query with
  | Some category =>
      exists before kws after,
        NewsService.category_keywords = before ++ (category, kws) :: after
        /\ hit (category, kws) = true
        /\ Forall (fun entry => hit entry = false) before
  | None => Forall (fun entry => hit entry = false) NewsService.category_keywords
  end.
Proof.
  intros hit. unfold NewsService.detect_news_category.
  pose proof (find_first hit NewsService.category_keywords) as H.
  fold hit. destruct (List.find hit NewsService.category_keywords) as [[c kws]|].
  - destruct H as (l1 & l2 & Heq & Hx & Hall). cbn. exists l1, kws, l2. auto.
  - exact H.
Qed.

(** X16.  A query in which technology occurs is never given the category
    technology: it gets business, entertainment, health or science, since
    the keywords of science include technology and science comes first. *)
Theorem technology_is_not_technology (query : string) :
  PyStr.contains "technology" (PyStr.lower query) = true ->
  NewsService.detect_news_category query
    ∈ [Some "business"; Some "entertainment"; Some "health"; Some "science"]
  /\ NewsService.detect_news_category query <> Some "technology".
Proof.
  intros H.
  enough (Hin : NewsService.detect_news_category query
                  ∈ [Some "business"; Some "entertainment"; Some "health";
                     Some "science"]).
  { split; [exact Hin|]. intros E. rewrite E in Hin.
    apply list_elem_of_In in Hin. cbn in Hin.
    repeat (destruct Hin as [Hin|Hin]; [discriminate Hin|]). destruct Hin. }
  assert (Hs : PyStr.any_in
                 ["science"; "research"; "study"; "discovery"; "space"; "technology";
                  "innovation"] (PyStr.lower query) = true).
  { unfold PyStr.any_in. cbn [existsb]. rewrite H. now rewrite !orb_true_r. }
  unfold NewsService.detect_news_category, NewsService.category_keywords.
  cbn [List.find snd].
  do 3 (match goal with
        | |- (fst <$> (if ?b then _ else _)) ∈ _ =>
            destruct b; [apply list_elem_of_In; cbn; tauto|]
        end).
  rewrite Hs. apply list_elem_of_In. cbn. tauto.
Qed.

Lemma technology_is_not_technology_witness :
  NewsService.detect_news_category "The latest technology" <> Some "technology".
Proof.
  apply (technology_is_not_technology "The latest technology"). reflexivity.
Defined.

(** ** Stripping *)

Section StripFacts.
Import Notions.

Lemma lstrip_head (s : string) : head_not_space (PyStr.lstrip s) = true.
Proof.
  induction s as [|c s IH]; [reflexivity|]. cbn [PyStr.lstrip].
  destruct (PyStr.is_space c) eqn:E; [exact IH|]. cbn. now rewrite E.
Qed.

Lemma lstrip_id (s : string) : head_not_space s = true -> PyStr.lstrip s = s.
Proof.
  destruct s as [|c s]; [reflexivity|]. cbn.
  now destruct (PyStr.is_space c).
Qed.

Lemma rstrip_head (s : string) :
  head_not_space s = true -> head_not_space (PyStr.rstrip s) = true.
Proof.
  destruct s as [|c s]; [reflexivity|]. cbn [head_not_space PyStr.rstrip].
  intros H. destruct (PyStr.is_space c) eqn:Ec; [discriminate|].
  destruct (PyStr.rstrip s); cbn; now rewrite Ec.
Qed.

Lemma rstrip_idempotent (s : string) : PyStr.rstrip (PyStr.rstrip s) = PyStr.rstrip s.
Proof.
  induction s as [|c s IH]; [reflexivity|]. cbn [PyStr.rstrip].
  destruct (PyStr.rstrip s) as [|d r] eqn:E.
  - destruct (PyStr.is_space c) eqn:Ec; [reflexivity|].
    cbn [PyStr.rstrip]. now rewrite Ec.
  - change (PyStr.rstrip (String c (String d r))) with
      (match PyStr.rstrip (String d r) with
       | EmptyString => if PyStr.is_space c then EmptyString else String c EmptyString
       | x => String c x
       end).
    now rewrite IH.
Qed.

Lemma strip_idempotent (s : string) : PyStr.strip (PyStr.strip s) = PyStr.strip s.
Proof.
  unfold PyStr.strip.
  rewrite (lstrip_id (PyStr.rstrip (PyStr.lstrip s)))
    by (apply rstrip_head, lstrip_head).
  apply rstrip_idempotent.
Qed.

End StripFacts.

(** ** The entities *)

Section Entities.
Import ConversationService Spec.

Lemma first_some_some {A B : Type} (f : A -> option B) (l : list A) (y : B) :
  first_some f l = Some y -> exists x, In x l /\ f x = Some y.
Proof.
  induction l as [|a l IH]; cbn [first_some]; [discriminate|].
  destruct (f a) as [b|] eqn:E.
  - intros [= <-]. exists a. split; [now left | exact E].
  - intros H. destruct (IH H) as (x & Hx & Hf). exists x. split; [now right | exact Hf].
Qed.

Lemma extract_location_checked (message loc : string) :
  _extract_location message = Some loc ->
  PyStr.strip loc = loc /\ PyStr.mem (PyStr.lower loc) not_a_location = false.
Proof.
  unfold _extract_location. intros H.
  apply first_some_some in H as (pattern & _ & H).
  unfold location_of in H. destruct (Re.search true pattern message) as [m|];
    [|discriminate].
  destruct (PyStr.mem _ not_a_location) eqn:E; cbn [negb] in H; [discriminate|].
  injection H as <-. split; [apply strip_idempotent | exact E].
Qed.

(** X17.  The entities of a classified utterance.  For weather:
    [time_reference] is always there, forecast if tomorrow, today, forecast
    or week occurs and current otherwise; [location], if there, is not
    empty, has no white space around it and is none of the filtered words;
    there is no other key.  For calendar: [action] is always there, create
    if schedule, create, add or book occurs and list otherwise.  For the
    intents other than weather, news and calendar there are no entities. *)
Theorem entities_by_intent (message : string) (conversation : Conversation.t) :
  let r := _detect_intent message conversation in
  let e := UserIntent.entities r in
  let lower := PyStr.lower message in
  (UserIntent.intent r = "weather" ->
   e !! "time_reference"
   = Some (if PyStr.any_in ["tomorrow"; "today"; "forecast"; "week"] lower
           then "forecast" else "current")
   /\ (forall loc, e !! "location" = Some loc ->
         loc <> "" /\ PyStr.strip loc = loc
         /\ PyStr.mem (PyStr.lower loc) ["today"; "tomorrow"; "now"; "there"; "here"]
            = false)
   /\ (forall k, k <> "location" -> k <> "time_reference" -> e !! k = None))
  /\ (UserIntent.intent r = "calendar" ->
      e !! "action"
      = Some (if PyStr.any_in ["schedule"; "create"; "add"; "book"] lower
              then "create" else "list"))
  /\ (UserIntent.intent r <> "weather" -> UserIntent.intent r <> "news" ->
      UserIntent.intent r <> "calendar" -> e = ∅).
Proof.
  intros r e lower. subst r e lower.
  rewrite detect_intent_entities. split; [|split].
  - intros ->. unfold _extract_entities. cbn [String.eqb Ascii.eqb Bool.eqb].
    set (entities := set_if_true "location" (_extract_location message) ∅).
    assert (He : forall k, k <> "location" -> entities !! k = None).
    { intros k Hk. unfold entities, set_if_true.
      destruct (_extract_location message) as [v|]; [|apply lookup_empty].
      destruct (negb (String.eqb v "")); [|apply lookup_empty].
      rewrite lookup_insert_ne by congruence. apply lookup_empty. }
    assert (Hl : forall loc, entities !! "location" = Some loc ->
                   loc <> "" /\ PyStr.strip loc = loc
                   /\ PyStr.mem (PyStr.lower loc) not_a_location = false).
    { intros loc. unfold entities, set_if_true.
      destruct (_extract_location message) as [v|] eqn:Ev;
        [|rewrite lookup_empty; discriminate].
      destruct (String.eqb_spec v "") as [->|Hv]; cbn [negb];
        [rewrite lookup_empty; discriminate|].
      rewrite lookup_insert_eq. intros [= <-].
      split; [exact Hv|]. exact (extract_location_checked message _ Ev). }
    destruct (PyStr.any_in _ _).
    + split; [apply lookup_insert_eq|]. split.
      * intros loc. rewrite lookup_insert_ne by discriminate. apply Hl.
      * intros k Hk1 Hk2. rewrite lookup_insert_ne by congruence. now apply He.
    + split; [apply lookup_insert_eq|]. split.
      * intros loc. rewrite lookup_insert_ne by discriminate. apply Hl.
      * intros k Hk1 Hk2. rewrite lookup_insert_ne by congruence. now apply He.
  - intros ->. unfold _extract_entities. cbn [String.eqb Ascii.eqb Bool.eqb].
    rewrite (lookup_union_r (_extract_time_entities message))
      by apply time_entities_no_action.
    destruct (PyStr.any_in _ _); [apply lookup_singleton_eq|].
    destruct (PyStr.any_in _ _); apply lookup_singleton_eq.
  - intros H1 H2 H3. unfold _extract_entities.
    destruct (String.eqb_spec (UserIntent.intent (_detect_intent message conversation))
                "weather"); [contradiction|].
    destruct (String.eqb_spec (UserIntent.intent (_detect_intent message conversation))
                "news"); [contradiction|].
    destruct (String.eqb_spec (UserIntent.intent (_detect_intent message conversation))
                "calendar"); [contradiction|].
    reflexivity.
Qed.

Lemma entities_by_intent_witness :
  UserIntent.entities (_detect_intent "weather in Oslo" Samples.no_conversation)
  !! "time_reference" = Some "current"
  /\ UserIntent.entities (_detect_intent "Hello" Samples.no_conversation) = ∅.
Proof.
  destruct (entities_by_intent "weather in Oslo" Samples.no_conversation) as (H & _).
  destruct (entities_by_intent "Hello" Samples.no_conversation) as (_ & _ & H').
  split.
  - destruct (H eq_refl) as (-> & _). reflexivity.
  - apply H'; discriminate.
Defined.
End Entities.

(** ** app/utils/helpers.py *)

Section HelperFacts.
Import Helpers Notions.

Lemma take_length (k : nat) (s : string) :
  String.length (PyStr.take k s) = Nat.min k (String.length s).
Proof.
  revert s. induction k as [|k IH]; intros [|c s]; cbn; try reflexivity.
  now rewrite IH.
Qed.

Lemma take_all (k : nat) (s : string) : String.length s <= k -> PyStr.take k s = s.
Proof.
  revert s. induction k as [|k IH]; intros [|c s]; cbn; try reflexivity; try lia.
  intros H. rewrite IH by lia. reflexivity.
Qed.

Lemma slice_to_length (n : Z) (s : string) :
  (0 <= n)%Z -> String.length (slice_to n s) = Nat.min (Z.to_nat n) (String.length s).
Proof.
  intros Hn. unfold slice_to. destruct (0 <=? n)%Z eqn:E; [apply take_length|].
  apply Z.leb_gt in E. lia.
Qed.

Lemma all_chars_app (p : ascii -> bool) (a b : string) :
  all_chars p (a +:+ b) = all_chars p a && all_chars p b.
Proof.
  induction a as [|c a IH]; [reflexivity|].
  rewrite string_app_cons. cbn [all_chars]. rewrite IH. apply andb_assoc.
Qed.

Lemma keep_chars_all (p : ascii -> bool) (s : string) :
  all_chars p (keep_chars p s) = true.
Proof.
  induction s as [|c s IH]; [reflexivity|]. cbn [keep_chars].
  destruct (p c) eqn:E; [|exact IH]. cbn [all_chars]. now rewrite E, IH.
Qed.

Lemma keep_chars_id (p : ascii -> bool) (s : string) :
  all_chars p s = true -> keep_chars p s = s.
Proof.
  induction s as [|c s IH]; [reflexivity|]. cbn [all_chars keep_chars].
  intros H. apply andb_true_iff in H as [-> H]. now rewrite IH.
Qed.

Lemma keep_chars_length (p : ascii -> bool) (s : string) :
  String.length (keep_chars p s) <= String.length s.
Proof.
  induction s as [|c s IH]; [reflexivity|]. cbn [keep_chars].
  destruct (p c); cbn [String.length]; lia.
Qed.

(** Substituting nothing for a class deletes its characters. *)
Lemma sub_class_deletes (p : ascii -> bool) (s : string) :
  Re.sub false (Re.Cls p) "" s = keep_chars (fun c => negb (p c)) s.
Proof.
  unfold Re.sub.
  enough (H : forall fuel prev, String.length s <= fuel ->
                Re.sub_from fuel false (Re.Cls p) "" prev s
                = keep_chars (fun c => negb (p c)) s) by (apply H; lia).
  induction s as [|c s IH]; intros fuel prev Hf.
  - destruct fuel; reflexivity.
  - destruct fuel as [|fuel]; [cbn in Hf; lia|].
    cbn [String.length] in Hf.
    cbn [Re.sub_from Re.match_here Re.bt Re.rest Re.in_class keep_chars].
    destruct (p c); cbn [negb].
    + cbn [Re.after Re.last Re.rest Re.prev String.length].
      assert (E : (String.length s <? S (String.length s))%nat = true)
        by (apply Nat.ltb_lt; lia).
      rewrite E. change ("" +:+ ?x) with x. apply IH. lia.
    + f_equal. apply IH. lia.
Qed.

Lemma split_from_words (word s : string) :
  all_chars (fun c => negb (PyStr.is_space c)) word = true ->
  Forall (fun w => is_word_of_text w = true) (split_from word s).
Proof.
  revert word. induction s as [|c s IH]; intros word Hw; cbn [split_from].
  - destruct (String.eqb_spec word ""); [constructor|].
    constructor; [|constructor]. unfold is_word_of_text.
    rewrite Hw. destruct (String.eqb_spec word ""); [contradiction | reflexivity].
  - destruct (PyStr.is_space c) eqn:Ec.
    + destruct (String.eqb_spec word "").
      * now apply IH.
      * constructor; [|now apply IH]. unfold is_word_of_text.
        rewrite Hw. destruct (String.eqb_spec word ""); [contradiction | reflexivity].
    + apply IH. rewrite all_chars_app, Hw. cbn. now rewrite Ec.
Qed.

Lemma split_from_word (word w rest : string) :
  all_chars (fun c => negb (PyStr.is_space c)) w = true ->
  split_from word (w +:+ rest) = split_from (word +:+ w) rest.
Proof.
  revert word. induction w as [|c w IH]; intros word Hw.
  - now rewrite string_app_nil_r.
  - cbn [all_chars] in Hw. apply andb_true_iff in Hw as [Hc Hw].
    apply negb_true_iff in Hc.
    rewrite string_app_cons. cbn [split_from]. rewrite Hc.
    rewrite IH by exact Hw. rewrite string_app_assoc. reflexivity.
Qed.

Lemma word_parts (w : string) :
  is_word_of_text w = true ->
  w <> "" /\ all_chars (fun c => negb (PyStr.is_space c)) w = true.
Proof.
  unfold is_word_of_text. rewrite andb_true_iff, negb_true_iff.
  intros [H1 H2]. split; [|exact H2]. now apply String.eqb_neq.
Qed.

Lemma join_cons2 (sep w w' : string) (ws : list string) :
  join sep (w :: w' :: ws) = w +:+ sep +:+ join sep (w' :: ws).
Proof. reflexivity. Qed.

Lemma join_nonempty (w : string) (ws : list string) :
  w <> "" -> join " " (w :: ws) <> "".
Proof.
  intros Hw. destruct ws as [|w' ws]; [exact Hw|]. rewrite join_cons2.
  destruct w; [contradiction | discriminate].
Qed.

Lemma split_join (ws : list string) :
  Forall (fun w => is_word_of_text w = true) ws -> split (join " " ws) = ws.
Proof.
  unfold split. induction ws as [|w ws IH]; intros H; [reflexivity|].
  apply Forall_cons in H as [Hw H]. apply word_parts in Hw as [Hne Hns].
  destruct ws as [|w' ws].
  - cbn [join]. rewrite <- (string_app_nil_r w) at 1.
    rewrite split_from_word by exact Hns. change ("" +:+ w) with w.
    cbn [split_from]. destruct (String.eqb_spec w ""); [contradiction | reflexivity].
  - rewrite join_cons2, split_from_word by exact Hns.
    change ("" +:+ w) with w. change (" " +:+ ?x) with (String " " x).
    cbn [split_from]. change (PyStr.is_space " ") with true. cbn iota.
    destruct (String.eqb_spec w ""); [contradiction|]. now rewrite IH.
Qed.

Lemma join_length (word s : string) :
  String.length (join " " (split_from word s)) <= String.length word + String.length s.
Proof.
  revert word. induction s as [|c s IH]; intros word; cbn [split_from].
  - destruct (String.eqb_spec word "") as [->|]; cbn; lia.
  - cbn [String.length]. destruct (PyStr.is_space c).
    + destruct (String.eqb_spec word "") as [->|].
      * specialize (IH ""). cbn in IH |- *. lia.
      * specialize (IH ""). cbn [String.length] in IH.
        destruct (split_from "" s) as [|w' ws] eqn:E.
        -- cbn [join]. lia.
        -- rewrite join_cons2, !string_length_app. cbn [String.length]. lia.
    + specialize (IH (word +:+ String c "")).
      rewrite string_length_app in IH. cbn [String.length] in IH. lia.
Qed.

Lemma split_from_all (p : ascii -> bool) (word s : string) :
  all_chars p word = true -> all_chars p s = true ->
  Forall (fun w => all_chars p w = true) (split_from word s).
Proof.
  revert word. induction s as [|c s IH]; intros word Hw Hs; cbn [split_from].
  - destruct (String.eqb word ""); repeat constructor. exact Hw.
  - cbn [all_chars] in Hs. apply andb_true_iff in Hs as [Hc Hs].
    destruct (PyStr.is_space c).
    + destruct (String.eqb word ""); [|constructor; [exact Hw|]]; now apply IH.
    + apply IH; [|exact Hs]. rewrite all_chars_app, Hw. cbn. now rewrite Hc.
Qed.

Lemma join_all (p : ascii -> bool) (ws : list string) :
  p " "%char = true ->
  Forall (fun w => all_chars p w = true) ws -> all_chars p (join " " ws) = true.
Proof.
  intros Hsp. induction ws as [|w ws IH]; intros H; [reflexivity|].
  apply Forall_cons in H as [Hw H]. destruct ws as [|w' ws]; [exact Hw|].
  rewrite join_cons2, !all_chars_app, Hw, IH by exact H. cbn. now rewrite Hsp.
Qed.

Lemma rstrip_no_space (w : string) :
  all_chars (fun c => negb (PyStr.is_space c)) w = true -> PyStr.rstrip w = w.
Proof.
  induction w as [|c w IH]; [reflexivity|]. cbn [all_chars PyStr.rstrip].
  intros H. apply andb_true_iff in H as [Hc H]. apply negb_true_iff in Hc.
  rewrite IH by exact H. destruct w; [now rewrite Hc | reflexivity].
Qed.

Lemma rstrip_app (a t : string) :
  PyStr.rstrip t <> "" -> PyStr.rstrip (a +:+ t) = a +:+ PyStr.rstrip t.
Proof.
  intros Ht. induction a as [|c a IH]; [reflexivity|].
  rewrite !string_app_cons. cbn [PyStr.rstrip]. rewrite IH.
  destruct (a +:+ PyStr.rstrip t) eqn:E; [|reflexivity].
  exfalso. destruct a; [now cbn in E | discriminate E].
Qed.

Lemma strip_join (ws : list string) :
  Forall (fun w => is_word_of_text w = true) ws ->
  PyStr.strip (join " " ws) = join " " ws.
Proof.
  intros H. unfold PyStr.strip.
  assert (Hhead : head_not_space (join " " ws) = true).
  { destruct ws as [|w ws]; [reflexivity|].
    apply Forall_cons in H as [Hw _]. apply word_parts in Hw as [Hne Hns].
    destruct w as [|c w]; [contradiction|].
    cbn [all_chars] in Hns. apply andb_true_iff in Hns as [Hc _].
    destruct ws; [exact Hc|]. rewrite join_cons2, string_app_cons. exact Hc. }
  rewrite lstrip_id by exact Hhead.
  induction ws as [|w ws IH]; [reflexivity|].
  apply Forall_cons in H as [Hw H]. apply word_parts in Hw as [Hne Hns].
  destruct ws as [|w' ws]; [now apply rstrip_no_space|].
  assert (IH' : PyStr.rstrip (join " " (w' :: ws)) = join " " (w' :: ws)).
  { apply IH; [exact H|].
    pose proof H as H'. apply Forall_cons in H' as [Hw' _].
    apply word_parts in Hw' as [Hne' Hns'].
    destruct w' as [|c w']; [contradiction|].
    cbn [all_chars] in Hns'. apply andb_true_iff in Hns' as [Hc _].
    destruct ws; [exact Hc|]. rewrite join_cons2, string_app_cons. exact Hc. }
  rewrite join_cons2. rewrite <- string_app_assoc.
  rewrite rstrip_app; [now rewrite IH'|].
  rewrite IH'. apply join_nonempty.
  apply Forall_cons in H as [Hw' _]. now apply word_parts in Hw' as [Hne' _].
Qed.

(** The value of [sanitize_input] on a string. *)
Lemma sanitize_input_value (text : string) (max_length : Z) :
  sanitize_input (PyStr text) max_length
  = join " " (split (keep_chars (fun c => negb (is_harmful c))
                       (slice_to max_length text))).
Proof.
  unfold sanitize_input, Re.one_of. rewrite sub_class_deletes.
  apply strip_join. apply split_from_words. reflexivity.
Qed.

End HelperFacts.

Section HelperClaims.
Import Helpers Notions.

(** X18.  The text that [sanitize_input] returns holds none of the
    characters [<], [>] and the two quotes; it is a sequence of words, each
    without white space, separated by single blanks, so it neither begins
    nor ends with white space; it is no longer than the input, nor than
    [max_length] if that is not negative.  For a value that is not a string
    the result is the empty string. *)
Theorem sanitize_input_clean (text : string) (max_length : Z) :
  let clean := sanitize_input (PyStr text) max_length in
  all_chars (fun c => negb (is_harmful c)) clean = true
  /\ (exists ws, clean = join " " ws /\ Forall (fun w => is_word_of_text w = true) ws)
  /\ PyStr.strip clean = clean
  /\ String.length clean <= String.length text
  /\ ((0 <= max_length)%Z -> String.length clean <= Z.to_nat max_length)
  /\ (forall v, (forall s, v <> PyStr s) -> sanitize_input v max_length = "").
Proof.
  intros clean. subst clean. rewrite sanitize_input_value.
  set (u := keep_chars (fun c => negb (is_harmful c)) (slice_to max_length text)).
  assert (Hwords : Forall (fun w => is_word_of_text w = true) (split u))
    by (apply split_from_words; reflexivity).
  assert (Hlen : String.length (join " " (split u)) <= String.length u)
    by (apply (join_length "" u)).
  assert (Hu : String.length u <= String.length (slice_to max_length text))
    by apply keep_chars_length.
  split; [|split; [|split; [|split; [|split]]]].
  - apply join_all; [reflexivity|]. apply split_from_all; [reflexivity|].
    apply keep_chars_all.
  - exists (split u). auto.
  - now apply strip_join.
  - enough (String.length (slice_to max_length text) <= String.length text) by lia.
    unfold slice_to. destruct (0 <=? max_length)%Z; rewrite take_length; lia.
  - intros Hn. rewrite slice_to_length in Hu by exact Hn. lia.
  - intros v Hv. destruct v; try reflexivity. now destruct (Hv s).
Qed.

Lemma sanitize_input_clean_witness :
  sanitize_input (PyStr "  <b>Hello</b>   'world'  ") 1000 = "bHello/b world".
Proof.
  destruct (sanitize_input_clean "  <b>Hello</b>   'world'  " 1000)
    as (_ & _ & H & _).
  rewrite <- H. vm_compute. reflexivity.
Defined.

(** X19.  [sanitize_input] is idempotent: for a [max_length] that is not
    negative, sanitizing a sanitized text changes nothing. *)
Theorem sanitize_input_idempotent (text : string) (max_length : Z) :
  (0 <= max_length)%Z ->
  sanitize_input (PyStr (sanitize_input (PyStr text) max_length)) max_length
  = sanitize_input (PyStr text) max_length.
Proof.
  intros Hn. rewrite !sanitize_input_value.
  set (p := fun c => negb (is_harmful c)).
  set (u := keep_chars p (slice_to max_length text)).
  set (r := join " " (split u)).
  assert (Hwords : Forall (fun w => is_word_of_text w = true) (split u))
    by (apply split_from_words; reflexivity).
  assert (Hlen : String.length r <= Z.to_nat max_length).
  { pose proof (join_length "" u) as H1. fold (split u) in H1. fold r in H1.
    pose proof (keep_chars_length p (slice_to max_length text)) as H2. fold u in H2.
    rewrite slice_to_length in H2 by exact Hn. cbn [String.length] in H1. lia. }
  assert (Hslice : slice_to max_length r = r).
  { unfold slice_to. destruct (0 <=? max_length)%Z eqn:E.
    - now apply take_all.
    - apply Z.leb_gt in E. lia. }
  assert (Hkeep : keep_chars p r = r).
  { apply keep_chars_id. apply join_all; [reflexivity|].
    apply split_from_all; [reflexivity | apply keep_chars_all]. }
  rewrite Hslice, Hkeep. unfold r at 1. now rewrite split_join.
Qed.

Lemma sanitize_input_idempotent_witness :
  sanitize_input (PyStr (sanitize_input (PyStr " a  <b> ") 5)) 5
  = sanitize_input (PyStr " a  <b> ") 5.
Proof. apply sanitize_input_idempotent. lia. Defined.

(** X20.  [truncate_text] returns a text that fits unchanged.  A longer one
    is cut so that, with the suffix, its length is exactly [max_length],
    provided the suffix itself fits; when the suffix is longer than
    [max_length] the result is longer than [max_length]. *)
Theorem truncate_text_length (text : string) (max_length : Z) (suffix : string) :
  let result := truncate_text text max_length suffix in
  ((Z.of_nat (String.length text) <= max_length)%Z -> result = text)
  /\ ((max_length < Z.of_nat (String.length text))%Z ->
      (Z.of_nat (String.length suffix) <= max_length)%Z ->
      result
      = PyStr.take (Z.to_nat max_length - String.length suffix) text +:+ suffix
      /\ Z.of_nat (String.length result) = max_length)
  /\ ((max_length < Z.of_nat (String.length text))%Z ->
      (max_length < Z.of_nat (String.length suffix))%Z ->
      (max_length < Z.of_nat (String.length result))%Z).
Proof.
  intros result. subst result. unfold truncate_text.
  destruct (Z.of_nat (String.length text) <=? max_length)%Z eqn:E.
  - apply Z.leb_le in E. split; [reflexivity|]. split; lia.
  - apply Z.leb_gt in E. split; [lia|]. split.
    + intros _ Hs. unfold slice_to.
      destruct (0 <=? max_length - Z.of_nat (String.length suffix))%Z eqn:E2;
        [|apply Z.leb_gt in E2; lia].
      replace (Z.to_nat (max_length - Z.of_nat (String.length suffix)))
        with (Z.to_nat max_length - String.length suffix) by lia.
      split; [reflexivity|]. rewrite string_length_app, take_length. lia.
    + intros _ Hs. rewrite string_length_app. lia.
Qed.

Lemma truncate_text_length_witness :
  truncate_text "The quick brown fox" 10 "..." = "The qui..."
  /\ (2 < Z.of_nat (String.length (truncate_text "abcdefgh" 2 "...")))%Z.
Proof.
  destruct (truncate_text_length "The quick brown fox" 10 "...") as (_ & H & _).
  destruct (truncate_text_length "abcdefgh" 2 "...") as (_ & _ & H').
  split.
  - destruct H as [-> _]; [vm_compute; reflexivity | vm_compute; discriminate |].
    reflexivity.
  - apply H'; vm_compute; reflexivity.
Defined.
End HelperClaims.

Section Pagination.
Import Helpers.
Context {A : Type}.

Lemma pages_concat (l : list A) (p k : nat) :
  concat (map (fun i => take p (drop ((i - 1) * p) l)) (seq 1 k)) = take (k * p) l.
Proof.
  induction k as [|k IH]; [reflexivity|].
  rewrite seq_S, map_app, concat_app, IH. cbn [map concat].
  rewrite app_nil_r. replace (1 + k - 1) with k by lia.
  rewrite take_take_drop. f_equal. lia.
Qed.

Lemma paginate_items (all : list A) (i : nat) (per_page : Z) :
  1 <= i ->
  items (paginate_list all (Z.of_nat i) per_page)
  = let p := Z.to_nat (if (per_page <? 1)%Z then 10%Z else per_page) in
    take p (drop ((i - 1) * p) all).
Proof.
  intros Hi. unfold paginate_list. cbn [items].
  destruct (Z.of_nat i <? 1)%Z eqn:E; [apply Z.ltb_lt in E; lia|].
  set (per := if (per_page <? 1)%Z then 10%Z else per_page).
  assert (Hper : (1 <= per)%Z).
  { unfold per. destruct (per_page <? 1)%Z eqn:E'; [lia|]. now apply Z.ltb_ge in E'. }
  cbv zeta. f_equal; [nia|]. f_equal. nia.
Qed.

(** X21.  [paginate_list] cuts the list into consecutive pages: the pages 1
    to [total_pages], one after the other, give back the list, in order and
    without loss or repetition.  A page holds at most [per_page] items; the
    pages up to [total_pages] are not empty and those beyond are; a page
    number below 1 stands for 1 and a page size below 1 for 10. *)
Theorem paginate_list_covers (all : list A) (per_page : Z) :
  let per := if (per_page <? 1)%Z then 10%Z else per_page in
  let pages := total_pages (paginate_list all 1 per_page) in
  concat (map (fun i => items (paginate_list all (Z.of_nat i) per_page))
              (seq 1 (Z.to_nat pages))) = all
  /\ forall page,
       let pg := paginate_list all page per_page in
       total_pages pg = pages
       /\ (Z.of_nat (length (items pg)) <= per)%Z
       /\ ((1 <= page <= pages)%Z -> items pg <> [])
       /\ ((pages < page)%Z -> items pg = [])
       /\ ((page < 1)%Z -> pg = paginate_list all 1 per_page)
       /\ (has_next pg = true <-> (Z.max 1 page < pages)%Z)
       /\ (has_prev pg = true <-> (1 < page)%Z).
Proof.
  intros per pages.
  assert (Hper : (1 <= per)%Z).
  { unfold per. destruct (per_page <? 1)%Z eqn:E'; [lia|]. now apply Z.ltb_ge in E'. }
  set (n := Z.of_nat (length all)).
  assert (Hpages : pages = ((n + per - 1) / per)%Z) by reflexivity.
  assert (Hup : (n <= pages * per)%Z).
  { rewrite Hpages. pose proof (Z.mul_succ_div_gt (n + per - 1) per ltac:(lia)). nia. }
  assert (Hlow : (0 < n -> (pages - 1) * per < n)%Z).
  { rewrite Hpages. pose proof (Z.mul_div_le (n + per - 1) per ltac:(lia)). nia. }
  assert (H0 : (0 <= pages)%Z).
  { rewrite Hpages. apply Z.div_pos; lia. }
  split.
  - rewrite (map_ext_in _ (fun i => take (Z.to_nat per)
                                      (drop ((i - 1) * Z.to_nat per) all))).
    + rewrite pages_concat. apply take_ge. unfold n in Hup. nia.
    + intros i Hi. apply in_seq in Hi. now rewrite paginate_items by lia.
  - intros page pg. subst pg. unfold paginate_list.
    cbn [items total_pages has_next has_prev]. fold per n.
    set (page' := if (page <? 1)%Z then 1%Z else page).
    assert (Hpage' : page' = Z.max 1 page).
    { unfold page'. destruct (page <? 1)%Z eqn:E;
        [apply Z.ltb_lt in E | apply Z.ltb_ge in E]; lia. }
    split; [reflexivity|]. split.
    { rewrite length_take. lia. }
    split.
    { intros Hp Hnil. apply (f_equal length) in Hnil.
      rewrite length_take, length_drop in Hnil. cbn [length] in Hnil.
      assert (Hz : n = 0%Z -> pages = 0%Z).
      { intros Hn. rewrite Hpages, Hn. apply Z.div_small. lia. }
      assert (Hn : (0 < n)%Z) by (unfold n in *; lia).
      specialize (Hlow Hn). unfold n in *. nia. }
    split.
    { intros Hp. rewrite drop_ge; [apply take_nil|]. unfold n in *. nia. }
    split.
    { intros Hp. unfold page'. destruct (page <? 1)%Z eqn:E; [reflexivity|].
      apply Z.ltb_ge in E. lia. }
    split.
    { rewrite Z.ltb_lt, Hpage'. fold pages. rewrite <- Hpages. reflexivity. }
    rewrite Z.ltb_lt, Hpage'. lia.
Qed.
End Pagination.

Lemma paginate_list_covers_witness :
  map (fun i => Helpers.items (Helpers.paginate_list [1; 2; 3; 4; 5] (Z.of_nat i) 2))
      (seq 1 3)
  = [[1; 2]; [3; 4]; [5]]
  /\ Helpers.items (Helpers.paginate_list [1; 2; 3; 4; 5] 4 2) = [].
Proof.
  destruct (paginate_list_covers [1; 2; 3; 4; 5] 2) as [_ H].
  split; [reflexivity|].
  destruct (H 4%Z) as (_ & _ & _ & H4 & _). apply H4. vm_compute. reflexivity.
Defined.

(** ** app/routes/chat.py *)

Section Routes.
Import ConversationService Spec ChatRoutes.

(** X22.  [send_message] rejects without calling the service, drawing
    from the environment or touching the registry.  A request whose body
    [request.get_json()] cannot read (missing, empty, not JSON) is answered
    500 with the fixed text of the route, and so is a body that parses to
    a true value that is no object and a message that is no string.  A
    body that parses to a false value (null, the empty object, list or
    string, 0, false) is answered 400, and so is a message that is absent,
    empty or only white space. *)
Theorem send_message_rejects (env : Env) (request : GetJson) (w : World) :
  (request = Unreadable ->
   send_message env request w = (Error 500 "Internal server error", w))
  /\ (forall data, request = Parsed data -> json_truthy data = false ->
        send_message env request w = (Error 400 "No JSON data provided", w))
  /\ (forall v, request = Parsed (JOther v) -> (forall n, v <> PyDict n) ->
        truthy v = true ->
        send_message env request w = (Error 500 "Internal server error", w))
  /\ (forall fields, request = Parsed (JObject fields) -> fields <> ∅ ->
        (fields !! "message" = None ->
         send_message env request w = (Error 400 "Message is required", w))
        /\ (forall raw, fields !! "message" = Some (PyStr raw) ->
              PyStr.strip raw = "" ->
              send_message env request w = (Error 400 "Message is required", w))
        /\ (forall v, fields !! "message" = Some v -> (forall s, v <> PyStr s) ->
              send_message env request w = (Error 500 "Internal server error", w))).
Proof.
  split; [|split; [|split]].
  - intros ->. reflexivity.
  - intros data -> H. cbn [send_message]. unfold send_message_parsed. now rewrite H.
  - intros v -> _ H. cbn [send_message]. unfold send_message_parsed.
    cbn [json_truthy]. now rewrite H.
  - intros fields -> Hne.
    assert (Ht : json_truthy (JObject fields) = true).
    { cbn [json_truthy]. apply negb_true_iff. now apply bool_decide_eq_false. }
    cbn [send_message]. unfold send_message_parsed. rewrite Ht. cbn [negb].
    split; [|split].
    + intros ->. reflexivity.
    + intros raw -> Hs. cbn [default from_option]. unfold id.
      now rewrite Hs.
    + intros v -> Hv. cbn [default from_option]. unfold id.
      destruct v; try reflexivity. now destruct (Hv s).
Qed.

Lemma send_message_rejects_witness :
  send_message Samples.env0 (Parsed (JObject {[ "message" := PyStr "   " ]}))
    Samples.w10
  = (Error 400 "Message is required", Samples.w10)
  /\ send_message Samples.env0 Unreadable Samples.w10
     = (Error 500 "Internal server error", Samples.w10).
Proof.
  destruct (send_message_rejects Samples.env0
              (Parsed (JObject {[ "message" := PyStr "   " ]})) Samples.w10)
    as (_ & _ & _ & H).
  destruct (send_message_rejects Samples.env0 Unreadable Samples.w10) as (Hraise & _).
  destruct (H {[ "message" := PyStr "   " ]} eq_refl) as (_ & H' & _).
  - intros E. apply (f_equal (fun m => m !! "message")) in E. discriminate E.
  - split; [apply (H' "   "); reflexivity | apply Hraise; reflexivity].
Defined.

(** X23.  For a body that parses to an object whose message is a string
    with something besides white space, [send_message] hands the stripped
    and sanitized message to the service, and the world it leaves is the
    one the service leaves.  With a conversation identifier that can be
    looked up the service succeeds and the answer is 200: it carries the
    response of the envelope and, read from the metadata of the envelope,
    the identifier of the conversation that the registry returned, the
    detected intent and its confidence.  With an identifier that cannot be
    looked up (a list or an object that is not empty) the answer is 500,
    its error shows the text of the exception, and the registry is as
    before. *)
Theorem send_message_accepts (env : Env) (fields : gmap string PyValue)
    (raw : string) (w : World) :
  fields !! "message" = Some (PyStr raw) ->
  PyStr.strip raw <> "" ->
  let message := Helpers.sanitize_input (PyStr (PyStr.strip raw)) 1000 in
  let conversation_id := default PyNone (fields !! "conversation_id") in
  let user_preferences := default (PyDict 0) (fields !! "user_preferences") in
  let served := process_message env message conversation_id user_preferences w in
  let answer := send_message env (Parsed (JObject fields)) w in
  let intent := _detect_intent message Samples.no_conversation in
  snd answer = snd served
  /\ (usable_id conversation_id = true ->
      exists response c0 w1,
        _get_or_create_conversation env conversation_id user_preferences w
        = (Returned c0, w1)
        /\ APIResponse.success (fst served) = true
        /\ APIResponse.data (fst served) = Some response
        /\ APIResponse.metadata (fst served) !! "conversation_id"
           = Some (PyStr (Conversation.id c0))
        /\ APIResponse.metadata (fst served) !! "intent"
           = Some (PyStr (UserIntent.intent intent))
        /\ APIResponse.metadata (fst served) !! "confidence"
           = Some (PyFloat (UserIntent.confidence intent))
        /\ fst answer
           = Ok response
               (APIResponse.metadata (fst served) !! "conversation_id")
               (APIResponse.metadata (fst served) !! "intent")
               (APIResponse.metadata (fst served) !! "confidence"))
  /\ (forall type_name,
        truthy conversation_id = true ->
        unhashable conversation_id = Some type_name ->
        fst answer
        = Error 500 ("Failed to process message: unhashable type: '"
                       +:+ type_name +:+ "'")
        /\ APIResponse.error (fst served)
           = Some ("Failed to process message: unhashable type: '"
                     +:+ type_name +:+ "'")
        /\ conversations (snd answer) = conversations w).
Proof.
  intros Hm Hs message conversation_id user_preferences served answer intent.
  assert (Hne : fields <> ∅).
  { intros ->. rewrite lookup_empty in Hm. discriminate. }
  assert (Ht : json_truthy (JObject fields) = true).
  { cbn [json_truthy]. apply negb_true_iff. now apply bool_decide_eq_false. }
  assert (Hsend : answer
                  = let (response, w') := served in
                    if APIResponse.success response then
                      match APIResponse.data response with
                      | Some data =>
                          (Ok data
                             (APIResponse.metadata response !! "conversation_id")
                             (APIResponse.metadata response !! "intent")
                             (APIResponse.metadata response !! "confidence"), w')
                      | None => (Error 500 "Internal server error", w')
                      end
                    else (Error 500 (str_of_optional (APIResponse.error response)), w')).
  { unfold answer. cbn [send_message]. unfold send_message_parsed.
    rewrite Ht, Hm. cbn [negb default from_option]. unfold id.
    destruct (String.eqb_spec (PyStr.strip raw) ""); [contradiction|]. reflexivity. }
  split; [|split].
  - rewrite Hsend. destruct served as [response w'].
    destruct (APIResponse.success response); [destruct (APIResponse.data response)|];
      reflexivity.
  - intros Hus.
    destruct (get_or_create_usable env conversation_id user_preferences w Hus)
      as (c0 & w1 & Hgoc).
    destruct (process_message_returns env message _ _ _ _ _ Hgoc)
      as (c1 & w1' & resp & w2 & w3 & ts & _ & Hp).
    exists resp, c0, w1. split; [exact Hgoc|].
    rewrite Hsend. unfold served. rewrite Hp.
    unfold intent.
    rewrite (detect_intent_conversation message c1 Samples.no_conversation).
    cbn [fst APIResponse.success APIResponse.data APIResponse.metadata].
    repeat (split; [reflexivity|]). reflexivity.
  - intros ty Htr Hu.
    assert (Hgoc : _get_or_create_conversation env conversation_id user_preferences w
                   = (Raised (TypeError ("unhashable type: '" +:+ ty +:+ "'")), w)).
    { unfold _get_or_create_conversation, bind, get_conversations, known.
      now rewrite Htr, Hu. }
    rewrite Hsend. unfold served.
    rewrite (process_message_raised env message _ _ _ _ _ Hgoc).
    cbn [fst snd APIResponse.success APIResponse.error str_of_optional
         str_of_exception conversations]. split; [|split]; reflexivity.
Qed.

Lemma send_message_accepts_witness :
  fst (send_message Samples.env0
         (Parsed (JObject {[ "message" := PyStr " hi ";
                             "conversation_id" := PyList 1 ]}))
         Samples.w0)
  = Error 500 "Failed to process message: unhashable type: 'list'".
Proof.
  assert (Hm : ({[ "message" := PyStr " hi "; "conversation_id" := PyList 1 ]}
                  : gmap string PyValue) !! "message" = Some (PyStr " hi "))
    by (vm_compute; reflexivity).
  assert (Hs : PyStr.strip " hi " <> "") by (vm_compute; discriminate).
  destruct (send_message_accepts Samples.env0 _ " hi " Samples.w0 Hm Hs)
    as (_ & _ & H).
  destruct (H "list") as (-> & _ & _); vm_compute; reflexivity.
Defined.

(** X24.  The history route always answers 200.  It returns the last
    messages of the conversation, as many as the limit clamped between 1
    and 100 (20 if none is given) if there are as many, and so never more
    than 100.  For a conversation that is not registered it returns no
    message, still with 200, where [get_conversation_info] answers 404. *)
Theorem history_route_is_clamped (conversation_id : string) (limit : option Z)
    (w : World) :
  let answer := ChatRoutes.get_conversation_history conversation_id limit w in
  let clamped := Z.to_nat (Z.max 1 (Z.min (default 20%Z limit) 100)) in
  fst answer = 200
  /\ 1 <= clamped <= 100
  /\ length (snd answer) <= clamped
  /\ (ODict.get conversation_id (conversations w) = None ->
      snd answer = []
      /\ ChatRoutes.get_conversation_info conversation_id w = (404, None))
  /\ (forall c,
        ODict.get conversation_id (conversations w) = Some c ->
        (exists older, Conversation.messages c = older ++ snd answer)
        /\ length (snd answer) = Nat.min clamped (length (Conversation.messages c))
        /\ ChatRoutes.get_conversation_info conversation_id w
           = (200, Some (Conversation.id c, length (Conversation.messages c)))).
Proof.
  intros answer clamped. subst answer.
  unfold ChatRoutes.get_conversation_history, ChatRoutes.get_conversation_info,
    ConversationService.get_conversation_history, ConversationService.get_conversation.
  cbn [fst snd].
  set (l := Z.max 1 (Z.min (default 20%Z limit) 100)).
  assert (Hl : (1 <= l <= 100)%Z) by (unfold l; lia).
  assert (Hpos : (0 <? l)%Z = true) by (apply Z.ltb_lt; lia).
  split; [reflexivity|]. split; [unfold clamped; fold l; lia|].
  destruct (ODict.get conversation_id (conversations w)) as [c|].
  - unfold slice_from_minus. rewrite Hpos.
    split; [rewrite last_n_length; unfold clamped; fold l; lia|].
    split; [discriminate|]. intros c' [= <-].
    split; [|split; [apply last_n_length | reflexivity]].
    exists (take (length (Conversation.messages c) - Z.to_nat l)
              (Conversation.messages c)).
    symmetry. apply last_n_suffix.
  - split; [cbn; lia|]. split; [auto | discriminate].
Qed.

Lemma history_route_is_clamped_witness :
  length (snd (ChatRoutes.get_conversation_history "c" (Some 1000%Z)
                 (MkWorld [("c", Samples.full_conversation)] 0))) = 50
  /\ ChatRoutes.get_conversation_history "nobody" None Samples.w10 = (200, []).
Proof.
  destruct (history_route_is_clamped "c" (Some 1000%Z)
              (MkWorld [("c", Samples.full_conversation)] 0)) as (_ & _ & _ & _ & H).
  destruct (history_route_is_clamped "nobody" None Samples.w10) as (_ & _ & _ & H' & _).
  split.
  - destruct (H Samples.full_conversation eq_refl) as (_ & -> & _). reflexivity.
  - destruct (H' eq_refl) as [Hnil _].
    rewrite (surjective_pairing (ChatRoutes.get_conversation_history _ _ _)).
    now rewrite Hnil.
Defined.
End Routes.

Section CleanText.
Import Helpers Notions.

Lemma all_chars_weaken (p q : ascii -> bool) (s : string) :
  (forall c, p c = true -> q c = true) -> all_chars p s = true -> all_chars q s = true.
Proof.
  intros Hpq. induction s as [|c s IH]; [reflexivity|]. cbn [all_chars].
  intros H. apply andb_true_iff in H as [Hc H]. now rewrite (Hpq c Hc), IH.
Qed.

Lemma all_chars_lstrip (p : ascii -> bool) (s : string) :
  all_chars p s = true -> all_chars p (PyStr.lstrip s) = true.
Proof.
  induction s as [|c s IH]; [reflexivity|]. intros H. cbn [PyStr.lstrip].
  destruct (PyStr.is_space c); [|exact H].
  cbn [all_chars] in H. apply andb_true_iff in H as [_ H]. now apply IH.
Qed.

Lemma all_chars_rstrip (p : ascii -> bool) (s : string) :
  all_chars p s = true -> all_chars p (PyStr.rstrip s) = true.
Proof.
  induction s as [|c s IH]; [reflexivity|]. cbn [all_chars PyStr.rstrip].
  intros H. apply andb_true_iff in H as [Hc H]. specialize (IH H).
  destruct (PyStr.rstrip s).
  - destruct (PyStr.is_space c); [reflexivity|]. cbn [all_chars]. now rewrite Hc.
  - cbn [all_chars] in IH |- *. now rewrite Hc, IH.
Qed.

Lemma keep_chars_ext (p q : ascii -> bool) (s : string) :
  (forall c, p c = q c) -> keep_chars p s = keep_chars q s.
Proof.
  intros Hpq. induction s as [|c s IH]; [reflexivity|]. cbn [keep_chars].
  now rewrite Hpq, IH.
Qed.

Lemma keep_chars_app (p : ascii -> bool) (a b : string) :
  keep_chars p (a +:+ b) = keep_chars p a +:+ keep_chars p b.
Proof.
  induction a as [|c a IH]; [reflexivity|]. rewrite string_app_cons.
  cbn [keep_chars]. rewrite IH. now destruct (p c).
Qed.

Lemma word_not_space (c : ascii) : PyStr.is_word c = true -> PyStr.is_space c = false.
Proof.
  destruct c as [[] [] [] [] [] [] [] []]; vm_compute; congruence.
Qed.

(** Removing the special characters keeps what is a word character or
    white space. *)
Lemma clean_text_special (text : string) :
  clean_text text true true
  = PyStr.strip (keep_chars (fun c => PyStr.is_word c || PyStr.is_space c)
                   (join " " (split text))).
Proof.
  unfold clean_text. rewrite sub_class_deletes. f_equal.
  apply keep_chars_ext. intros c. apply negb_involutive.
Qed.

(** X25.  With its default options [clean_text] returns the words of the
    text separated by single blanks, and is idempotent.  With both options
    every character of the result is a letter, a digit, an underscore or
    white space, and the result neither begins nor ends with white space. *)
Theorem clean_text_normalizes (text : string) :
  let cleaned := clean_text text true false in
  let plain := clean_text text true true in
  (exists ws, cleaned = join " " ws /\ split text = ws
              /\ Forall (fun w => is_word_of_text w = true) ws)
  /\ clean_text cleaned true false = cleaned
  /\ all_chars (fun c => PyStr.is_word c || PyStr.is_space c) plain = true
  /\ PyStr.strip plain = plain.
Proof.
  intros cleaned plain.
  assert (Hwords : Forall (fun w => is_word_of_text w = true) (split text))
    by (apply split_from_words; reflexivity).
  assert (Hc : cleaned = join " " (split text)).
  { unfold cleaned, clean_text. now apply strip_join. }
  split; [|split; [|split]].
  - exists (split text). auto.
  - rewrite Hc. unfold clean_text. rewrite split_join by exact Hwords.
    now apply strip_join.
  - unfold plain. rewrite clean_text_special. unfold PyStr.strip.
    apply all_chars_rstrip, all_chars_lstrip, keep_chars_all.
  - unfold plain. rewrite clean_text_special. apply strip_idempotent.
Qed.

(** X26.  [clean_text] collapses white space before it removes the special
    characters, so with both options the result can hold two blanks in a
    row: between two words [a] and [b] of letters, digits and underscores,
    a lone special character such as [&] leaves both of its blanks. *)
Theorem clean_text_leaves_double_blank (a b : string) :
  a <> "" -> b <> "" ->
  all_chars PyStr.is_word a = true -> all_chars PyStr.is_word b = true ->
  clean_text (a +:+ " & " +:+ b) true true = a +:+ "  " +:+ b.
Proof.
  intros Ha Hb Hwa Hwb.
  assert (Hns : forall s, all_chars PyStr.is_word s = true ->
                  all_chars (fun c => negb (PyStr.is_space c)) s = true).
  { intros s. apply all_chars_weaken. intros c Hc.
    now rewrite (word_not_space c Hc). }
  assert (Hkeep : forall s, all_chars PyStr.is_word s = true ->
                    all_chars (fun c => PyStr.is_word c || PyStr.is_space c) s = true).
  { intros s. apply all_chars_weaken. now intros c ->. }
  assert (Hword : forall s, s <> "" -> all_chars PyStr.is_word s = true ->
                    is_word_of_text s = true).
  { intros s Hs Hw. unfold is_word_of_text. rewrite (Hns s Hw).
    destruct (String.eqb_spec s ""); [contradiction | reflexivity]. }
  rewrite clean_text_special.
  change (a +:+ " & " +:+ b) with (join " " [a; "&"; b]).
  rewrite split_join
    by (apply Forall_cons; split; [now apply Hword|];
        apply Forall_cons; split; [reflexivity|];
        apply Forall_cons; split; [now apply Hword | apply Forall_nil_2]).
  change (join " " [a; "&"; b]) with (a +:+ " & " +:+ b).
  rewrite keep_chars_app, (keep_chars_id _ a (Hkeep a Hwa)).
  change (" & " +:+ b) with (String " " (String "&" (String " " b))).
  cbn [keep_chars]. change (PyStr.is_word " " || PyStr.is_space " ") with true.
  change (PyStr.is_word "&" || PyStr.is_space "&") with false. cbn iota.
  rewrite (keep_chars_id _ b (Hkeep b Hwb)).
  change (String " " (String " " b)) with ("  " +:+ b).
  unfold PyStr.strip. rewrite lstrip_id.
  - rewrite rstrip_app; [rewrite rstrip_app|].
    + now rewrite (rstrip_no_space b (Hns b Hwb)).
    + now rewrite (rstrip_no_space b (Hns b Hwb)).
    + rewrite rstrip_app by now rewrite (rstrip_no_space b (Hns b Hwb)).
      discriminate.
  - destruct a as [|c a]; [contradiction|]. rewrite string_app_cons.
    cbn [head_not_space all_chars] in Hwa |- *.
    apply andb_true_iff in Hwa as [Hc _]. now rewrite (word_not_space c Hc).
Qed.

Lemma clean_text_leaves_double_blank_witness :
  clean_text "salt & pepper" true true = "salt  pepper".
Proof.
  apply (clean_text_leaves_double_blank "salt" "pepper");
    first [discriminate | reflexivity].
Defined.
End CleanText.
